(** * Wallpaper state and automation engine (config/niri/scripts/wallpaper.py)

    A shallow embedding of the wallpaper script: the persisted state under
    the cache root, the external tools it drives, the three worker threads of
    [set_wallpaper], and the background automation loop with its pid file.

    Python values are modelled as follows.
    - [str] and [pathlib.Path] are [string]; paths are kept normalised, so
      [Path(s)] is [s] and [str(p)] is [p].  The string functions are those
      of Python on ASCII text ([PyStr.is_ascii]).
    - [int] is [Z].
    - The file system is a finite map from paths to nodes, the process table
      a finite map from pids to processes.  The map holds each entry under
      its path in plain form ([PyPath.plain]): a statement about a path that
      names no entry asks for that form, since another spelling of the path
      of an entry is not a key of the map.
    - Every effect is an operation of a free monad; an interpreter runs the
      operations on an explicit [world].
    - A program is either installed, and then runs to its end with an exit
      status, or not found.  An installed program that cannot be launched
      ([PermissionError] and other [OSError]s of [subprocess.run]) is outside
      the worlds of the model. *)

From Stdlib Require Import ZArith Ascii String List Decimal DecimalString DecimalZ Lia.
From stdpp Require Import base option list gmap strings fin_maps.

Local Open Scope string_scope.
Local Open Scope Z_scope.

(** ** Python strings *)

Module PyStr.

Definition chars (s : string) : list ascii := list_ascii_of_string s.
Definition of_chars (l : list ascii) : string := string_of_list_ascii l.

(** ASCII whitespace, the part of [str.isspace] a byte string can hold. *)
Definition is_space (c : ascii) : bool :=
let n := nat_of_ascii c in
((9 <=? n)%nat && (n <=? 13)%nat) || ((28 <=? n)%nat && (n <=? 32)%nat).

Fixpoint lstrip (l : list ascii) : list ascii :=
match l with
| c :: l' => if is_space c then lstrip l' else l
| [] => []
end.

(** [s.strip()] *)
Definition strip (s : string) : string :=
of_chars (rev (lstrip (rev (lstrip (chars s))))).

Definition lower_char (c : ascii) : ascii :=
let n := nat_of_ascii c in
if ((65 <=? n)%nat && (n <=? 90)%nat)%bool then ascii_of_nat (n + 32) else c.

(** [s.lower()] on ASCII letters. *)
Definition lower (s : string) : string := of_chars (map lower_char (chars s)).

Definition is_digit (c : ascii) : bool :=
let n := nat_of_ascii c in ((48 <=? n)%nat && (n <=? 57)%nat)%bool.

(** Digit groups of an integer literal: digits, with single underscores
  allowed between two digits.  Returns the digits without underscores. *)
Fixpoint digit_groups (prev_digit : bool) (l : list ascii) : option (list ascii) :=
match l with
| [] => if prev_digit then Some [] else None
| c :: l' =>
    if is_digit c then cons c <$> digit_groups true l'
    else if (Ascii.eqb c "_" && prev_digit)%bool then digit_groups false l'
    else None
end.

Definition Z_of_digits (l : list ascii) : option Z :=
Z.of_uint <$> NilZero.uint_of_string (of_chars l).

(** [int(s)] for a byte string: surrounding whitespace, an optional sign,
  decimal digits with optional underscores.  [None] is [ValueError]. *)
Definition int (s : string) : option Z :=
match chars (strip s) with
| "-"%char :: l => Z.opp <$> (digit_groups false l ≫= Z_of_digits)
| "+"%char :: l => digit_groups false l ≫= Z_of_digits
| l => digit_groups false l ≫= Z_of_digits
end.

(** [str(n)] for an integer. *)
Definition str (n : Z) : string := NilZero.string_of_int (Z.to_int n).

(** [" ".join(l)] *)
Definition join_space (l : list string) : string := String.concat " " l.

(** [s.isascii()]: every character is below 128.  The functions above are
  those of Python on such text; [str.strip] and [int] also know the
  whitespace and the digits of Unicode, which they do not model. *)
Definition is_ascii (s : string) : bool :=
forallb (fun c => (nat_of_ascii c <? 128)%nat) (chars s).

Fixpoint rfind_dot (l : list ascii) (i : nat) (found : option nat) : option nat :=
match l with
| [] => found
| c :: l' => rfind_dot l' (S i) (if Ascii.eqb c "." then Some i else found)
end.

End PyStr.

(** ** pathlib *)

Module PyPath.

(** Split on ["/"]; the accumulator holds the current component reversed. *)
Fixpoint split_slash (l : list ascii) (acc : list ascii) : list (list ascii) :=
match l with
| [] => [rev acc]
| c :: l' =>
    if Ascii.eqb c "/" then rev acc :: split_slash l' [] else split_slash l' (c :: acc)
end.

Definition is_part (c : list ascii) : bool :=
negb (bool_decide (c = []) || bool_decide (c = ["."%char])).

(** [PurePosixPath(s).parts] without the root: empty and ["."] components
  are dropped. *)
Definition parts (s : string) : list (list ascii) :=
filter (fun c => is_part c = true) (split_slash (PyStr.chars s) []).

(** [Path(s).name]: the final component, [""] when there is none. *)
Definition name (s : string) : string :=
PyStr.of_chars (List.last (parts s) []).

(** [Path(s).suffix]: the part of the name from its last dot on, unless
  that dot starts or ends the name. *)
Definition suffix (s : string) : string :=
let n := PyStr.chars (name s) in
match PyStr.rfind_dot n 0 None with
| Some i =>
    if ((0 <? i)%nat && (i <? length n - 1)%nat)%bool
    then PyStr.of_chars (drop i n) else ""
| None => ""
end.

Definition is_absolute (s : string) : bool := String.prefix "/" s.

Definition ends_with_slash (s : string) : bool :=
match rev (PyStr.chars s) with
| c :: _ => Ascii.eqb c "/"
| [] => false
end.

(** The text of a directory path followed by a separator. *)
Definition dir_prefix (d : string) : string :=
if ends_with_slash d then d else d +:+ "/".

(** [a / b]: an absolute right operand replaces the left one. *)
Definition join (a b : string) : string :=
if is_absolute b then b else dir_prefix a +:+ b.

(** [p] lies strictly below directory [d]. *)
Definition below (d p : string) : bool :=
(String.prefix (dir_prefix d) p && negb (String.eqb p (dir_prefix d)))%bool.

(** The characters of a reversed path from its last separator on. *)
Fixpoint skip_name (l : list ascii) : list ascii :=
match l with
| [] => []
| c :: l' => if Ascii.eqb c "/" then l else skip_name l'
end.

(** [Path(s).parent] of a normalised path: the text before the last
  separator. *)
Definition parent (s : string) : string :=
match skip_name (rev (PyStr.chars s)) with
| [] => "."
| [_] => "/"
| _ :: d => PyStr.of_chars (rev d)
end.

(** [s] holds no separator: a file name, not a path. *)
Definition no_sep (s : string) : bool :=
forallb (fun c => negb (Ascii.eqb c "/")) (PyStr.chars s).

(** A component that names an entry: not empty, not ["."], not [".."]. *)
Definition is_name (c : list ascii) : bool :=
(is_part c && negb (bool_decide (c = [("."%char); ("."%char)])))%bool.

(** An absolute path in the form under which the file system map holds
  it: after the root, components that all name entries, so that it has no
  doubled or trailing separator and no ["."] or [".."] to resolve.  For
  such a path a lookup in the map is what the operating system finds. *)
Definition plain (s : string) : bool :=
match split_slash (PyStr.chars s) [] with
| [] :: c :: rest => forallb is_name (c :: rest)
| _ => false
end.

End PyPath.

Infix "</>" := PyPath.join (at level 40, left associativity).

(** ** The world the script runs in *)

(** Python exceptions raised in the modelled code.  [OSError] stands for a
    failed [fork].  [ProcessGroupSignal] marks [os.kill] with a pid that is
    not positive: such a call addresses a process group, which the process
    table below does not track. *)
Inductive exn : Type :=
| OSError
| FileNotFoundError
| IsADirectoryError
| SameFileError
| CalledProcessError
| ProcessLookupError
| PermissionError
| OverflowError
| ValueError
| IndexError
| SystemExit (code : Z)
| ProcessGroupSignal
| NotADirectoryError.

#[global] Instance exn_eq_dec : EqDecision exn.
Proof. solve_decision. Defined.

Inductive node : Type :=
| File (content : string)
| Dir.

#[global] Instance node_eq_dec : EqDecision node.
Proof. solve_decision. Defined.

(** A live process: its command line, and whether the user running the
    script may signal it. *)
Record process : Type := Process { argv : list string; owned : bool }.

#[global] Instance process_eq_dec : EqDecision process.
Proof. solve_decision. Defined.

(** Effects that leave the script, in the order they happen. *)
Inductive event : Type :=
| EvRun (cmd : list string) (ok : bool)   (* subprocess.run ran cmd; ok: exit status 0 *)
| EvSpawn (cmd : list string) (pid : Z)   (* subprocess.Popen started cmd *)
| EvSignal (pid : Z)                      (* SIGTERM delivered *)
| EvWrite (path content : string)
| EvCopy (src dst : string)
| EvUnlink (path : string)
| EvSleep (secs : Z).

#[global] Instance event_eq_dec : EqDecision event.
Proof. solve_decision. Defined.

Record world : Type := World {
  fs : gmap string node;               (* files and directories *)
  tools : gset string;                 (* executables that can be started *)
  procs : gmap Z process;              (* live processes *)
  exit_ok : nat -> list string -> bool;  (* does the n-th effect, running cmd, exit with 0 *)
  pid_alloc : gset Z -> Z;             (* pid a new process gets, given the live ones *)
  rand : nat -> nat;                   (* the n-th random draw *)
  draws : nat;
  trace : list event;
  console : list (bool * string)       (* printed lines; true: stderr *)
}.

Definition set_fs (f : gmap string node) (w : world) : world :=
  World f (tools w) (procs w) (exit_ok w) (pid_alloc w) (rand w) (draws w) (trace w) (console w).
Definition set_procs (p : gmap Z process) (w : world) : world :=
  World (fs w) (tools w) p (exit_ok w) (pid_alloc w) (rand w) (draws w) (trace w) (console w).
Definition set_draws (n : nat) (w : world) : world :=
  World (fs w) (tools w) (procs w) (exit_ok w) (pid_alloc w) (rand w) n (trace w) (console w).
Definition emit (e : event) (w : world) : world :=
  World (fs w) (tools w) (procs w) (exit_ok w) (pid_alloc w) (rand w) (draws w)
        (trace w ++ [e]) (console w).
Definition print_line (err : bool) (line : string) (w : world) : world :=
  World (fs w) (tools w) (procs w) (exit_ok w) (pid_alloc w) (rand w) (draws w)
        (trace w) (console w ++ [(err, line)]).

Definition is_file_node (n : option node) : bool :=
  match n with Some (File _) => true | _ => false end.

(** Events that start or run an external program. *)
Definition is_invocation (e : event) : bool :=
  match e with EvRun _ _ | EvSpawn _ _ => true | _ => false end.

Definition invocations (w : world) : list event :=
  filter (fun e => is_invocation e = true) (trace w).

(** ** Operations and the free monad over them *)

(** Outcome of [subprocess.run]: the program ran and exited, or the
    executable was not found. *)
Inductive run_result : Type :=
| Exited (ok : bool)
| NotFound.

Inductive op : Type -> Type :=
| Which (name : string) : op bool                        (* shutil.which *)
| Print (err : bool) (line : string) : op unit
| SubprocessRun (cmd : list string) : op run_result
| Popen (cmd : list string) : op (Z + exn)%type
| Exists (p : string) : op bool
| IsFile (p : string) : op bool
| ReadText (p : string) : op (string + exn)%type
| WriteText (p content : string) : op (unit + exn)%type
| Unlink (p : string) (missing_ok : bool) : op (unit + exn)%type
| Copy (src dst : string) : op (unit + exn)%type               (* shutil.copy *)
| Rglob (d : string) : op (list string)                  (* list(d.rglob("*")) *)
| OsKill (pid : Z) : op (unit + exn)%type                      (* os.kill(pid, SIGTERM) *)
| RandBelow (n : nat) : op nat
| Sleep (secs : Z) : op unit.

Inductive free (E : Type -> Type) (A : Type) : Type :=
| Ret (a : A)
| Throw (e : exn)
| Do {B : Type} (o : E B) (k : B -> free E A).

Arguments Ret {E A} a.
Arguments Throw {E A} e.
Arguments Do {E A B} o k.

Fixpoint bind {E A B} (m : free E A) (f : A -> free E B) : free E B :=
  match m with
  | Ret a => f a
  | Throw e => Throw e
  | Do o k => Do o (fun b => bind (k b) f)
  end.

(** [try: m except ...: h]: [h e] is [None] for an exception the handler
    does not name. *)
Fixpoint catch {E A} (m : free E A) (h : exn -> option (free E A)) : free E A :=
  match m with
  | Ret a => Ret a
  | Throw e => match h e with Some m' => m' | None => Throw e end
  | Do o k => Do o (fun b => catch (k b) h)
  end.

Declare Scope py_scope.
Delimit Scope py_scope with py.
Notation "x ← y ; z" := (bind y (fun x => z))
  (at level 20, y at level 100, z at level 200, only parsing) : py_scope.
Notation "y ;; z" := (bind y (fun _ => z))
  (at level 100, z at level 200, only parsing, right associativity) : py_scope.
Local Open Scope py_scope.

(** Sequential programs, and programs that also start and join threads. *)
Abbreviation io := (free op).

Inductive thread_op : Type -> Type :=
| Start (body : io unit) : thread_op nat     (* Thread(target=...).start() *)
| JoinThread (t : nat) : thread_op unit.      (* t.join() *)

Inductive prog_op (B : Type) : Type :=
| Seq (o : op B)
| Thr (o : thread_op B).
Arguments Seq {B} o.
Arguments Thr {B} o.

Abbreviation prog := (free prog_op).

Definition perform {B} (o : op B) : io B := Do o Ret.

(** An operation that can raise. *)
Definition attempt {B} (o : op (B + exn)%type) : io B :=
  Do o (fun r => match r with inl b => Ret b | inr e => Throw e end).

Fixpoint lift {A} (c : io A) : prog A :=
  match c with
  | Ret a => Ret a
  | Throw e => Throw e
  | Do o k => Do (Seq o) (fun b => lift (k b))
  end.

(** ** Running operations *)

(** The range of the C [int] that [os.kill] converts its pid to. *)
Definition in_pid_range (pid : Z) : bool := (- 2 ^ 31 <=? pid) && (pid <? 2 ^ 31).

(** A process identifier: positive and within the C [int] range. *)
Definition valid_pid (pid : Z) : Prop := 0 < pid < 2 ^ 31.

#[global] Instance valid_pid_dec pid : Decision (valid_pid pid).
Proof. unfold valid_pid. apply _. Defined.

(** The operating system can start one more process: the pid it would
    give is a valid one that no live process has. *)
Definition can_fork (w : world) : Prop :=
  valid_pid (pid_alloc w (dom (procs w))) /\ pid_alloc w (dom (procs w)) ∉ dom (procs w).

#[global] Instance can_fork_dec w : Decision (can_fork w).
Proof. unfold can_fork. apply _. Defined.

(** Name of the program a process runs. *)
Definition proc_name (p : process) : string :=
  match argv p with
  | exe :: _ => PyPath.name exe
  | [] => ""
  end.

(** What a finished external program did to the modelled state.
    - [magick src args.. out] writes [out] when it succeeds;
    - [pkill name] terminates the user's processes called [name];
    - the other tools (wallust, systemctl, makoctl, notify-send, fastfetch)
      act outside the modelled state. *)
Definition tool_effect (cmd : list string) (ok : bool) (w : world) : world :=
  match cmd with
  | "magick" :: args =>
      match rev args with
      | out :: _ :: _ =>
          if ok then set_fs (<[out := File (PyStr.join_space cmd)]> (fs w)) w else w
      | _ => w
      end
  | ["pkill"; name] =>
      set_procs (filter (fun kp => ¬ (owned kp.2 = true ∧ proc_name kp.2 = name)) (procs w)) w
  | _ => w
  end.

(** [subprocess.run(cmd)]: an installed program runs to its end, a program
    that is not installed is not found. *)
Definition exec_run (cmd : list string) (w : world) : run_result * world :=
  match cmd with
  | exe :: _ =>
      if bool_decide (exe ∈ tools w) then
        let ok := exit_ok w (length (trace w)) cmd in
        (Exited ok, tool_effect cmd ok (emit (EvRun cmd ok) w))
      else (NotFound, w)
  | [] => (NotFound, w)
  end.

Definition exec_popen (cmd : list string) (w : world) : (Z + exn) * world :=
  match cmd with
  | exe :: _ =>
      if bool_decide (exe ∈ tools w) then
        if bool_decide (can_fork w) then
          let pid := pid_alloc w (dom (procs w)) in
          (inl pid, emit (EvSpawn cmd pid) (set_procs (<[pid := Process cmd true]> (procs w)) w))
        else (inr OSError, w)
      else (inr FileNotFoundError, w)
  | [] => (inr IndexError, w)
  end.

Definition exec_read (p : string) (w : world) : (string + exn) * world :=
  match fs w !! p with
  | Some (File c) => (inl c, w)
  | Some Dir => (inr IsADirectoryError, w)
  | None => (inr FileNotFoundError, w)
  end.

Definition exec_write (p content : string) (w : world) : (unit + exn) * world :=
  match fs w !! p with
  | Some Dir => (inr IsADirectoryError, w)
  | _ => (inl tt, emit (EvWrite p content) (set_fs (<[p := File content]> (fs w)) w))
  end.

Definition exec_unlink (p : string) (missing_ok : bool) (w : world) : (unit + exn) * world :=
  match fs w !! p with
  | Some (File _) => (inl tt, emit (EvUnlink p) (set_fs (delete p (fs w)) w))
  | Some Dir => (inr IsADirectoryError, w)
  | None => (if missing_ok then inl tt else inr FileNotFoundError, w)
  end.

(** [shutil.copy(src, dst)]: a directory as [dst] receives the file under
    its own name; otherwise [dst] is opened for writing, which needs the
    directory that holds it. *)
Definition exec_copy (src dst : string) (w : world) : (unit + exn) * world :=
  match fs w !! src with
  | Some (File c) =>
      let into := bool_decide (fs w !! dst = Some Dir) in
      let target := if into then dst </> PyPath.name src else dst in
      let written := emit (EvCopy src target) (set_fs (<[target := File c]> (fs w)) w) in
      if bool_decide (target = src) then (inr SameFileError, w)
      else match fs w !! target with
           | Some Dir => (inr IsADirectoryError, w)
           | _ =>
               if into then (inl tt, written)
               else match fs w !! PyPath.parent dst with
                    | Some Dir => (inl tt, written)
                    | Some (File _) => (inr NotADirectoryError, w)
                    | None => (inr FileNotFoundError, w)
                    end
           end
  | Some Dir => (inr IsADirectoryError, w)
  | None => (inr FileNotFoundError, w)
  end.

(** Every entry strictly below a directory, files and directories alike. *)
Definition exec_rglob (d : string) (w : world) : list string :=
  match fs w !! d with
  | Some Dir => filter (fun p => PyPath.below d p = true) (map fst (map_to_list (fs w)))
  | _ => []
  end.

(** [os.kill(pid, SIGTERM)]: the signal ends a process of the user. *)
Definition exec_kill (pid : Z) (w : world) : (unit + exn) * world :=
  if negb (in_pid_range pid) then (inr OverflowError, w)
  else if pid <=? 0 then (inr ProcessGroupSignal, w)
  else match procs w !! pid with
       | None => (inr ProcessLookupError, w)
       | Some p =>
           if owned p then (inl tt, emit (EvSignal pid) (set_procs (delete pid (procs w)) w))
           else (inr PermissionError, w)
       end.

Definition exec {B} (o : op B) (w : world) : B * world :=
  match o in op B return B * world with
  | Which name => (bool_decide (name ∈ tools w), w)
  | Print err line => (tt, print_line err line w)
  | SubprocessRun cmd => exec_run cmd w
  | Popen cmd => exec_popen cmd w
  | Exists p => (bool_decide (is_Some (fs w !! p)), w)
  | IsFile p => (is_file_node (fs w !! p), w)
  | ReadText p => exec_read p w
  | WriteText p content => exec_write p content w
  | Unlink p missing_ok => exec_unlink p missing_ok w
  | Copy src dst => exec_copy src dst w
  | Rglob d => (exec_rglob d w, w)
  | OsKill pid => exec_kill pid w
  | RandBelow n => ((rand w (draws w) mod n)%nat, set_draws (S (draws w)) w)
  | Sleep secs => (tt, emit (EvSleep secs) w)
  end.

(** A sequential program run to its end: its value or the exception that
    left it, and the world it leaves. *)
Fixpoint run {A} (c : io A) (w : world) : (A + exn) * world :=
  match c with
  | Ret a => (inl a, w)
  | Throw e => (inr e, w)
  | Do o k => let '(b, w') := exec o w in run (k b) w'
  end.

(** ** Threads

    The main program and the threads it started share the world.  Each step
    runs one operation of one of them; a schedule names who moves: [0] is the
    main program, [S i] the thread with index [i]. *)

Record machine (A : Type) : Type := Machine {
  mworld : world;
  mmain : prog A;
  mthreads : list (io unit)
}.
Arguments Machine {A} _ _ _.
Arguments mworld {A} _.
Arguments mmain {A} _.
Arguments mthreads {A} _.

(** A thread is over when its target returned or raised. *)
Definition finished {E A} (t : free E A) : bool :=
  match t with
  | Do _ _ => false
  | _ => true
  end.

Definition step_thread {A} (i : nat) (m : machine A) : machine A :=
  match mthreads m !! i with
  | Some (Do o k) =>
      let '(b, w') := exec o (mworld m) in
      Machine w' (mmain m) (<[i := k b]> (mthreads m))
  | _ => m
  end.

(** [join] waits: the step does nothing until the thread is over. *)
Definition exec_thread_op {A B} (o : thread_op B) : (B -> prog A) -> machine A -> machine A :=
  match o in thread_op B return (B -> prog A) -> machine A -> machine A with
  | Start body => fun k m =>
      Machine (mworld m) (k (length (mthreads m))) (mthreads m ++ [body])
  | JoinThread t => fun k m =>
      match mthreads m !! t with
      | Some c => if finished c then Machine (mworld m) (k tt) (mthreads m) else m
      | None => m
      end
  end.

Definition step_main {A} (m : machine A) : machine A :=
  match mmain m with
  | Do (Seq o) k =>
      let '(b, w') := exec o (mworld m) in
      Machine w' (k b) (mthreads m)
  | Do (Thr o) k => exec_thread_op o k m
  | _ => m
  end.

Definition step {A} (who : nat) (m : machine A) : machine A :=
  match who with
  | O => step_main m
  | S i => step_thread i m
  end.

Definition run_schedule {A} (sched : list nat) (m : machine A) : machine A :=
  fold_left (fun m who => step who m) sched m.

(** The machine at the call of [p] in world [w], no thread started yet. *)
Definition start {A} (p : prog A) (w : world) : machine A := Machine w p [].

(** ** The script *)

(** What the script reads from its process environment. *)
Record environ : Type := Environ {
  home : string;                       (* Path.home() *)
  xdg_cache_home : option string;      (* os.environ.get("XDG_CACHE_HOME") *)
  sys_executable : string;             (* sys.executable *)
  sys_argv0 : string                   (* sys.argv[0] *)
}.

(** ANSI escape codes of class [Fmt]. *)
Module Fmt.
Definition ESC : string := String "027"%char "".
Definition RESET : string := ESC +:+ "[0m".
Definition DIM : string := ESC +:+ "[2m".
Definition ITALIC : string := ESC +:+ "[3m".
Definition RED : string := ESC +:+ "[31m".
Definition GREEN : string := ESC +:+ "[32m".
Definition YELLOW : string := ESC +:+ "[33m".
Definition BLUE : string := ESC +:+ "[34m".
Definition PURPLE : string := ESC +:+ "[35m".
Definition CYAN : string := ESC +:+ "[36m".
Definition PROP : string := ESC +:+ "[3;33m".
End Fmt.

(** Result of [run_cmd]: [True]/[False], or the [Popen] object of a
    background command. *)
Inductive cmd_result : Type :=
| Finished (ok : bool)
| Background (pid : Z).

Definition truthy (r : cmd_result) : bool :=
  match r with
  | Finished ok => ok
  | Background _ => true
  end.

(** Truth value of an optional string: [None] and [""] are false. *)
Definition nonempty (c : option string) : bool :=
  match c with
  | Some s => negb (String.eqb s "")
  | None => false
  end.

(** An optional string inside an f-string. *)
Definition fmt_opt (c : option string) : string := default "None" c.

(** [subprocess.run(cmd, check=check)] *)
Definition subprocess_run (cmd : list string) (check : bool) : io unit :=
  r ← perform (SubprocessRun cmd);
  match r with
  | Exited ok => if (check && negb ok)%bool then Throw CalledProcessError else Ret tt
  | NotFound => Throw FileNotFoundError
  end.

Definition start_thread (body : io unit) : prog nat := Do (Thr (Start body)) Ret.
Definition join_thread (t : nat) : prog unit := Do (Thr (JoinThread t)) Ret.

(** [for t in threads: t.join()] *)
Fixpoint join_all (threads : list nat) : prog unit :=
  match threads with
  | [] => Ret tt
  | t :: rest => join_thread t;; join_all rest
  end.

(** Largest number of whole seconds whose count of nanoseconds fits the
    64-bit integer Python keeps a time in. *)
Definition sleep_max : Z := 9223372036.

(** [time.sleep(secs)] for an integer: a length Python cannot represent is
    an [OverflowError], a negative one a [ValueError].  What the operating
    system makes of a length close to the bound is not modelled. *)
Definition py_sleep (secs : Z) : io unit :=
  if sleep_max <? Z.abs secs then Throw OverflowError
  else if secs <? 0 then Throw ValueError
  else perform (Sleep secs).

(** [int(s)] *)
Definition py_int {E} (s : string) : free E Z :=
  match PyStr.int s with
  | Some n => Ret n
  | None => Throw ValueError
  end.

Module Wallpaper.
Section Script.

Variable E : environ.

Definition HOME : string := home E.
Definition WALLPAPER_DIR : string := HOME </> "Pictures/wallpaper".
Definition XDG_CACHE : string := default (HOME </> ".cache") (xdg_cache_home E).
Definition CACHE_DIR : string := XDG_CACHE </> "wallpaper".
Definition GENERATED_DIR : string := CACHE_DIR </> "generated".
Definition SCRIPT_NAME : string := PyPath.name (sys_argv0 E).
Definition PID_FILE : string := CACHE_DIR </> "automation_pid".
Definition CURRENT_FILE : string := CACHE_DIR </> "current_wallpaper".

(** The line [log_info(msg)] prints to stdout. *)
Definition info_line (msg : string) : string :=
"[" +:+ Fmt.DIM +:+ SCRIPT_NAME +:+ Fmt.RESET +:+ "|" +:+ Fmt.BLUE +:+ "INFO"
+:+ Fmt.RESET +:+ "] " +:+ msg.

(** The line [log_error(msg)] prints to stderr. *)
Definition error_line (msg : string) : string :=
"[" +:+ Fmt.DIM +:+ SCRIPT_NAME +:+ Fmt.RESET +:+ "|" +:+ Fmt.RED +:+ "ERROR"
+:+ Fmt.RESET +:+ "] " +:+ msg.

Definition log_info (msg : string) : io unit := perform (Print false (info_line msg)).

Definition log_error (msg : string) : io unit := perform (Print true (error_line msg)).

Definition notify (summary body : string) : io unit :=
found ← perform (Which "notify-send");
if found then subprocess_run ["notify-send"; summary; body] false else Ret tt.

Definition run_cmd (cmd : list string) (background quiet : bool) : io cmd_result :=
let cmd_str := PyStr.join_space cmd in
(if quiet then Ret tt
else log_info ("Running: " +:+ Fmt.PROP +:+ cmd_str +:+ Fmt.RESET));;
if background then
pid ← attempt (Popen cmd); Ret (Background pid)
else
catch (subprocess_run cmd true;; Ret (Finished true))
(fun e =>
   match e with
   | CalledProcessError =>
       Some (log_error ("Command failed: " +:+ cmd_str);; Ret (Finished false))
   | FileNotFoundError =>
       Some (log_error ("Application not found: " +:+ hd "" cmd);;
             Ret (Finished false))
   | _ => None
   end).

Definition get_current_wallpaper : io string :=
let current_file := CACHE_DIR </> "current_wallpaper" in
found ← perform (Exists current_file);
if found then text ← attempt (ReadText current_file); Ret (PyStr.strip text)
else Ret (WALLPAPER_DIR </> "anime/a_tree_trunk_with_a_branch.png").

Definition launch_swaybg (wallpaper_path : string) : io bool :=
found ← perform (Which "swaybg");
if negb found then
log_error ("application not found: " +:+ Fmt.PROP +:+ "swaybg" +:+ Fmt.RESET);;
Ret false
else
log_info ("Killing any running instances of " +:+ Fmt.PROP +:+ "swaybg" +:+ Fmt.RESET);;
subprocess_run ["pkill"; "swaybg"] false;;
log_info ("Running command: " +:+ Fmt.PROP +:+ "swaybg -m fill -i " +:+ wallpaper_path
        +:+ Fmt.RESET);;
attempt (Popen ["swaybg"; "-m"; "fill"; "-i"; wallpaper_path]);;
log_info "Wallpaper set!";;
Ret true.

Definition update_themes (wallpaper_path : string) : io unit :=
found ← perform (Which "wallust");
if negb found then
log_error ("application not found: " +:+ Fmt.PROP +:+ "wallust" +:+ Fmt.RESET)
else
log_info ("Generating wallust color scheme: " +:+ Fmt.PROP +:+ "wallust run "
        +:+ wallpaper_path +:+ Fmt.RESET);;
r ← run_cmd ["wallust"; "run"; wallpaper_path] false false;
if negb (truthy r) then log_error "wallust failed, aborting..."
else
log_info ("Reloading " +:+ Fmt.PROP +:+ "waybar" +:+ Fmt.RESET +:+ "...");;
run_cmd ["systemctl"; "--user"; "restart"; "waybar.service"] false true;;
log_info ("Restarting " +:+ Fmt.PROP +:+ "mako" +:+ Fmt.RESET +:+ "...");;
run_cmd ["makoctl"; "reload"] false true;;
Ret tt.

(** The two files of an effect: the latest artifact of that kind, and the
cache entry of one source image. *)
Definition generic_file (effect : string) : string :=
CACHE_DIR </> (effect +:+ "-wallpaper.png").
Definition cache_file (wallpaper_path effect : string) : string :=
GENERATED_DIR </> (effect +:+ "-" +:+ PyPath.name wallpaper_path +:+ ".png").

Definition transform_wallpaper (wallpaper_path effect : string)
(magick_args : list string) : io unit :=
let generic_file := generic_file effect in
let cache_file := cache_file wallpaper_path effect in
cached ← perform (Exists cache_file);
if cached then
log_info ("Found cached " +:+ effect +:+ " version: " +:+ Fmt.PROP +:+ cache_file
        +:+ Fmt.RESET);;
attempt (Copy cache_file generic_file)
else
log_info ("Generating new " +:+ Fmt.PROP +:+ effect +:+ Fmt.RESET +:+ " version");;
found ← perform (Which "magick");
if negb found then
log_error ("application not found: " +:+ Fmt.PROP +:+ "imagemagick" +:+ Fmt.RESET)
else
r ← run_cmd (["magick"; wallpaper_path] ++ magick_args ++ [generic_file])%list false false;
if truthy r then attempt (Copy generic_file cache_file) else Ret tt.

Definition set_wallpaper (wallpaper_path : string) : prog bool :=
found ← lift (perform (Exists wallpaper_path));
if negb found then
lift (log_error ("File not found: " +:+ Fmt.PROP +:+ wallpaper_path +:+ Fmt.RESET));;
Ret false
else
lift (log_info ("Setting wallpaper: " +:+ Fmt.PROP +:+ wallpaper_path +:+ Fmt.RESET));;
(* 1. Theme updates *)
t_theme ← start_thread (update_themes wallpaper_path);
(* 2. Square transform *)
t_square ← start_thread
(transform_wallpaper wallpaper_path "square"
   ["-gravity"; "Center"; "-extent"; "1:1"; "-resize"; "25%"]);
(* 3. Blur transform *)
t_blur ← start_thread
(transform_wallpaper wallpaper_path "blurred" ["-blur"; "50x30"; "-resize"; "75%"]);
let threads := [t_theme; t_square; t_blur] in
(* 4. Launch Swaybg *)
shown ← lift (launch_swaybg wallpaper_path);
if negb shown then Ret false
else
(* 5. Cache current wallpaper filename *)
lift (log_info ("Caching wallpaper filename: " +:+ Fmt.PROP +:+ wallpaper_path
                +:+ Fmt.RESET));;
lift (attempt (WriteText (CACHE_DIR </> "current_wallpaper") wallpaper_path));;
(* Wait for tasks to finish *)
join_all threads;;
Ret true.

Definition extensions : list string := [".jpg"; ".jpeg"; ".png"].

Definition has_image_suffix (f : string) : bool :=
bool_decide (PyStr.lower (PyPath.suffix f) ∈ extensions).

(** [[f for f in entries if f.is_file() and f.suffix.lower() in extensions]] *)
Fixpoint image_files (entries : list string) : io (list string) :=
match entries with
| [] => Ret []
| f :: rest =>
isf ← perform (IsFile f);
images ← image_files rest;
Ret (if (isf && has_image_suffix f)%bool then f :: images else images)
end.

(** [random.choice(seq)] *)
Definition random_choice (seq : list string) : io string :=
match seq with
| [] => Throw IndexError
| _ => i ← perform (RandBelow (length seq)); Ret (nth i seq "")
end.

Definition rainbow_random : string :=
Fmt.ITALIC +:+ Fmt.RED +:+ "r" +:+ Fmt.YELLOW +:+ "a" +:+ Fmt.GREEN +:+ "n" +:+ Fmt.CYAN
+:+ "d" +:+ Fmt.BLUE +:+ "o" +:+ Fmt.PURPLE +:+ "m" +:+ Fmt.RESET.

Definition shuffle_wallpaper (category : option string) : prog bool :=
let target_dir :=
if nonempty category then WALLPAPER_DIR </> fmt_opt category else WALLPAPER_DIR in
found ← lift (perform (Exists target_dir));
if negb found then
lift (log_error ("Category not found: " +:+ Fmt.PROP +:+ fmt_opt category +:+ Fmt.RESET));;
Ret false
else
lift (match category with
    | None => log_info ("Picking a " +:+ rainbow_random +:+ " wallpaper...")
    | Some c =>
        log_info ("Picking " +:+ rainbow_random +:+ " wallpaper from " +:+ Fmt.PROP
                  +:+ c +:+ Fmt.RESET +:+ "...")
    end);;
(* Find all jpg/png files recursively *)
entries ← lift (perform (Rglob target_dir));
images ← lift (image_files entries);
match images with
| [] =>
  lift (log_error ("No images found in " +:+ Fmt.PROP +:+ target_dir +:+ Fmt.RESET));;
  Ret false
| _ =>
  chosen ← lift (random_choice images);
  set_wallpaper chosen
end.

Definition manage_automation (interval : Z) (category : option string) : io unit :=
found ← perform (Exists PID_FILE);
(if found then
catch
 (text ← attempt (ReadText PID_FILE);
  old_pid ← py_int (PyStr.strip text);
  attempt (OsKill old_pid);;
  log_info ("Existing wallpaper automation stopped " +:+ Fmt.PROP +:+ "(pid: "
            +:+ PyStr.str old_pid +:+ ")" +:+ Fmt.RESET))
 (fun e =>
    match e with
    | ProcessLookupError | ValueError =>
        Some (log_info "Cleaning abandoned automation file")
    | _ => None
    end);;
attempt (Unlink PID_FILE true)
else Ret tt);;
if 0 <? interval then
log_info ("Starting new wallpaper automation, refresh rate: " +:+ Fmt.PROP
        +:+ PyStr.str interval +:+ " sec" +:+ Fmt.RESET);;
let args :=
([sys_executable E; sys_argv0 E; "_loop"; PyStr.str interval]
 ++ (if nonempty category then [fmt_opt category] else []))%list in
pid ← attempt (Popen args);
attempt (WriteText PID_FILE (PyStr.str pid));;
log_info ("New wallpaper automation started " +:+ Fmt.PROP +:+ "(pid: "
        +:+ PyStr.str pid +:+ ")" +:+ Fmt.RESET);;
notify ("Wallpaper will change every " +:+ PyStr.str interval +:+ " seconds") ""
else
notify "Wallpaper automation stopped" "".

(** The first [rounds] iterations of [while True] in [automation_loop]. *)
Fixpoint automation_loop (rounds : nat) (interval : Z) (category : option string)
: prog unit :=
match rounds with
| O => Ret tt
| S rounds' =>
ok ← shuffle_wallpaper category;
if negb ok then
  lift (notify "Automation stopped." "Error setting wallpaper");;
  lift (attempt (Unlink PID_FILE true));;
  Throw (SystemExit 1)
else
  lift (py_sleep interval);;
  automation_loop rounds' interval category
end.

End Script.
End Wallpaper.

(** ** Sample worlds

    Concrete environments and worlds on which the theorems below are
    exercised. *)
Module Sample.

Definition E0 : environ :=
Environ "/home/u" None "/usr/bin/python3" "/home/u/bin/wallpaper.py".

Definition all_tools : gset string :=
list_to_set ["swaybg"; "pkill"; "magick"; "wallust"; "systemctl"; "makoctl";
             "notify-send"; "/usr/bin/python3"].

Definition pictures : gmap string node :=
list_to_map [("/home/u/Pictures/wallpaper", Dir);
             ("/home/u/Pictures/wallpaper/space", Dir);
             ("/home/u/Pictures/wallpaper/space/a.png", File "A");
             ("/home/u/Pictures/wallpaper/space/b.txt", File "B")].

(** Every tool installed and succeeding, no process, empty cache. *)
Definition fresh : world :=
World pictures all_tools ∅ (fun _ _ => true) (fun s => 1 + set_fold Z.max 0 s)
      (fun n => n) 0 [] [].

Definition with_tools (t : gset string) (w : world) : world :=
World (fs w) t (procs w) (exit_ok w) (pid_alloc w) (rand w) (draws w) (trace w) (console w).

Definition with_exit (f : nat -> list string -> bool) (w : world) : world :=
World (fs w) (tools w) (procs w) f (pid_alloc w) (rand w) (draws w) (trace w) (console w).

End Sample.

(** ** Vocabulary of the statements *)

(** A reload of a downstream component (waybar, mako). *)
Definition is_reload (e : event) : bool :=
  match e with
  | EvRun ("systemctl" :: _) _ | EvRun ("makoctl" :: _) _ => true
  | _ => false
  end.

(** An invocation of the image transformation. *)
Definition is_transform (e : event) : bool :=
  match e with
  | EvRun ("magick" :: _) _ => true
  | _ => false
  end.

(** Palette generation on [p] is available and succeeds in [w]. *)
Definition palette_ok (w : world) (p : string) : bool :=
  bool_decide ("wallust" ∈ tools w) && exit_ok w (length (trace w)) ["wallust"; "run"; p].

(** The world [run_cmd] hands to the program: the command is announced
    first unless [quiet]. *)
Definition announced (E : environ) (cmd : list string) (quiet : bool) (w : world) : world :=
  if quiet then w
  else print_line false
         (Wallpaper.info_line E
            ("Running: " +:+ Fmt.PROP +:+ PyStr.join_space cmd +:+ Fmt.RESET)) w.

(** The command line [transform_wallpaper] hands to ImageMagick. *)
Definition transform_cmd (E : environ) (wallpaper_path effect : string)
    (magick_args : list string) : list string :=
  (["magick"; wallpaper_path] ++ magick_args ++ [Wallpaper.generic_file E effect])%list.

(** Number of transformation invocations in a trace. *)
Definition transform_runs (l : list event) : nat :=
  length (filter (fun e => is_transform e = true) l).

(** [transform_wallpaper] finds no cache entry in [w], ImageMagick is
    installed, and its run exits with status [ok]. *)
Definition transform_exits (E : environ) (wallpaper_path effect : string)
    (magick_args : list string) (ok : bool) (w : world) : Prop :=
  fs w !! Wallpaper.cache_file E wallpaper_path effect = None
  /\ "magick" ∈ tools w
  /\ exit_ok w (length (trace w)) (transform_cmd E wallpaper_path effect magick_args) = ok.

Module SampleRuns.

Import Sample.

Definition picture : string := "/home/u/Pictures/wallpaper/space/a.png".

Definition square_args : list string :=
["-gravity"; "Center"; "-extent"; "1:1"; "-resize"; "25%"].

(** The square derivation of the sample picture. *)
Definition square : io unit := Wallpaper.transform_wallpaper E0 picture "square" square_args.

(** A world in which every external program exits with a failure. *)
Definition failing : world := with_exit (fun _ _ => false) fresh.

(** A record left behind by a loop that no longer runs. *)
Definition abandoned : world :=
set_fs (<[Wallpaper.PID_FILE E0 := File "4242"]> (fs fresh)) fresh.

(** A world without the display tool. *)
Definition no_display : world :=
  with_tools (list_to_set ["pkill"; "magick"; "wallust"; "notify-send"; "/usr/bin/python3"])
    fresh.

(** A schedule that lets the main program run up to its first join, then
    each of the three workers to its end, then the main program again. *)
Definition workers_then_main : list nat :=
  (repeat 0 20 ++ repeat 1 12 ++ repeat 2 12 ++ repeat 3 12 ++ repeat 0 5)%nat%list.

(** The world of a running loop whose display tool has gone: the record
    is there, swaybg is not. *)
Definition stuck_loop : world :=
  set_fs (<[Wallpaper.PID_FILE E0 := File "4242"]> (fs no_display)) no_display.

(** The main program up to the step before [shuffle_wallpaper] returns, and
    a continuation in which the started workers and the main program take
    turns. *)
Definition failing_round : list nat := repeat 0%nat 12.
Definition after_failure : list nat := [1; 0; 2; 0; 3; 0; 1]%nat.


End SampleRuns.

(** *** The automation record and the automation processes *)

(** The command line of the background loop. *)
Definition loop_args (E : environ) (interval : Z) (category : option string) : list string :=
  ([sys_executable E; sys_argv0 E; "_loop"; PyStr.str interval]
   ++ (if nonempty category then [fmt_opt category] else []))%list.





(** The record is stale: it does not hold an integer, or it holds a valid
    pid that names no live process. *)
Definition stale (E : environ) (w : world) : Prop :=
  exists text,
    fs w !! Wallpaper.PID_FILE E = Some (File text)
    /\ (PyStr.int (PyStr.strip text) = None
        \/ exists pid, PyStr.int (PyStr.strip text) = Some pid
                       /\ valid_pid pid /\ procs w !! pid = None).

(** The text of the record, when there is one, is ASCII: the text on which
    [PyStr.strip] and [PyStr.int] are [str.strip] and [int]. *)
Definition ascii_record (E : environ) (w : world) : bool :=
  match fs w !! Wallpaper.PID_FILE E with
  | Some (File text) => PyStr.is_ascii text
  | _ => true
  end.

(** The same world without the record: the Idle state. *)
Definition idle (E : environ) (w : world) : world :=
  set_fs (delete (Wallpaper.PID_FILE E) (fs w)) w.


(** The world after the controller dropped a stale record. *)
Definition cleared (E : environ) (w : world) : world :=
  emit (EvUnlink (Wallpaper.PID_FILE E))
    (set_fs (delete (Wallpaper.PID_FILE E) (fs w))
       (print_line false (Wallpaper.info_line E "Cleaning abandoned automation file") w)).

(** The world after the controller terminated the recorded process [pid]
    and dropped the record. *)
Definition superseded (E : environ) (pid : Z) (w : world) : world :=
  emit (EvUnlink (Wallpaper.PID_FILE E))
    (set_fs (delete (Wallpaper.PID_FILE E) (fs w))
       (print_line false
          (Wallpaper.info_line E
             ("Existing wallpaper automation stopped " +:+ Fmt.PROP +:+ "(pid: "
              +:+ PyStr.str pid +:+ ")" +:+ Fmt.RESET))
          (emit (EvSignal pid) (set_procs (delete pid (procs w)) w)))).



(** A run of notify-send. *)
Definition is_notification (e : event) : Prop :=
  exists cmd ok, e = EvRun ("notify-send" :: cmd) ok.

(** ** Reasoning about interleavings

    [G] bounds what one operation of a started thread may do to the world.
    The main program is then verified against every world within [G] of the
    one it last saw. *)

(** Every operation of [c], in whatever world it runs, stays within [G]. *)
Fixpoint io_guar {A} (G : world -> world -> Prop) (c : io A) : Prop :=
  match c with
  | Do o k => forall w, G w (exec o w).2 /\ io_guar G (k (exec o w).1)
  | _ => True
  end.

(** Partial correctness of a main program under interference [G]: whenever
    [p] finishes, started from [w], its outcome and the world satisfy [Q]. *)
Fixpoint prog_wlp {A} (G : world -> world -> Prop) (p : prog A)
    (Q : A + exn -> world -> Prop) (w : world) {struct p} : Prop :=
  forall w', G w w' ->
  match p with
  | Ret a => Q (inl a) w'
  | Throw e => Q (inr e) w'
  | Do (Seq o) k => prog_wlp G (k (exec o w').1) Q (exec o w').2
  | Do (Thr o) k =>
      match o in thread_op B return (B -> prog A) -> Prop with
      | Start body => fun k => io_guar G body /\ forall t, prog_wlp G (k t) Q w'
      | JoinThread t => fun k => prog_wlp G (k tt) Q w'
      end k
  end.

(** Total correctness for a run that joins no thread: [J] holds of every
    world the run passes through, [p] finishes within [n] steps of its own,
    and its outcome and the world satisfy [Q]. *)
Fixpoint prog_wp {A} (G : world -> world -> Prop) (J : world -> Prop) (n : nat) (p : prog A)
    (Q : A + exn -> world -> Prop) (w : world) {struct p} : Prop :=
  forall w', G w w' ->
  J w' /\
  match p with
  | Ret a => Q (inl a) w'
  | Throw e => Q (inr e) w'
  | Do o k =>
      match n with
      | O => False
      | S n' =>
          match o with
          | Seq o => prog_wp G J n' (k (exec o w').1) Q (exec o w').2
          | Thr o =>
              match o in thread_op B return (B -> prog A) -> Prop with
              | Start body => fun k => io_guar G body /\ forall t, prog_wp G J n' (k t) Q w'
              | JoinThread t => fun k => False
              end k
          end
      end
  end.

(** The outcome of a finished main program. *)
Definition outcome {A} (p : prog A) : option (A + exn) :=
  match p with
  | Ret a => Some (inl a)
  | Throw e => Some (inr e)
  | Do _ _ => None
  end.

(** On every path of [p] that returns a value satisfying [R], each thread
    started on the path, and each of [started], has been joined. *)
Fixpoint joins_all {A} (R : A -> Prop) (started : list nat) (p : prog A) : Prop :=
  match p with
  | Ret a => R a -> started = []
  | Throw _ => True
  | Do (Seq o) k => forall b, joins_all R started (k b)
  | Do (Thr o) k =>
      match o in thread_op B return (B -> prog A) -> Prop with
      | Start body => fun k => forall t, joins_all R (t :: started) (k t)
      | JoinThread t => fun k => joins_all R (filter (fun t' => t' <> t) started) (k tt)
      end k
  end.

(** The machine stays within what [prog_wlp] allows: the main program is
    correct from a world [w0] the current world is within [G] of, and every
    thread keeps to [G]. *)
Definition wlp_inv {A} (G : world -> world -> Prop) (Q : A + exn -> world -> Prop)
    (m : machine A) : Prop :=
  exists w0, G w0 (mworld m) /\ prog_wlp G (mmain m) Q w0
             /\ Forall (io_guar G) (mthreads m).

(** The same for [prog_wp], with [n] steps of the main program left. *)
Definition wp_inv {A} (G : world -> world -> Prop) (J : world -> Prop)
    (Q : A + exn -> world -> Prop) (n : nat) (m : machine A) : Prop :=
  exists w0, G w0 (mworld m) /\ prog_wp G J n (mmain m) Q w0
             /\ Forall (io_guar G) (mthreads m).

(** Every thread the main program still has to join is in [started]; the
    others are over. *)
Definition joins_inv {A} (R : A -> Prop) (m : machine A) : Prop :=
  exists started,
    joins_all R started (mmain m)
    /\ forall i c, mthreads m !! i = Some c -> i ∈ started \/ finished c = true.

(** Every operation on every path of a program preserves [I]: for a
    sequential program, and for a main program whose threads keep to [G]. *)
Fixpoint io_keeps {A} (I : world -> Prop) (c : io A) : Prop :=
  match c with
  | Do o k => (forall w, I w -> I (exec o w).2) /\ forall b, io_keeps I (k b)
  | _ => True
  end.

Fixpoint prog_keeps {A} (G : world -> world -> Prop) (I : world -> Prop) (p : prog A) : Prop :=
  match p with
  | Do (Seq o) k => (forall w, I w -> I (exec o w).2) /\ forall b, prog_keeps G I (k b)
  | Do (Thr o) k =>
      match o in thread_op B return (B -> prog A) -> Prop with
      | Start body => fun k => io_guar G body /\ forall t, prog_keeps G I (k t)
      | JoinThread t => fun k => prog_keeps G I (k tt)
      end k
  | _ => True
  end.

(** [I] holds, the main program preserves it, and every thread keeps to [G]. *)
Definition keeps_inv {A} (G : world -> world -> Prop) (I : world -> Prop)
    (m : machine A) : Prop :=
  I (mworld m) /\ prog_keeps G I (mmain m) /\ Forall (io_guar G) (mthreads m).

(** Number of steps a schedule gives the main program. *)
Definition main_steps (sched : list nat) : nat := length (filter (fun who => who = O) sched).

(** *** What the worker threads of [set_wallpaper] may do

    A step of a worker (theme propagation or a derivation) leaves the
    installed tools and the processes alone, removes no file, touches
    neither the current-wallpaper record nor the automation record, and adds
    to the trace only runs of its own tools and copies. *)
Definition worker_event (e : event) : Prop :=
  match e with
  | EvRun (exe :: _) _ => exe ∈ ["wallust"; "systemctl"; "makoctl"; "magick"]
  | EvCopy _ _ => True
  | _ => False
  end.

Definition worker_step (E : environ) (w w' : world) : Prop :=
  tools w' = tools w /\ procs w' = procs w /\ pid_alloc w' = pid_alloc w
  /\ draws w' = draws w
  /\ (forall q, is_Some (fs w !! q) -> is_Some (fs w' !! q))
  /\ fs w' !! Wallpaper.CURRENT_FILE E = fs w !! Wallpaper.CURRENT_FILE E
  /\ fs w' !! Wallpaper.PID_FILE E = fs w !! Wallpaper.PID_FILE E
  /\ exists l, trace w' = (trace w ++ l)%list /\ Forall worker_event l.

(** A path kept for a worker: not one of the two records. *)
Definition worker_path (E : environ) (q : string) : Prop :=
  q <> Wallpaper.CURRENT_FILE E /\ q <> Wallpaper.PID_FILE E.

(** The effects [set_wallpaper] derives. *)
Definition known_effect (effect : string) : Prop := effect = "square" \/ effect = "blurred".


(** Command lines a worker runs: the theme tools, and ImageMagick writing
    to a worker path. *)
Definition worker_cmd (E : environ) (cmd : list string) : Prop :=
  (exists exe args, cmd = exe :: args /\ exe ∈ ["wallust"; "systemctl"; "makoctl"])
  \/ (exists p args g, cmd = ("magick" :: p :: args ++ [g])%list /\ worker_path E g).

(** The states [set_wallpaper] passes through when the file is missing,
    by the number of steps the main program has taken: the call, the
    failed existence test, the error line printed and [False] returned. *)
Definition missing_file_state (E : environ) (p : string) (w : world) (k : nat)
    : machine bool :=
  let msg := "File not found: " +:+ Fmt.PROP +:+ p +:+ Fmt.RESET in
  match k with
  | 0%nat => start (Wallpaper.set_wallpaper E p) w
  | 1%nat => Machine w (bind (lift (Wallpaper.log_error E msg)) (fun _ => Ret false)) []
  | _ => Machine (print_line true (Wallpaper.error_line E msg) w) (Ret false) []
  end.

(** *** Selection *)

(** The directory [shuffle_wallpaper] searches. *)
Definition target_dir (E : environ) (category : option string) : string :=
  if nonempty category then Wallpaper.WALLPAPER_DIR E </> fmt_opt category
  else Wallpaper.WALLPAPER_DIR E.

(** [f] is a regular file below [root] whose extension, in lower case, is
    one of the image extensions. *)
Definition eligible (w : world) (root f : string) : Prop :=
  PyPath.below root f = true
  /\ (exists content, fs w !! f = Some (File content))
  /\ PyStr.lower (PyPath.suffix f) ∈ Wallpaper.extensions.

(** *** The automation loop *)

(** The machine of a program that goes on with [k] once [mmain m] returns. *)
Definition mbind {A B} (m : machine A) (k : A -> prog B) : machine B :=
  Machine (mworld m) (bind (mmain m) k) (mthreads m).

(** The notification [automation_loop] sends when it stops. *)
Definition stop_notice (ok : bool) : event :=
  EvRun ["notify-send"; "Automation stopped."; "Error setting wallpaper"] ok.

(** What can still happen once an iteration has failed: the workers started
    before go on, the notification is sent, the record is removed. *)
Definition exit_event (E : environ) (e : event) : Prop :=
  worker_event e \/ (exists ok, e = stop_notice ok) \/ e = EvUnlink (Wallpaper.PID_FILE E).

(** The automation record holds [rec] and the installed tools are [T]. *)
Definition record_is (E : environ) (rec : option node) (T : gset string) (w : world) : Prop :=
  fs w !! Wallpaper.PID_FILE E = rec /\ tools w = T.

(** The state of the exit path of the loop, after the failure seen in a
    world with trace [tr]: the events added since are exit events, among
    them the notification if [sent]. *)
Definition exiting (E : environ) (rec : option node) (T : gset string) (tr : list event)
    (sent : Prop) (w : world) : Prop :=
  record_is E rec T w
  /\ exists l, trace w = (tr ++ l)%list /\ Forall (exit_event E) l
               /\ (sent -> exists ok, stop_notice ok ∈ l).

(** ** Vocabulary of the further properties *)

(** The command line of the display process for a wallpaper. *)
Definition swaybg_args (wallpaper_path : string) : list string :=
  ["swaybg"; "-m"; "fill"; "-i"; wallpaper_path].

(** A process of the user that runs swaybg. *)
Definition is_display (p : process) : Prop := owned p = true /\ proc_name p = "swaybg".

(** The display shows [wallpaper_path]: one swaybg process of the user is
    alive, and it was started on that path. *)
Definition displays (w : world) (wallpaper_path : string) : Prop :=
  exists pid,
    procs w !! pid = Some (Process (swaybg_args wallpaper_path) true)
    /\ forall q p, procs w !! q = Some p -> is_display p -> q = pid.

(** No swaybg process of the user is alive. *)
Definition display_free (w : world) : Prop :=
  forall q p, procs w !! q = Some p -> ~ is_display p.

(** Worlds for the further properties. *)
Module Scenes.

Import Sample.

(** A display process is running on an earlier wallpaper. *)
Definition showing : world :=
  set_procs (<[7 := Process (swaybg_args "/home/u/Pictures/wallpaper/old.png") true]> ∅) fresh.

(** swaybg is installed, pkill is not. *)
Definition no_pkill : world :=
  with_tools (list_to_set ["swaybg"; "magick"; "wallust"; "notify-send"; "/usr/bin/python3"])
    fresh.

(** ImageMagick is not installed. *)
Definition no_magick : world :=
  with_tools (list_to_set ["swaybg"; "pkill"; "wallust"; "notify-send"; "/usr/bin/python3"])
    fresh.

(** An image with the file name of the sample picture, in another
    directory. *)
Definition namesake : string := "/home/u/Pictures/wallpaper/anime/a.png".

(** A loop is running and the record names it. *)
Definition running : world :=
  set_procs (<[4242 := Process (loop_args E0 60 None) true]> ∅)
    (set_fs (<[Wallpaper.PID_FILE E0 := File "4242"]> (fs fresh)) fresh).

(** The record names a live process of another user. *)
Definition foreign : world :=
  set_procs (<[4242 := Process ["/usr/sbin/sshd"] false]> ∅)
    (set_fs (<[Wallpaper.PID_FILE E0 := File "4242"]> (fs fresh)) fresh).

(** A loop is running, and the interpreter can no longer be started. *)
Definition no_interpreter : world :=
  with_tools (list_to_set ["swaybg"; "pkill"; "magick"; "wallust"; "notify-send"]) running.

(** A loop is running where swaybg is installed and pkill is not. *)
Definition loop_no_pkill : world :=
  with_tools (list_to_set ["swaybg"; "magick"; "wallust"; "notify-send"; "/usr/bin/python3"])
    running.

(** The record holds an integer that is no process identifier. *)
Definition corrupted : world :=
  set_fs (<[Wallpaper.PID_FILE E0 := File "99999999999"]> (fs fresh)) fresh.

(** The state [main] prepares: the cache root and the directory of the
    cache entries exist. *)
Definition prepared : world :=
  set_fs (<[Wallpaper.CACHE_DIR E0 := Dir]>
            (<[Wallpaper.GENERATED_DIR E0 := Dir]> (fs fresh))) fresh.

(** The state the [clear-cache] command leaves: the cache root is there,
    the directory of the cache entries is not. *)
Definition cache_cleared : world :=
  set_fs (<[Wallpaper.CACHE_DIR E0 := Dir]> (fs fresh)) fresh.

(** A directory of the collection, and the prepared state in which every
    program run to its end exits with a failure, as the palette tool and
    ImageMagick do when they are given a directory. *)
Definition folder : string := "/home/u/Pictures/wallpaper/space".
Definition tools_failing : world := with_exit (fun _ _ => false) prepared.

(** An iteration of the loop that succeeds: the main program up to its
    first join, the three workers to their end, then two of the three
    joins; the next step of the main program returns. *)
Definition good_round : list nat :=
  (repeat 0 19 ++ repeat 1 12 ++ repeat 2 12 ++ repeat 3 12 ++ repeat 0 2)%nat%list.

End Scenes.

(** * Properties *)

Local Open Scope list_scope.

(** ** Strings and paths *)

Section StringFacts.

Import PyStr.

Lemma of_chars_chars s : of_chars (chars s) = s.
Proof. apply string_of_list_ascii_of_string. Qed.

Lemma chars_of_chars l : chars (of_chars l) = l.
Proof. apply list_ascii_of_string_of_list_ascii. Qed.







Lemma uint_nonempty d : d <> Nil -> NilEmpty.string_of_uint d <> "".
Proof. destruct d; done. Qed.



End StringFacts.

Section PathFacts.

Lemma str_app_cons c s t : String c s +:+ t = String c (s +:+ t).
Proof. reflexivity. Qed.

Lemma str_app_nil_l t : "" +:+ t = t.
Proof. reflexivity. Qed.

Lemma str_prefix_app s t : String.prefix s (s +:+ t) = true.
Proof.
  induction s as [| c s IH]; [by destruct t |].
  rewrite str_app_cons. simpl.
  destruct (ascii_dec c c); [done | congruence].
Qed.

Lemma str_app_nil_r s : s +:+ "" = s.
Proof. induction s; [done |]. rewrite str_app_cons. congruence. Qed.

Lemma str_app_ne_self s t : t <> "" -> s +:+ t <> s.
Proof.
  intros Ht H. apply Ht.
  rewrite <- (str_app_nil_r s) in H at 2. by apply String.app_inj in H.
Qed.

Lemma str_length_app s t : String.length (s +:+ t) = (String.length s + String.length t)%nat.
Proof. induction s; [done |]. rewrite str_app_cons. simpl. congruence. Qed.

Lemma join_relative a b :
  PyPath.is_absolute b = false -> a </> b = PyPath.dir_prefix a +:+ b.
Proof. unfold PyPath.join. by intros ->. Qed.

(** A relative, non-empty path joined to a directory lies below it. *)
Lemma below_join d b :
  PyPath.is_absolute b = false -> b <> "" -> PyPath.below d (d </> b) = true.
Proof.
  intros Hrel Hb. rewrite join_relative by done. unfold PyPath.below.
  rewrite str_prefix_app. simpl.
  apply negb_true_iff, String.eqb_neq. by apply str_app_ne_self.
Qed.

Lemma elem_of_rev {T} (x : T) l : x ∈ rev l <-> x ∈ l.
Proof. by rewrite !list_elem_of_In, <- in_rev. Qed.

Lemma split_slash_no_slash l acc comp :
  "/"%char ∉ acc -> comp ∈ PyPath.split_slash l acc -> "/"%char ∉ comp.
Proof.
  revert acc. induction l as [| ch l IH]; intros acc Hacc Hin; cbn in Hin.
  - apply list_elem_of_singleton in Hin. subst comp. by rewrite elem_of_rev.
  - destruct (Ascii.eqb_spec ch "/") as [-> | Hne].
    + apply elem_of_cons in Hin as [-> | Hin]; [by rewrite elem_of_rev |].
      apply (IH []); [apply not_elem_of_nil | done].
    + apply (IH (ch :: acc)); [| done]. intros Hc.
      apply elem_of_cons in Hc as [? | ?]; congruence.
Qed.

End PathFacts.

(** ** Running sequential programs *)

Section RunFacts.

Lemma run_bind {A B} (m : io A) (f : A -> io B) w :
  run (bind m f) w
  = match run m w with
    | (inl a, w') => run (f a) w'
    | (inr e, w') => (inr e, w')
    end.
Proof.
  revert w. induction m as [a | e | C o k IH]; intros w; simpl; [done | done |].
  destruct (exec o w) as [b w']. apply IH.
Qed.

Lemma run_catch {A} (m : io A) (h : exn -> option (io A)) w :
  run (catch m h) w
  = match run m w with
    | (inl a, w') => (inl a, w')
    | (inr e, w') => match h e with Some m' => run m' w' | None => (inr e, w') end
    end.
Proof.
  revert w. induction m as [a | e | C o k IH]; intros w; simpl; [done | |].
  - by destruct (h e).
  - destruct (exec o w) as [b w']. apply IH.
Qed.

Lemma run_perform {B} (o : op B) w : run (perform o) w = (inl (exec o w).1, (exec o w).2).
Proof. simpl. by destruct (exec o w). Qed.

Lemma run_attempt {B} (o : op (B + exn)) w :
  run (attempt o) w = ((exec o w).1, (exec o w).2).
Proof. simpl. by destruct (exec o w) as [[b | e] w']. Qed.

End RunFacts.

(** ** The helpers of the script *)

Section HelperFacts.

Import Wallpaper.
Variable E : environ.

Lemma run_log_info msg w :
  run (log_info E msg) w = (inl tt, print_line false (info_line E msg) w).
Proof. reflexivity. Qed.

Lemma run_log_error msg w :
  run (log_error E msg) w = (inl tt, print_line true (error_line E msg) w).
Proof. reflexivity. Qed.

Lemma run_subprocess_run cmd check w :
  run (subprocess_run cmd check) w
  = match exec_run cmd w with
    | (Exited ok, w') =>
        (if (check && negb ok)%bool then inr CalledProcessError else inl tt, w')
    | (NotFound, w') => (inr FileNotFoundError, w')
    end.
Proof.
  unfold subprocess_run. rewrite run_bind, run_perform. simpl.
  destruct (exec_run cmd w) as [[ok |] w']; simpl; [| done].
  by destruct (check && negb ok)%bool.
Qed.

(** A foreground [run_cmd], by the outcome of the program: a run to the
    end with an exit status, or a program that is not found. *)
Lemma run_run_cmd cmd quiet w :
  run (run_cmd E cmd false quiet) w
  = match exec_run cmd (announced E cmd quiet w) with
    | (Exited true, w') => (inl (Finished true), w')
    | (Exited false, w') =>
        (inl (Finished false),
         print_line true (error_line E ("Command failed: " +:+ PyStr.join_space cmd)) w')
    | (NotFound, w') =>
        (inl (Finished false),
         print_line true (error_line E ("Application not found: " +:+ hd "" cmd)) w')
    end.
Proof.
  unfold run_cmd, announced. rewrite run_bind.
  destruct quiet; simpl run at 1; cbv iota;
    rewrite run_catch, run_bind, run_subprocess_run;
    match goal with |- context [exec_run cmd ?w0] =>
      destruct (exec_run cmd w0) as [[[|] |] w'] end; done.
Qed.

Lemma run_notify summary body w :
  run (notify summary body) w
  = if bool_decide ("notify-send" ∈ tools w)
    then (inl tt, (exec_run ["notify-send"; summary; body] w).2)
    else (inl tt, w).
Proof.
  unfold notify. rewrite run_bind, run_perform. simpl.
  destruct (bool_decide ("notify-send" ∈ tools w)) eqn:H; [| done].
  rewrite run_subprocess_run. unfold exec_run. rewrite H. done.
Qed.

End HelperFacts.

(** ** Reading the current wallpaper *)

Section CurrentWallpaper.

Import Wallpaper.
Variable E : environ.

(** C10: with no [current_wallpaper] file, [get_current_wallpaper] returns
    normally, changes nothing, and its value is the hard-coded default
    path, which lies below the base wallpaper directory. *)
Theorem get_current_wallpaper_default w :
  fs w !! CURRENT_FILE E = None ->
  run (get_current_wallpaper E) w
    = (inl (WALLPAPER_DIR E </> "anime/a_tree_trunk_with_a_branch.png"), w)
  /\ PyPath.below (WALLPAPER_DIR E)
       (WALLPAPER_DIR E </> "anime/a_tree_trunk_with_a_branch.png") = true.
Proof.
  intros Hnone. split.
  - unfold get_current_wallpaper. simpl.
    fold (CURRENT_FILE E). rewrite Hnone.
    rewrite bool_decide_eq_false_2; [done | by intros [? ?]].
  - by apply below_join.
Qed.

End CurrentWallpaper.

Lemma get_current_wallpaper_default_witness :
  fs Sample.fresh !! Wallpaper.CURRENT_FILE Sample.E0 = None
  /\ (run (Wallpaper.get_current_wallpaper Sample.E0) Sample.fresh
        = (inl "/home/u/Pictures/wallpaper/anime/a_tree_trunk_with_a_branch.png", Sample.fresh)
      /\ PyPath.below "/home/u/Pictures/wallpaper"
           "/home/u/Pictures/wallpaper/anime/a_tree_trunk_with_a_branch.png" = true).
Proof.
  split; [reflexivity |].
  apply (get_current_wallpaper_default Sample.E0 Sample.fresh). reflexivity.
Defined.

(** ** External programs *)

Ltac wsimpl :=
  cbn [fs tools procs exit_ok pid_alloc rand draws trace console print_line emit set_fs
       set_procs set_draws fst snd negb andb orb truthy announced].

Section ToolFacts.

Lemma tool_effect_frame cmd ok w :
  trace (tool_effect cmd ok w) = trace w
  /\ tools (tool_effect cmd ok w) = tools w
  /\ exit_ok (tool_effect cmd ok w) = exit_ok w
  /\ pid_alloc (tool_effect cmd ok w) = pid_alloc w
  /\ draws (tool_effect cmd ok w) = draws w.
Proof. unfold tool_effect. repeat case_match; done. Qed.

Lemma tool_effect_trace cmd ok w : trace (tool_effect cmd ok w) = trace w.
Proof. apply tool_effect_frame. Qed.

Lemma tool_effect_tools cmd ok w : tools (tool_effect cmd ok w) = tools w.
Proof. apply tool_effect_frame. Qed.

(** What [subprocess.run] adds to the trace: one event when the program
    was found, none otherwise. *)
Lemma exec_run_trace cmd w :
  trace (exec_run cmd w).2
  = trace w ++ match (exec_run cmd w).1 with
               | Exited ok => [EvRun cmd ok]
               | NotFound => []
               end.
Proof.
  unfold exec_run. destruct cmd as [| exe args]; wsimpl; [by rewrite app_nil_r |].
  destruct (bool_decide (exe ∈ tools w)); wsimpl; [| by rewrite app_nil_r].
  by rewrite tool_effect_trace.
Qed.

Lemma exec_run_tools cmd w : tools (exec_run cmd w).2 = tools w.
Proof.
  unfold exec_run. destruct cmd as [| exe args]; wsimpl; [done |].
  destruct (bool_decide (exe ∈ tools w)); wsimpl; [| done].
  by rewrite tool_effect_tools.
Qed.

End ToolFacts.

(** ** Theme propagation *)

Section Themes.

Import Wallpaper.
Variable E : environ.

(** A foreground [run_cmd] extends the trace by at most the run of its
    command. *)
Lemma run_cmd_trace cmd quiet w :
  exists ok l,
    run (run_cmd E cmd false quiet) w = (inl (Finished ok), (run (run_cmd E cmd false quiet) w).2)
    /\ trace (run (run_cmd E cmd false quiet) w).2 = trace w ++ l
    /\ (forall e, e ∈ l -> exists st, e = EvRun cmd st).
Proof.
  rewrite run_run_cmd.
  pose proof (exec_run_trace cmd (announced E cmd quiet w)) as Ht.
  assert (Ha : trace (announced E cmd quiet w) = trace w) by (by destruct quiet).
  rewrite Ha in Ht.
  destruct (exec_run cmd (announced E cmd quiet w)) as [[[|] |] w'] eqn:Hrun;
    cbn [fst snd] in Ht; eexists _, _; (split; [reflexivity |]); wsimpl;
    (split; [exact Ht |]); intros ev Hev.
  - apply list_elem_of_singleton in Hev. eauto.
  - apply list_elem_of_singleton in Hev. eauto.
  - by apply elem_of_nil in Hev.
Qed.

(** C6: [update_themes] returns normally.  When wallust is missing or its
    run fails, nothing is added to the trace but that failed run: no reload
    is invoked.  When it succeeds, its run comes first in what is added, so
    every reload happens after it. *)
Theorem update_themes_palette_first p w :
  exists new,
    run (update_themes E p) w = (inl tt, (run (update_themes E p) w).2)
    /\ trace (run (update_themes E p) w).2 = trace w ++ new
    /\ (palette_ok w p = false -> forall e, e ∈ new -> is_reload e = false)
    /\ (forall e, e ∈ new -> is_reload e = true ->
        palette_ok w p = true /\ exists rest, new = EvRun ["wallust"; "run"; p] true :: rest).
Proof.
  unfold update_themes, palette_ok. rewrite run_bind, run_perform. cbn [exec]. wsimpl.
  destruct (bool_decide ("wallust" ∈ tools w)) eqn:Hw; wsimpl.
  2: { rewrite run_log_error. exists []. rewrite app_nil_r.
       split; [done |]. split; [done |].
       split; [intros _ |]; intros ev Hev; by apply elem_of_nil in Hev. }
  rewrite run_bind, run_log_info, run_bind, run_run_cmd.
  unfold exec_run at 1 2 3. wsimpl. rewrite Hw.
  destruct (exit_ok w (length (trace w)) ["wallust"; "run"; p]) eqn:Hok; wsimpl.
  2: { rewrite run_log_error. wsimpl. exists [EvRun ["wallust"; "run"; p] false].
       split; [done |]. split; [done |].
       split; [intros _ |]; intros ev Hev; apply list_elem_of_singleton in Hev;
         by subst. }
  cbn [tool_effect].
  rewrite run_bind, run_log_info, run_bind.
  match goal with |- context [run (run_cmd E ?c false true) ?w0] =>
    destruct (run_cmd_trace c true w0) as (ok1 & l1 & Hr1 & Ht1 & Hl1);
    rewrite Hr1; cbn [fst snd] end.
  rewrite run_bind, run_log_info, run_bind.
  match goal with |- context [run (run_cmd E ?c false true) ?w0] =>
    destruct (run_cmd_trace c true w0) as (ok2 & l2 & Hr2 & Ht2 & Hl2);
    rewrite Hr2; cbn [fst snd] end.
  cbn [run fst snd]. wsimpl. rewrite Ht2. wsimpl. rewrite Ht1. wsimpl.
  exists (EvRun ["wallust"; "run"; p] true :: l1 ++ l2).
  split; [done |]. split; [by rewrite <- !app_assoc |].
  split; [done |]. intros ev _ _. eauto.
Qed.

End Themes.

(** ** The cache layout *)

Section Layout.

Import Wallpaper.
Variable E : environ.

Lemma chars_app s t : PyStr.chars (s +:+ t) = PyStr.chars s ++ PyStr.chars t.
Proof. induction s as [| c s IH]; [done |]. rewrite str_app_cons. simpl. by rewrite IH. Qed.

Lemma str_app_assoc s t u : (s +:+ t) +:+ u = s +:+ t +:+ u.
Proof. induction s as [| c s IH]; [done |]. rewrite !str_app_cons. by rewrite IH. Qed.

Lemma ends_with_slash_app s t :
  t <> "" -> PyPath.ends_with_slash (s +:+ t) = PyPath.ends_with_slash t.
Proof.
  intros Ht. unfold PyPath.ends_with_slash. rewrite chars_app, rev_app_distr.
  destruct (rev (PyStr.chars t)) as [| c l] eqn:Hr; [| done].
  destruct t; [done |]. simpl in Hr. by destruct (rev (PyStr.chars t)).
Qed.

Lemma is_absolute_cons c s :
  PyPath.is_absolute (String c s) = if ascii_dec "/" c then true else false.
Proof.
  unfold PyPath.is_absolute. cbn [String.prefix].
  destruct (ascii_dec "/" c); [by destruct s | done].
Qed.

Lemma is_absolute_app s t :
  PyPath.is_absolute s = false -> PyPath.is_absolute t = false ->
  PyPath.is_absolute (s +:+ t) = false.
Proof.
  destruct s as [| c s]; [done |]. intros Hs _.
  rewrite str_app_cons, is_absolute_cons. by rewrite is_absolute_cons in Hs.
Qed.

Lemma generic_file_eq effect :
  PyPath.is_absolute effect = false ->
  generic_file E effect = PyPath.dir_prefix (CACHE_DIR E) +:+ effect +:+ "-wallpaper.png".
Proof. intros H. unfold generic_file. by rewrite join_relative by by apply is_absolute_app. Qed.

Lemma cache_file_eq p effect :
  PyPath.is_absolute effect = false ->
  cache_file E p effect
  = PyPath.dir_prefix (CACHE_DIR E) +:+ "generated/" +:+ effect +:+ "-"
    +:+ PyPath.name p +:+ ".png".
Proof.
  intros H. unfold cache_file, GENERATED_DIR.
  rewrite join_relative by by apply is_absolute_app.
  rewrite (join_relative _ "generated") by done.
  unfold PyPath.dir_prefix at 1. rewrite ends_with_slash_app by done.
  cbn [PyPath.ends_with_slash PyStr.chars list_ascii_of_string rev app Ascii.eqb Bool.eqb].
  by rewrite !str_app_assoc.
Qed.

(** The cache entry and the generic-latest file of an effect are
    different files. *)
Lemma cache_file_ne_generic p effect :
  PyPath.is_absolute effect = false -> cache_file E p effect <> generic_file E effect.
Proof.
  intros H. rewrite cache_file_eq, generic_file_eq by done. intros Heq.
  apply String.app_inj in Heq. apply (f_equal String.length) in Heq.
  rewrite !str_length_app in Heq. simpl in Heq. lia.
Qed.

End Layout.

(** ** Derived artifacts *)

Section Derivation.

Import Wallpaper.
Variable E : environ.

Lemma transform_runs_app l l' :
  transform_runs (l ++ l') = (transform_runs l + transform_runs l')%nat.
Proof. unfold transform_runs. by rewrite filter_app, length_app. Qed.

Lemma magick_output p args g ok w :
  tool_effect ("magick" :: p :: args ++ [g]) ok w
  = if ok then set_fs (<[g := File (PyStr.join_space ("magick" :: p :: args ++ [g]))]> (fs w)) w
    else w.
Proof.
  cbn [tool_effect]. change (p :: args ++ [g]) with ([p] ++ args ++ [g]).
  rewrite !rev_app_distr. cbn [rev app].
  by destruct (rev args).
Qed.

(** *** Where the two files of an effect lie *)

Lemma skip_name_app l1 l2 :
  forallb (fun c => negb (Ascii.eqb c "/")) l1 = true ->
  PyPath.skip_name (l1 ++ "/"%char :: l2) = "/"%char :: l2.
Proof.
  induction l1 as [| c l1 IH]; intros Hl; [done |].
  cbn in Hl. apply andb_true_iff in Hl as [Hc Hl]. apply negb_true_iff in Hc.
  cbn [app PyPath.skip_name]. rewrite Hc. by apply IH.
Qed.

Lemma forallb_rev {T} (f : T -> bool) l : forallb f (rev l) = forallb f l.
Proof.
  induction l as [| x l IH]; [done |]. cbn [rev forallb].
  rewrite forallb_app, IH. cbn. by rewrite andb_true_r, andb_comm.
Qed.

(** The parent of a file name put below a directory is the directory. *)
Lemma parent_in_dir d f :
  PyPath.ends_with_slash d = false -> d <> "" -> PyPath.no_sep f = true ->
  PyPath.parent (PyPath.dir_prefix d +:+ f) = d.
Proof.
  intros Hend Hd Hf. unfold PyPath.dir_prefix, PyPath.parent. rewrite Hend.
  rewrite !chars_app, <- app_assoc, rev_app_distr, rev_app_distr. cbn [PyStr.chars
    list_ascii_of_string rev app].
  rewrite <- app_assoc. cbn [app].
  rewrite skip_name_app by (by rewrite forallb_rev).
  destruct (rev (PyStr.chars d)) as [| a l] eqn:Hrev.
  - exfalso. apply Hd. rewrite <- (of_chars_chars d), <- (rev_involutive (PyStr.chars d)), Hrev.
    done.
  - rewrite <- Hrev, rev_involutive. apply of_chars_chars.
Qed.

Lemma no_sep_app s t : PyPath.no_sep (s +:+ t) = (PyPath.no_sep s && PyPath.no_sep t)%bool.
Proof. unfold PyPath.no_sep. by rewrite chars_app, forallb_app. Qed.

Lemma no_sep_relative s : PyPath.no_sep s = true -> PyPath.is_absolute s = false.
Proof.
  destruct s as [| c s]; [done |]. rewrite is_absolute_cons.
  unfold PyPath.no_sep. cbn [PyStr.chars list_ascii_of_string forallb]. intros H.
  apply andb_true_iff in H as [Hc _]. apply negb_true_iff in Hc.
  destruct (ascii_dec "/" c) as [<- | ?]; [done | done].
Qed.

Lemma name_no_sep s : PyPath.no_sep (PyPath.name s) = true.
Proof.
  unfold PyPath.name, PyPath.no_sep. rewrite chars_of_chars.
  assert (Hlast : "/"%char ∉ List.last (PyPath.parts s) []).
  { destruct (PyPath.parts s) as [| c0 l] eqn:Hparts; [apply not_elem_of_nil |].
    assert (Hin : List.last (c0 :: l) [] ∈ PyPath.parts s).
    { rewrite Hparts. apply list_elem_of_In.
      destruct (exists_last (l := c0 :: l)) as (l' & x & Hx); [done |].
      rewrite Hx, last_last. apply in_or_app. right. by left. }
    unfold PyPath.parts in Hin. apply list_elem_of_filter in Hin as [_ Hin].
    by eapply split_slash_no_slash; [apply not_elem_of_nil | done]. }
  apply forallb_forall. intros ch Hch. apply negb_true_iff.
  destruct (Ascii.eqb_spec ch "/") as [-> | ?]; [| done].
  exfalso. apply Hlast. by apply list_elem_of_In.
Qed.

Lemma cache_dir_shape : PyPath.ends_with_slash (CACHE_DIR E) = false /\ CACHE_DIR E <> "".
Proof.
  unfold CACHE_DIR. rewrite join_relative by done. split.
  - by rewrite ends_with_slash_app.
  - intros H. apply (f_equal String.length) in H. rewrite str_length_app in H.
    cbn in H. lia.
Qed.

Lemma generated_dir_shape :
  PyPath.ends_with_slash (GENERATED_DIR E) = false /\ GENERATED_DIR E <> "".
Proof.
  unfold GENERATED_DIR. rewrite join_relative by done. split.
  - by rewrite ends_with_slash_app.
  - intros H. apply (f_equal String.length) in H. rewrite str_length_app in H.
    cbn in H. lia.
Qed.

Lemma generic_file_parent effect :
  PyPath.no_sep effect = true -> PyPath.parent (generic_file E effect) = CACHE_DIR E.
Proof.
  intros Heff. destruct cache_dir_shape as [Hend Hne].
  unfold generic_file. rewrite join_relative.
  - apply parent_in_dir; [done | done |]. by rewrite no_sep_app, Heff.
  - apply is_absolute_app; [by apply no_sep_relative | done].
Qed.

Lemma cache_file_parent p effect :
  PyPath.no_sep effect = true -> PyPath.parent (cache_file E p effect) = GENERATED_DIR E.
Proof.
  intros Heff. destruct generated_dir_shape as [Hend Hne].
  unfold cache_file. rewrite join_relative.
  - apply parent_in_dir; [done | done |].
    by rewrite !no_sep_app, Heff, name_no_sep.
  - apply is_absolute_app; [by apply no_sep_relative | done].
Qed.

(** The two directories are none of the two files. *)
Lemma cache_dirs_apart p effect f :
  PyPath.no_sep effect = true ->
  f = generic_file E effect \/ f = cache_file E p effect ->
  f <> CACHE_DIR E /\ f <> GENERATED_DIR E.
Proof.
  intros Heff Hf.
  assert (Hpar : PyPath.parent f = CACHE_DIR E \/ PyPath.parent f = GENERATED_DIR E).
  { destruct Hf as [-> | ->]; [left; by apply generic_file_parent
                              | right; by apply cache_file_parent]. }
  assert (Hlen : forall d, PyPath.ends_with_slash d = false ->
                           String.length (PyPath.dir_prefix d) = S (String.length d)).
  { intros d Hd. unfold PyPath.dir_prefix. rewrite Hd, str_length_app. cbn. lia. }
  destruct cache_dir_shape as [Hc _]. destruct generated_dir_shape as [Hg _].
  assert (Hgen : String.length (GENERATED_DIR E) = (String.length (CACHE_DIR E) + 10)%nat).
  { unfold GENERATED_DIR. rewrite join_relative, str_length_app, Hlen by done. cbn. lia. }
  assert (Hflen : (String.length (CACHE_DIR E) + 10 < String.length f)%nat).
  { destruct Hf as [-> | ->].
    - unfold generic_file. rewrite join_relative
        by (apply is_absolute_app; [by apply no_sep_relative | done]).
      rewrite !str_length_app, Hlen by done. cbn. lia.
    - unfold cache_file. rewrite join_relative
        by (apply is_absolute_app; [by apply no_sep_relative | done]).
      rewrite !str_length_app, Hlen, Hgen by done. cbn. lia. }
  split; intros Heq; rewrite Heq in Hflen; lia.
Qed.

(** *** One call *)

(** A copy runs no program, removes no file and turns no directory into a
    file. *)
Lemma exec_copy_frame src dst w :
  (exists l, trace (exec_copy src dst w).2 = trace w ++ l /\ transform_runs l = 0%nat)
  /\ tools (exec_copy src dst w).2 = tools w
  /\ (forall q, is_Some (fs w !! q) -> is_Some (fs (exec_copy src dst w).2 !! q))
  /\ (forall q, fs w !! q = Some Dir -> fs (exec_copy src dst w).2 !! q = Some Dir).
Proof.
  unfold exec_copy. cbv zeta.
  destruct (fs w !! src) as [[txt |] |];
    try (split; [exists []; by rewrite app_nil_r | done]).
  case_bool_decide; [split; [exists []; by rewrite app_nil_r | done] |].
  match goal with |- context [fs w !! ?t] => set (target := t) in * end.
  assert (Hw : forall w0, w0 = w ->
             (exists l, trace w0 = trace w ++ l /\ transform_runs l = 0%nat)
             /\ tools w0 = tools w
             /\ (forall q, is_Some (fs w !! q) -> is_Some (fs w0 !! q))
             /\ (forall q, fs w !! q = Some Dir -> fs w0 !! q = Some Dir)).
  { intros w0 ->. split; [exists []; by rewrite app_nil_r | done]. }
  destruct (fs w !! target) as [[txt' |] |] eqn:Ht; [| by apply Hw |];
    repeat case_match; try (by apply Hw); cbn [snd]; wsimpl;
    (split; [by eexists [_] |]); (split; [done |]); split; intros q Hq;
    (destruct (decide (q = target)) as [-> | Hne];
     [rewrite lookup_insert_eq; try done; congruence | by rewrite lookup_insert_ne]).
Qed.

Lemma exec_copy_trace src dst w :
  exists l, trace (exec_copy src dst w).2 = trace w ++ l /\ transform_runs l = 0%nat.
Proof. apply exec_copy_frame. Qed.

Section OneImage.

Variables (p effect : string) (args : list string).
Hypothesis plain_effect : PyPath.no_sep effect = true.

Local Abbreviation g := (generic_file E effect).
Local Abbreviation c := (cache_file E p effect).
Local Abbreviation line := (transform_cmd E p effect args).

Lemma effect_relative : PyPath.is_absolute effect = false.
Proof. by apply no_sep_relative. Qed.

(** A cache hit invokes nothing and keeps the cache entry. *)
Lemma transform_hit w :
  is_Some (fs w !! c) ->
  exists r w',
    run (transform_wallpaper E p effect args) w = (r, w')
    /\ is_Some (fs w' !! c) /\ tools w' = tools w
    /\ exists l, trace w' = trace w ++ l /\ transform_runs l = 0%nat.
Proof.
  intros Hc. unfold transform_wallpaper. cbv zeta.
  rewrite run_bind, run_perform. cbn [exec]. wsimpl.
  rewrite bool_decide_eq_true_2 by done.
  rewrite run_bind, run_log_info, run_attempt. cbn [exec].
  match goal with |- context [exec_copy ?a ?b ?w0] =>
    destruct (exec_copy_frame a b w0) as (Htr & Htools & Hkeep & _);
    destruct (exec_copy a b w0) as [[[] | e] w'] end;
    cbn [fst snd] in *; eexists _, w'; (split; [reflexivity |]);
    (split; [by apply Hkeep |]); by split.
Qed.

(** Without a cache entry and without ImageMagick nothing happens. *)
Lemma transform_no_tool w :
  fs w !! c = None -> "magick" ∉ tools w ->
  exists w',
    run (transform_wallpaper E p effect args) w = (inl tt, w')
    /\ fs w' = fs w /\ tools w' = tools w /\ trace w' = trace w.
Proof.
  intros Hc Hm. unfold transform_wallpaper. cbv zeta.
  rewrite run_bind, run_perform. cbn [exec]. wsimpl. rewrite Hc.
  rewrite bool_decide_eq_false_2 by (by intros [? ?]).
  rewrite run_bind, run_log_info, run_bind, run_perform. cbn [exec]. wsimpl.
  rewrite bool_decide_eq_false_2 by done. wsimpl.
  rewrite run_log_error. by eexists.
Qed.

(** The run of ImageMagick in a world without a cache entry. *)
Lemma transform_miss w :
  fs w !! c = None -> "magick" ∈ tools w ->
  run (transform_wallpaper E p effect args) w
  = let w0 :=
      announced E line false
        (print_line false
           (info_line E ("Generating new " +:+ Fmt.PROP +:+ effect +:+ Fmt.RESET
                         +:+ " version")) w) in
    if exit_ok w (length (trace w)) line
    then run (attempt (Copy g c))
           (set_fs (<[g := File (PyStr.join_space line)]> (fs w))
              (emit (EvRun line true) w0))
    else (inl tt,
          print_line true (error_line E ("Command failed: " +:+ PyStr.join_space line))
            (emit (EvRun line false) w0)).
Proof.
  intros Hc Hm. unfold transform_wallpaper. cbv zeta.
  rewrite run_bind, run_perform. cbn [exec]. wsimpl. rewrite Hc.
  rewrite bool_decide_eq_false_2 by (by intros [? ?]).
  rewrite run_bind, run_log_info, run_bind, run_perform. cbn [exec]. wsimpl.
  rewrite bool_decide_eq_true_2 by done. wsimpl.
  rewrite run_bind, run_run_cmd. unfold exec_run. cbn [app]. wsimpl.
  rewrite bool_decide_eq_true_2 by done.
  rewrite !magick_output.
  change ("magick" :: p :: args ++ [g]) with line.
  by destruct (exit_ok w (length (trace w)) line).
Qed.

(** A failed transformation leaves the files as they were. *)
Lemma transform_failed w :
  transform_exits E p effect args false w ->
  exists w',
    run (transform_wallpaper E p effect args) w = (inl tt, w')
    /\ fs w' = fs w /\ tools w' = tools w
    /\ trace w' = trace w ++ [EvRun line false].
Proof.
  intros (Hc & Hm & Hok). rewrite transform_miss by done. cbv zeta. rewrite Hok.
  by eexists.
Qed.

(** The copy of the new artifact into the cache, by what holds the cache
    entries. *)
Lemma store_artifact art w :
  fs w !! c = None -> fs w !! g = Some (File art) ->
  exec_copy g c w
  = match fs w !! GENERATED_DIR E with
    | Some Dir => (inl tt, emit (EvCopy g c) (set_fs (<[c := File art]> (fs w)) w))
    | Some (File _) => (inr NotADirectoryError, w)
    | None => (inr FileNotFoundError, w)
    end.
Proof.
  intros Hc Hg. pose proof (cache_file_ne_generic E p effect effect_relative) as Hne.
  unfold exec_copy. cbv zeta. rewrite Hg, Hc.
  rewrite (bool_decide_eq_false_2 (None = Some Dir)) by done.
  rewrite bool_decide_eq_false_2 by done.
  by rewrite cache_file_parent, Hc.
Qed.

(** A successful transformation stores the artifact in both files, when
    the directory of the cache entries is there. *)
Lemma transform_succeeded w :
  fs w !! GENERATED_DIR E = Some Dir ->
  transform_exits E p effect args true w ->
  exists w',
    run (transform_wallpaper E p effect args) w = (inl tt, w')
    /\ fs w' = <[c := File (PyStr.join_space line)]>
                 (<[g := File (PyStr.join_space line)]> (fs w))
    /\ tools w' = tools w
    /\ trace w' = trace w ++ [EvRun line true; EvCopy g c].
Proof.
  intros Hgen (Hc & Hm & Hok). rewrite transform_miss by done. cbv zeta. rewrite Hok.
  pose proof (cache_file_ne_generic E p effect effect_relative) as Hne.
  destruct (cache_dirs_apart p effect g plain_effect (or_introl eq_refl)) as [_ Hgg].
  rewrite run_attempt. cbn [exec].
  rewrite (store_artifact (PyStr.join_space line))
    by (wsimpl; first [by rewrite lookup_insert_ne | apply lookup_insert_eq]).
  wsimpl. rewrite lookup_insert_ne, Hgen by done.
  eexists. split; [reflexivity |]. wsimpl. by rewrite <- app_assoc.
Qed.

(** Without that directory the artifact is produced but not stored: the
    copy raises, and no cache entry is written. *)
Lemma transform_unstored w :
  fs w !! GENERATED_DIR E = None ->
  transform_exits E p effect args true w ->
  exists w',
    run (transform_wallpaper E p effect args) w = (inr FileNotFoundError, w')
    /\ fs w' = <[g := File (PyStr.join_space line)]> (fs w)
    /\ tools w' = tools w
    /\ trace w' = trace w ++ [EvRun line true].
Proof.
  intros Hgen (Hc & Hm & Hok). rewrite transform_miss by done. cbv zeta. rewrite Hok.
  pose proof (cache_file_ne_generic E p effect effect_relative) as Hne.
  destruct (cache_dirs_apart p effect g plain_effect (or_introl eq_refl)) as [_ Hgg].
  rewrite run_attempt. cbn [exec].
  rewrite (store_artifact (PyStr.join_space line))
    by (wsimpl; first [by rewrite lookup_insert_ne | apply lookup_insert_eq]).
  wsimpl. rewrite lookup_insert_ne, Hgen by done.
  eexists. split; [reflexivity |]. by wsimpl.
Qed.

(** A hit on a cache entry that is a file, with a file (or nothing) as
    generic-latest in an existing cache root: the entry is copied there,
    nothing else happens. *)
Lemma transform_hit_file w txt :
  fs w !! CACHE_DIR E = Some Dir ->
  fs w !! c = Some (File txt) -> fs w !! g <> Some Dir ->
  exists w',
    run (transform_wallpaper E p effect args) w = (inl tt, w')
    /\ fs w' = <[g := File txt]> (fs w)
    /\ trace w' = trace w ++ [EvCopy c g].
Proof.
  intros Hroot Hc Hg. unfold transform_wallpaper. cbv zeta.
  pose proof (cache_file_ne_generic E p effect effect_relative) as Hne.
  rewrite run_bind, run_perform. cbn [exec]. wsimpl.
  rewrite bool_decide_eq_true_2 by (by rewrite Hc).
  rewrite run_bind, run_log_info, run_attempt. cbn [exec].
  unfold exec_copy. cbv zeta. wsimpl. rewrite Hc.
  rewrite (bool_decide_eq_false_2 (fs w !! g = Some Dir)) by done.
  rewrite bool_decide_eq_false_2 by congruence.
  rewrite generic_file_parent, Hroot by done.
  destruct (fs w !! g) as [[|] |] eqn:Hg'; try done; by eexists.
Qed.

(** Without a cache entry, an installed ImageMagick is invoked once. *)
Lemma transform_miss_runs w :
  fs w !! c = None -> "magick" ∈ tools w ->
  exists r w' l,
    run (transform_wallpaper E p effect args) w = (r, w')
    /\ trace w' = trace w ++ l /\ transform_runs l = 1%nat.
Proof.
  intros Hc Hm. rewrite transform_miss by done. cbv zeta.
  destruct (exit_ok w (length (trace w)) line).
  - rewrite run_attempt. cbn [exec].
    match goal with |- context [exec_copy ?a ?b ?w0] =>
      destruct (exec_copy_trace a b w0) as (l & Hl & Hz) end.
    eexists _, _, (EvRun line true :: l). split; [reflexivity |].
    cbn [snd]. rewrite Hl. wsimpl. rewrite <- app_assoc. split; [done |].
    change (EvRun line true :: l) with ([EvRun line true] ++ l).
    rewrite transform_runs_app, Hz. done.
  - eexists _, _, [EvRun line false]. split; [reflexivity |]. by wsimpl.
Qed.

End OneImage.

(** C4, as the code has it: two calls in succession for one (effect, image),
    for an effect name without a separator and an existing cache root.
    - When the directory of the cache entries exists and the first call's
      transformation succeeds, the first call stores the artifact in the
      cache entry and in the generic-latest file, and the second call is a
      pure cache hit: it only copies the entry to generic-latest.
    - When the first call's transformation fails, no cache entry is
      written, and the second call invokes the transformation again.
    - When the directory of the cache entries is missing and the first
      call's transformation succeeds, the copy into it raises
      FileNotFoundError, no cache entry is written, and the second call
      invokes the transformation again.
    - With the directory of the cache entries in place, in every case but
      a failing transformation the transformation is invoked at most
      once. *)
Theorem transform_twice p effect args w :
  PyPath.no_sep effect = true ->
  fs w !! CACHE_DIR E = Some Dir ->
  exists r1 w1 r2 w2,
    run (transform_wallpaper E p effect args) w = (r1, w1)
    /\ run (transform_wallpaper E p effect args) w1 = (r2, w2)
    /\ (fs w !! GENERATED_DIR E = Some Dir ->
        transform_exits E p effect args true w ->
        exists art,
          r1 = inl tt
          /\ fs w1 !! cache_file E p effect = Some (File art)
          /\ fs w1 !! generic_file E effect = Some (File art)
          /\ r2 = inl tt
          /\ trace w2 = trace w1 ++ [EvCopy (cache_file E p effect) (generic_file E effect)])
    /\ (transform_exits E p effect args false w ->
        fs w1 !! cache_file E p effect = None
        /\ transform_runs (trace w2) = (transform_runs (trace w) + 2)%nat)
    /\ (fs w !! GENERATED_DIR E = None ->
        transform_exits E p effect args true w ->
        r1 = inr FileNotFoundError
        /\ fs w1 !! cache_file E p effect = None
        /\ transform_runs (trace w2) = (transform_runs (trace w) + 2)%nat)
    /\ (fs w !! GENERATED_DIR E = Some Dir ->
        ~ transform_exits E p effect args false w ->
        (transform_runs (trace w2) <= transform_runs (trace w) + 1)%nat).
Proof.
  intros Heff Hroot.
  pose proof (cache_file_ne_generic E p effect (no_sep_relative _ Heff)) as Hne.
  destruct (cache_dirs_apart p effect (generic_file E effect) Heff (or_introl eq_refl))
    as [Hgc Hgg].
  destruct (cache_dirs_apart p effect (cache_file E p effect) Heff (or_intror eq_refl))
    as [Hcc Hcg].
  destruct (fs w !! cache_file E p effect) as [n |] eqn:Hc.
  { (* cache hit, twice *)
    destruct (transform_hit p effect args w) as (r1 & w1 & H1 & Hc1 & _ & l1 & Ht1 & Hz1);
      [by rewrite Hc |].
    destruct (transform_hit p effect args w1) as (r2 & w2 & H2 & _ & _ & l2 & Ht2 & Hz2);
      [done |].
    exists r1, w1, r2, w2. split; [done |]. split; [done |].
    split; [intros _ (Hc' & _); congruence |].
    split; [intros (Hc' & _); congruence |].
    split; [intros _ (Hc' & _); congruence |].
    intros _ _. rewrite Ht2, Ht1, !transform_runs_app, Hz1, Hz2. lia. }
  destruct (decide ("magick" ∈ tools w)) as [Hm | Hm].
  2: { (* no ImageMagick, twice *)
    destruct (transform_no_tool p effect args w) as (w1 & H1 & Hf1 & Ho1 & Ht1); [done.. |].
    destruct (transform_no_tool p effect args w1) as (w2 & H2 & Hf2 & Ho2 & Ht2);
      [by rewrite Hf1 | by rewrite Ho1 |].
    exists (inl tt), w1, (inl tt), w2. split; [done |]. split; [done |].
    split; [by intros _ (_ & Hm' & _) |].
    split; [by intros (_ & Hm' & _) |].
    split; [by intros _ (_ & Hm' & _) |].
    intros _ _. rewrite Ht2, Ht1. lia. }
  destruct (exit_ok w (length (trace w)) (transform_cmd E p effect args)) eqn:Hok.
  - destruct (fs w !! GENERATED_DIR E) as [[txt |] |] eqn:Hgen.
    + (* the directory of the cache entries is a file: none of the cases *)
      destruct (run (transform_wallpaper E p effect args) w) as [r1 w1] eqn:H1.
      destruct (run (transform_wallpaper E p effect args) w1) as [r2 w2] eqn:H2.
      exists r1, w1, r2, w2. split; [done |]. split; [done |].
      split; [done |].
      split; [intros (_ & _ & Hok'); congruence |].
      split; done.
    + (* the transformation succeeds, then a cache hit *)
      destruct (transform_succeeded p effect args Heff w) as (w1 & H1 & Hf1 & Ho1 & Ht1);
        [done | done |].
      destruct (transform_hit_file p effect args Heff w1
                  (PyStr.join_space (transform_cmd E p effect args)))
        as (w2 & H2 & Hf2 & Ht2).
      { by rewrite Hf1, !lookup_insert_ne. }
      { rewrite Hf1. apply lookup_insert_eq. }
      { by rewrite Hf1, lookup_insert_ne, lookup_insert_eq. }
      exists (inl tt), w1, (inl tt), w2. split; [done |]. split; [done |].
      split.
      { intros _ _. eexists. split; [done |].
        split; [rewrite Hf1; apply lookup_insert_eq |].
        split; [by rewrite Hf1, lookup_insert_ne, lookup_insert_eq |]. done. }
      split; [intros (_ & _ & Hok'); congruence |].
      split; [done |].
      intros _ _. rewrite Ht2, Ht1, !transform_runs_app.
      change (transform_runs [EvRun (transform_cmd E p effect args) true;
                              EvCopy (generic_file E effect) (cache_file E p effect)])
        with 1%nat.
      change (transform_runs [EvCopy (cache_file E p effect) (generic_file E effect)])
        with 0%nat.
      lia.
    + (* the transformation succeeds, the copy raises, and it is tried again *)
      destruct (transform_unstored p effect args Heff w) as (w1 & H1 & Hf1 & Ho1 & Ht1);
        [done | done |].
      destruct (transform_miss_runs p effect args w1) as (r2 & w2 & l2 & H2 & Ht2 & Hz2);
        [by rewrite Hf1, lookup_insert_ne | by rewrite Ho1 |].
      exists (inr FileNotFoundError), w1, r2, w2. split; [done |]. split; [done |].
      split; [done |].
      split; [intros (_ & _ & Hok'); congruence |].
      split; [| done].
      intros _ _. split; [done |]. split; [by rewrite Hf1, lookup_insert_ne |].
      rewrite Ht2, Ht1, !transform_runs_app, Hz2.
      change (transform_runs [EvRun (transform_cmd E p effect args) true]) with 1%nat.
      lia.
  - (* the transformation fails, and is tried again *)
    destruct (transform_failed p effect args w) as (w1 & H1 & Hf1 & Ho1 & Ht1); [done |].
    destruct (transform_miss_runs p effect args w1) as (r2 & w2 & l2 & H2 & Ht2 & Hz2);
      [by rewrite Hf1 | by rewrite Ho1 |].
    exists (inl tt), w1, r2, w2. split; [done |]. split; [done |].
    split; [intros _ (_ & _ & Hok'); congruence |].
    split.
    { intros _. split; [by rewrite Hf1 |].
      rewrite Ht2, Ht1, !transform_runs_app, Hz2.
      change (transform_runs [EvRun (transform_cmd E p effect args) false]) with 1%nat.
      lia. }
    split; [intros _ (_ & _ & Hok'); congruence |].
    intros _ Hno. by destruct Hno.
Qed.

End Derivation.

Lemma transform_twice_witness :
  PyPath.no_sep "square" = true
  /\ fs Scenes.prepared !! Wallpaper.CACHE_DIR Sample.E0 = Some Dir
  /\ exists r1 w1 r2 w2,
      run SampleRuns.square Scenes.prepared = (r1, w1)
      /\ run SampleRuns.square w1 = (r2, w2)
      /\ (fs Scenes.prepared !! Wallpaper.GENERATED_DIR Sample.E0 = Some Dir ->
          transform_exits Sample.E0 SampleRuns.picture "square" SampleRuns.square_args true
            Scenes.prepared ->
          exists art,
            r1 = inl tt
            /\ fs w1 !! Wallpaper.cache_file Sample.E0 SampleRuns.picture "square"
               = Some (File art)
            /\ fs w1 !! Wallpaper.generic_file Sample.E0 "square" = Some (File art)
            /\ r2 = inl tt
            /\ trace w2
               = trace w1 ++ [EvCopy (Wallpaper.cache_file Sample.E0 SampleRuns.picture "square")
                                     (Wallpaper.generic_file Sample.E0 "square")])
      /\ (transform_exits Sample.E0 SampleRuns.picture "square" SampleRuns.square_args false
            Scenes.prepared ->
          fs w1 !! Wallpaper.cache_file Sample.E0 SampleRuns.picture "square" = None
          /\ transform_runs (trace w2) = (transform_runs (trace Scenes.prepared) + 2)%nat)
      /\ (fs Scenes.prepared !! Wallpaper.GENERATED_DIR Sample.E0 = None ->
          transform_exits Sample.E0 SampleRuns.picture "square" SampleRuns.square_args true
            Scenes.prepared ->
          r1 = inr FileNotFoundError
          /\ fs w1 !! Wallpaper.cache_file Sample.E0 SampleRuns.picture "square" = None
          /\ transform_runs (trace w2) = (transform_runs (trace Scenes.prepared) + 2)%nat)
      /\ (fs Scenes.prepared !! Wallpaper.GENERATED_DIR Sample.E0 = Some Dir ->
          ~ transform_exits Sample.E0 SampleRuns.picture "square" SampleRuns.square_args false
              Scenes.prepared ->
          (transform_runs (trace w2) <= transform_runs (trace Scenes.prepared) + 1)%nat).
Proof.
  split; [reflexivity |]. split; [reflexivity |].
  apply (transform_twice Sample.E0 SampleRuns.picture "square" SampleRuns.square_args
           Scenes.prepared); reflexivity.
Defined.

(** C4 as stated fails: when ImageMagick is installed and its run fails, the
    first call caches nothing, so the second call invokes it again, two
    invocations in all. *)
Lemma transform_twice_reinvokes :
  transform_runs
    (trace (run SampleRuns.square (run SampleRuns.square SampleRuns.failing).2).2) = 2%nat.
Proof. vm_compute. reflexivity. Qed.

(** In the state [clear-cache] leaves, a successful transformation is not
    cached either: the copy into the missing directory raises, and the
    second call runs ImageMagick again. *)
Example transform_after_clear_cache :
  let r1 := run SampleRuns.square Scenes.cache_cleared in
  let r2 := run SampleRuns.square r1.2 in
  r1.1 = inr FileNotFoundError
  /\ fs r1.2 !! Wallpaper.cache_file Sample.E0 SampleRuns.picture "square" = None
  /\ r2.1 = inr FileNotFoundError
  /\ transform_runs (trace r2.2) = 2%nat.
Proof. cbv zeta. repeat split; by vm_compute. Qed.

(** ** The automation controller *)

Section Controller.

Import Wallpaper.
Variable E : environ.

Local Abbreviation PID := (PID_FILE E).

(** What [notify] leaves of the world: only the trace can grow, by the run
    of notify-send. *)
Lemma run_notify_frame summary body w :
  exists w' l,
    run (notify summary body) w = (inl tt, w')
    /\ fs w' = fs w /\ procs w' = procs w /\ tools w' = tools w
    /\ pid_alloc w' = pid_alloc w
    /\ trace w' = trace w ++ l
    /\ forall e, e ∈ l -> exists ok, e = EvRun ["notify-send"; summary; body] ok.
Proof.
  rewrite run_notify. destruct (bool_decide ("notify-send" ∈ tools w)) eqn:Hn.
  - unfold exec_run. rewrite Hn. cbn [tool_effect]. eexists _, [_].
    split; [reflexivity |]. wsimpl. repeat split; try done.
    intros e He. apply list_elem_of_singleton in He. eauto.
  - eexists _, []. split; [reflexivity |]. rewrite app_nil_r. repeat split; try done.
    intros e He. by apply elem_of_nil in He.
Qed.

Lemma exec_popen_loop interval category w :
  sys_executable E ∈ tools w -> can_fork w ->
  exec_popen (loop_args E interval category) w
  = (inl (pid_alloc w (dom (procs w))),
     emit (EvSpawn (loop_args E interval category) (pid_alloc w (dom (procs w))))
       (set_procs (<[pid_alloc w (dom (procs w))
                     := Process (loop_args E interval category) true]> (procs w)) w)).
Proof.
  intros Hexe Hfork. unfold exec_popen. unfold loop_args at 1. cbn [app].
  by rewrite !bool_decide_eq_true_2.
Qed.

(** From a world without a record the controller starts a loop, or only
    announces the stop. *)
Lemma manage_idle interval category w :
  fs w !! PID = None ->
  (0 < interval -> sys_executable E ∈ tools w /\ can_fork w) ->
  exists w' l,
    run (manage_automation E interval category) w = (inl tt, w')
    /\ tools w' = tools w /\ pid_alloc w' = pid_alloc w
    /\ (forall e, e ∈ l -> is_notification e)
    /\ if 0 <? interval then
         let pid := pid_alloc w (dom (procs w)) in
         fs w' = <[PID := File (PyStr.str pid)]> (fs w)
         /\ procs w' = <[pid := Process (loop_args E interval category) true]> (procs w)
         /\ trace w' = trace w ++ [EvSpawn (loop_args E interval category) pid;
                                   EvWrite PID (PyStr.str pid)] ++ l
       else
         fs w' = fs w /\ procs w' = procs w /\ trace w' = trace w ++ l.
Proof.
  intros Hnone Hexe. unfold manage_automation.
  rewrite run_bind, run_perform. cbn [exec]. wsimpl. rewrite Hnone.
  rewrite bool_decide_eq_false_2 by (by intros [? ?]). cbn [bind].
  destruct (0 <? interval) eqn:Hi; cbv iota.
  - apply Z.ltb_lt in Hi. destruct (Hexe Hi) as [Hexe' Hfork].
    rewrite run_bind, run_log_info, run_bind, run_attempt. cbn [exec].
    fold (loop_args E interval category).
    rewrite exec_popen_loop by done. wsimpl.
    rewrite run_bind, run_attempt. cbn [exec]. unfold exec_write. wsimpl. rewrite Hnone.
    rewrite run_bind, run_log_info.
    match goal with |- context [run (notify ?s ?b) ?w0] =>
      destruct (run_notify_frame s b w0) as (w' & l & Hr & Hf & Hp & Ht & Ha & Htr & Hl) end.
    exists w', l. rewrite Hr. split; [done |].
    revert Hf Hp Ht Ha Htr. wsimpl. intros Hf Hp Ht Ha Htr.
    split; [done |]. split; [done |].
    split; [intros e He; destruct (Hl e He) as [ok ->]; by eexists _, _ |].
    cbv zeta. split; [done |]. split; [done |]. by rewrite Htr, <- !app_assoc.
  - match goal with |- context [run (notify ?s ?b) ?w0] =>
      destruct (run_notify_frame s b w0) as (w' & l & Hr & Hf & Hp & Ht & Ha & Htr & Hl) end.
    exists w', l. rewrite Hr. split; [done |].
    split; [done |]. split; [done |].
    split; [intros e He; destruct (Hl e He) as [ok ->]; by eexists _, _ |]. done.
Qed.

Ltac enter_supersede :=
  unfold manage_automation;
  rewrite run_bind, run_perform; cbn [exec]; wsimpl.

(** A stale record is dropped; the controller then goes on as from the
    world without it. *)
Lemma manage_stale interval category w :
  stale E w ->
  run (manage_automation E interval category) w
  = run (manage_automation E interval category) (cleared E w).
Proof.
  intros (text & Hfile & Hstale).
  assert (Hgone : fs (cleared E w) !! PID = None) by apply lookup_delete_eq.
  enter_supersede. rewrite Hfile, bool_decide_eq_true_2 by done.
  rewrite run_bind, run_bind, run_catch, run_bind, run_attempt. cbn [exec].
  unfold exec_read. rewrite Hfile. wsimpl. rewrite run_bind. unfold py_int.
  symmetry. enter_supersede. rewrite Hgone.
  rewrite bool_decide_eq_false_2 by (by intros [? ?]). cbn [bind]. symmetry.
  destruct Hstale as [Hint | (pid & Hint & Hpid & Hdead)]; rewrite Hint.
  - cbn [run]. rewrite run_log_info, run_attempt. cbn [exec].
    unfold exec_unlink. wsimpl. by rewrite Hfile.
  - cbn [run]. rewrite run_bind, run_attempt. cbn [exec]. unfold exec_kill.
    assert (Hr : in_pid_range pid = true).
    { unfold in_pid_range, valid_pid in *. apply andb_true_intro.
      split; [apply Z.leb_le | apply Z.ltb_lt]; lia. }
    rewrite Hr. cbn [negb]. destruct (Z.leb_spec pid 0); [unfold valid_pid in *; lia |].
    rewrite Hdead. wsimpl. rewrite run_log_info, run_attempt. cbn [exec].
    unfold exec_unlink. wsimpl. by rewrite Hfile.
Qed.

(** A record naming a live process of the user: the process is
    terminated, the record dropped, and the controller goes on as from the
    world without either. *)
Lemma manage_live interval category w text pid p :
  fs w !! PID = Some (File text) ->
  PyStr.int (PyStr.strip text) = Some pid ->
  valid_pid pid -> procs w !! pid = Some p -> owned p = true ->
  run (manage_automation E interval category) w
  = run (manage_automation E interval category) (superseded E pid w).
Proof.
  intros Hfile Hint Hpid Hlive Hown.
  assert (Hgone : fs (superseded E pid w) !! PID = None) by apply lookup_delete_eq.
  enter_supersede. rewrite Hfile, bool_decide_eq_true_2 by done.
  rewrite run_bind, run_bind, run_catch, run_bind, run_attempt. cbn [exec].
  unfold exec_read. rewrite Hfile. wsimpl. rewrite run_bind. unfold py_int.
  symmetry. enter_supersede. rewrite Hgone.
  rewrite bool_decide_eq_false_2 by (by intros [? ?]). cbn [bind]. symmetry.
  rewrite Hint. cbn [run]. rewrite run_bind, run_attempt. cbn [exec]. unfold exec_kill.
  assert (Hr : in_pid_range pid = true).
  { unfold in_pid_range, valid_pid in *. apply andb_true_intro.
    split; [apply Z.leb_le | apply Z.ltb_lt]; lia. }
  rewrite Hr. cbn [negb]. destruct (Z.leb_spec pid 0); [unfold valid_pid in *; lia |].
  rewrite Hlive, Hown. wsimpl. rewrite run_log_info, run_attempt. cbn [exec].
  unfold exec_unlink. wsimpl. by rewrite Hfile.
Qed.

(** C8, for a record of ASCII text that is stale in this sense: the text
    is not an integer, or it is a process identifier in the range of the
    operating system ([0 < pid < 2^31]) that names no live process.  The
    controller, called to start or to stop, then raises nothing: it drops
    the record first, signals no process, and leaves the files and
    processes it would leave when called in the Idle state.  A start needs
    what every start needs: the interpreter, and a free pid. *)
Theorem stale_record_reconciled interval category w :
  ascii_record E w = true ->
  stale E w ->
  (0 < interval -> sys_executable E ∈ tools w /\ can_fork w) ->
  exists w' new,
    run (manage_automation E interval category) w = (inl tt, w')
    /\ trace w' = trace w ++ EvUnlink PID :: new
    /\ (forall pid, EvSignal pid ∉ new)
    /\ (exists wi,
          run (manage_automation E interval category) (idle E w) = (inl tt, wi)
          /\ fs w' = fs wi /\ procs w' = procs wi)
    /\ (interval <= 0 -> fs w' !! PID = None /\ procs w' = procs w).
Proof.
  intros _ Hstale Hstart. rewrite manage_stale by done.
  destruct (manage_idle interval category (cleared E w))
    as (w' & l & Hrun & _ & _ & Hl & Hres); [apply lookup_delete_eq | done |].
  destruct (manage_idle interval category (idle E w))
    as (wi & li & Hruni & _ & _ & _ & Hresi); [apply lookup_delete_eq | done |].
  destruct (0 <? interval) eqn:Hi.
  - destruct Hres as (Hfs & Hprocs & Htrace), Hresi as (Hfsi & Hprocsi & _).
    eexists w', _. split; [done |].
    split; [rewrite Htrace; unfold cleared; wsimpl; by rewrite <- app_assoc |].
    split.
    { intros pid Hin. cbn in Hin.
      apply elem_of_cons in Hin as [? | Hin]; [done |].
      apply elem_of_cons in Hin as [? | Hin]; [done |].
      destruct (Hl _ Hin) as (? & ? & ?). done. }
    split; [exists wi; by rewrite Hfs, Hprocs, Hfsi, Hprocsi |].
    apply Z.ltb_lt in Hi. lia.
  - destruct Hres as (Hfs & Hprocs & Htrace), Hresi as (Hfsi & Hprocsi & _).
    exists w', l. split; [done |].
    split; [rewrite Htrace; unfold cleared; wsimpl; by rewrite <- app_assoc |].
    split; [intros pid Hin; destruct (Hl _ Hin) as (? & ? & ?); done |].
    split; [exists wi; by rewrite Hfs, Hprocs, Hfsi, Hprocsi |].
    intros _. rewrite Hfs, Hprocs. split; [apply lookup_delete_eq | done].
Qed.



Lemma valid_pid_range pid : valid_pid pid -> in_pid_range pid = true /\ 0 < pid.
Proof.
  unfold valid_pid, in_pid_range. intros [? ?]. split; [| done].
  apply andb_true_intro. split; [apply Z.leb_le | apply Z.ltb_lt]; lia.
Qed.




End Controller.


Lemma stale_record_reconciled_witness :
  ascii_record Sample.E0 SampleRuns.abandoned = true
  /\ stale Sample.E0 SampleRuns.abandoned
  /\ exists w' new,
      run (Wallpaper.manage_automation Sample.E0 0 None) SampleRuns.abandoned = (inl tt, w')
      /\ trace w' = trace SampleRuns.abandoned ++ EvUnlink (Wallpaper.PID_FILE Sample.E0) :: new
      /\ (forall pid, EvSignal pid ∉ new)
      /\ (exists wi,
            run (Wallpaper.manage_automation Sample.E0 0 None)
                (idle Sample.E0 SampleRuns.abandoned) = (inl tt, wi)
            /\ fs w' = fs wi /\ procs w' = procs wi)
      /\ (0 <= 0 -> fs w' !! Wallpaper.PID_FILE Sample.E0 = None
                    /\ procs w' = procs SampleRuns.abandoned).
Proof.
  assert (Hascii : ascii_record Sample.E0 SampleRuns.abandoned = true) by (by vm_compute).
  assert (Hstale : stale Sample.E0 SampleRuns.abandoned).
  { exists "4242". split; [by vm_compute |]. right. exists 4242.
    split; [by vm_compute |]. split; [by vm_compute |]. apply lookup_empty. }
  split; [exact Hascii |]. split; [exact Hstale |].
  apply (stale_record_reconciled Sample.E0 0 None SampleRuns.abandoned Hascii Hstale). lia.
Defined.

(** C8 as stated fails for a record that holds an integer beyond the range
    of a process identifier: it names no live process, yet [os.kill] raises
    [OverflowError] on it, which the controller does not catch.  The call
    to stop fails, and the record stays. *)
Lemma stale_record_out_of_range :
  let r := run (Wallpaper.manage_automation Sample.E0 0 None) Scenes.corrupted in
  fs Scenes.corrupted !! Wallpaper.PID_FILE Sample.E0 = Some (File "99999999999")
  /\ PyStr.int (PyStr.strip "99999999999") = Some 99999999999
  /\ procs Scenes.corrupted !! 99999999999 = None
  /\ r.1 = inr OverflowError
  /\ fs r.2 !! Wallpaper.PID_FILE Sample.E0 = Some (File "99999999999")
  /\ trace r.2 = trace Scenes.corrupted.
Proof. cbv zeta. repeat split; by vm_compute. Qed.


(** ** The thread machine *)

Section MachineFacts.

Context {A : Type}.
Implicit Types (m : machine A) (sched : list nat).

Lemma run_schedule_app sched1 sched2 m :
  run_schedule (sched1 ++ sched2) m = run_schedule sched2 (run_schedule sched1 m).
Proof. apply fold_left_app. Qed.

Lemma run_schedule_cons who sched m :
  run_schedule (who :: sched) m = run_schedule sched (step who m).
Proof. reflexivity. Qed.

(** A thread step leaves the main program alone. *)
Lemma step_thread_main i m : mmain (step_thread i m) = mmain m.
Proof.
  unfold step_thread. destruct (mthreads m !! i) as [[| | B o k] |]; try done.
  by destruct (exec o (mworld m)).
Qed.

Lemma step_thread_length i m : length (mthreads (step_thread i m)) = length (mthreads m).
Proof.
  unfold step_thread. destruct (mthreads m !! i) as [[| | B o k] |]; try done.
  destruct (exec o (mworld m)). cbn. apply length_insert.
Qed.

(** A finished thread stays finished. *)
Lemma step_thread_finished i j m c :
  mthreads m !! j = Some c -> finished c = true ->
  mthreads (step_thread i m) !! j = Some c.
Proof.
  intros Hj Hc. unfold step_thread.
  destruct (decide (i = j)) as [-> | Hne].
  - destruct (mthreads m !! j) as [[| | B o k] |] eqn:Hi; by simplify_eq.
  - destruct (mthreads m !! i) as [[| | B o k] |]; try done.
    destruct (exec o (mworld m)). cbn. by rewrite list_lookup_insert_ne.
Qed.

Section Interference.

Variable G : world -> world -> Prop.
Hypothesis G_refl : forall w, G w w.
Hypothesis G_trans : forall w1 w2 w3, G w1 w2 -> G w2 w3 -> G w1 w3.

(** A step of a thread that keeps to [G] moves the world within [G]. *)
Lemma step_thread_guar i m :
  Forall (io_guar G) (mthreads m) ->
  G (mworld m) (mworld (step_thread i m))
  /\ Forall (io_guar G) (mthreads (step_thread i m)).
Proof.
  intros Hall. unfold step_thread.
  destruct (mthreads m !! i) as [[| | B o k] |] eqn:Hi; try (split; [apply G_refl | done]).
  pose proof (Forall_lookup_1 _ _ _ _ Hall Hi) as Hc. cbn in Hc.
  specialize (Hc (mworld m)). destruct (exec o (mworld m)) as [b w'].
  destruct Hc as [Hg Hk]. split; [done |]. cbn.
  by apply Forall_insert.
Qed.

Variable Q : A + exn -> world -> Prop.

Lemma wlp_inv_step who m : wlp_inv G Q m -> wlp_inv G Q (step who m).
Proof.
  intros (w0 & Hg & Hwlp & Hall). destruct who as [| i]; cbn [step].
  - (* the main program moves *)
    unfold step_main. destruct m as [w p ths]. cbn in *.
    destruct p as [a | e | B [o | o] k]; try (by exists w0).
    + specialize (Hwlp w Hg). cbn in Hwlp. destruct (exec o w) as [b w1]. cbn in *.
      exists w1. split; [apply G_refl | done].
    + destruct o as [body | t]; cbn.
      * destruct (Hwlp w Hg) as [Hbody Hk]. exists w. cbn.
        split; [apply G_refl |]. split; [apply Hk |]. apply Forall_app. split; [done |].
        by constructor.
      * destruct (ths !! t) as [c |]; [| by exists w0].
        destruct (finished c); [| by exists w0].
        exists w. cbn. split; [apply G_refl |]. split; [| done]. exact (Hwlp w Hg).
  - (* a thread moves *)
    destruct (step_thread_guar i m Hall) as [Hg' Hall'].
    exists w0. rewrite step_thread_main. split; [by eapply G_trans |]. done.
Qed.

Lemma wlp_inv_run sched m : wlp_inv G Q m -> wlp_inv G Q (run_schedule sched m).
Proof.
  revert m. induction sched as [| who sched IH]; intros m Hinv; [done |].
  rewrite run_schedule_cons. by apply IH, wlp_inv_step.
Qed.

(** Soundness of [prog_wlp]: under every schedule, a finished main program
    has an outcome and a world that satisfy the postcondition. *)
Lemma wlp_sound sched m r :
  wlp_inv G Q m -> outcome (mmain (run_schedule sched m)) = Some r ->
  Q r (mworld (run_schedule sched m)).
Proof.
  intros Hinv Hout. destruct (wlp_inv_run sched m Hinv) as (w0 & Hg & Hwlp & _).
  destruct (mmain (run_schedule sched m)) as [a | e | B o k]; [| | done];
    inversion Hout; subst; exact (Hwlp _ Hg).
Qed.

Variable J : world -> Prop.

Lemma wp_inv_step_main n m : wp_inv G J Q n m -> wp_inv G J Q (pred n) (step_main m).
Proof.
  intros (w0 & Hg & Hwp & Hall). unfold step_main. destruct m as [w p ths]. cbn in *.
  destruct p as [a | e | B o k]; try (by exists w0; destruct n).
  destruct (Hwp w Hg) as [_ Hwp']. destruct n as [| n]; [done |]. cbn [pred].
  destruct o as [o | o].
  - destruct (exec o w) as [b w1]. cbn in *. exists w1. split; [apply G_refl | done].
  - destruct o as [body | t]; [| done]. destruct Hwp' as [Hbody Hk]. cbn.
    exists w. cbn. split; [apply G_refl |]. split; [apply Hk |].
    apply Forall_app. split; [done |]. by constructor.
Qed.

Lemma wp_inv_step_thread n i m : wp_inv G J Q n m -> wp_inv G J Q n (step_thread i m).
Proof.
  intros (w0 & Hg & Hwp & Hall).
  destruct (step_thread_guar i m Hall) as [Hg' Hall'].
  exists w0. rewrite step_thread_main. split; [by eapply G_trans |]. done.
Qed.

Lemma main_steps_main sched : main_steps (O :: sched) = S (main_steps sched).
Proof. unfold main_steps. by rewrite filter_cons_True. Qed.

Lemma main_steps_thread i sched : main_steps (S i :: sched) = main_steps sched.
Proof. unfold main_steps. by rewrite filter_cons_False. Qed.

Lemma main_steps_app sched1 sched2 :
  main_steps (sched1 ++ sched2) = (main_steps sched1 + main_steps sched2)%nat.
Proof. unfold main_steps. by rewrite filter_app, length_app. Qed.

Lemma main_steps_repeat n : main_steps (repeat O n) = n.
Proof. induction n as [| n IH]; [done |]. cbn [repeat]. by rewrite main_steps_main, IH. Qed.

Lemma wp_inv_run sched n m :
  wp_inv G J Q n m -> wp_inv G J Q (n - main_steps sched) (run_schedule sched m).
Proof.
  revert n m. induction sched as [| who sched IH]; intros n m Hinv.
  - cbn. by rewrite Nat.sub_0_r.
  - rewrite run_schedule_cons. destruct who as [| i].
    + replace (n - main_steps (0%nat :: sched))%nat with (pred n - main_steps sched)%nat
        by (rewrite main_steps_main; lia).
      by apply IH, wp_inv_step_main.
    + rewrite main_steps_thread. by apply IH, wp_inv_step_thread.
Qed.

(** Soundness of [prog_wp]: [J] holds under every schedule; under every
    schedule that gives the main program [n] steps it has finished, with an
    outcome and a world that satisfy the postcondition. *)
Lemma wp_sound sched n m :
  wp_inv G J Q n m ->
  J (mworld (run_schedule sched m))
  /\ ((n <= main_steps sched)%nat ->
      exists r, outcome (mmain (run_schedule sched m)) = Some r
                /\ Q r (mworld (run_schedule sched m))).
Proof.
  intros Hinv. destruct (wp_inv_run sched n m Hinv) as (w0 & Hg & Hwp & _).
  split.
  - destruct (mmain (run_schedule sched m)) as [a | e | B o k]; cbn in Hwp;
      by destruct (Hwp _ Hg).
  - intros Hn. replace (n - main_steps sched)%nat with 0%nat in Hwp by lia.
    destruct (mmain (run_schedule sched m)) as [a | e | B o k]; cbn in Hwp;
      destruct (Hwp _ Hg) as [_ Hq]; [by eexists .. | done].
Qed.

Variable I : world -> Prop.
Hypothesis I_stable : forall w w', I w -> G w w' -> I w'.

Lemma keeps_inv_step who m : keeps_inv G I m -> keeps_inv G I (step who m).
Proof.
  intros (Hi & Hkeeps & Hall). destruct who as [| i]; cbn [step].
  - unfold step_main. destruct m as [w p ths]. cbn in *.
    destruct p as [a | e | B [o | o] k]; try done.
    + destruct Hkeeps as [Ho Hk]. specialize (Ho w Hi). specialize (Hk (exec o w).1).
      by destruct (exec o w) as [b w1].
    + destruct o as [body | t]; cbn.
      * destruct Hkeeps as [Hbody Hk]. split; [done |]. split; [apply Hk |].
        apply Forall_app. split; [done |]. by constructor.
      * destruct (ths !! t) as [c |]; [| done]. by destruct (finished c).
  - destruct (step_thread_guar i m Hall) as [Hg' Hall'].
    split; [by eapply I_stable |]. by rewrite step_thread_main.
Qed.

(** Soundness of [prog_keeps]: the invariant holds in every state the
    machine reaches. *)
Lemma keeps_inv_run sched m : keeps_inv G I m -> keeps_inv G I (run_schedule sched m).
Proof.
  revert m. induction sched as [| who sched IH]; intros m Hinv; [done |].
  rewrite run_schedule_cons. by apply IH, keeps_inv_step.
Qed.

End Interference.

Section Joins.

Variable R : A -> Prop.

Lemma joins_inv_step who m : joins_inv R m -> joins_inv R (step who m).
Proof.
  intros (started & Hjoins & Hths). destruct who as [| i]; cbn [step].
  - unfold step_main. destruct m as [w p ths]. cbn in *.
    destruct p as [a | e | B [o | o] k]; try (by exists started).
    + specialize (Hjoins (exec o w).1). destruct (exec o w) as [b w1]. by exists started.
    + destruct o as [body | t]; cbn in *.
      * exists (length ths :: started). split; [apply Hjoins |].
        intros i c Hi. apply lookup_app_Some in Hi as [Hi | [Hlen Hi]].
        -- destruct (Hths i c Hi) as [? | ?]; [left; by right | by right].
        -- left. destruct (i - length ths)%nat eqn:Hd; [| done].
           assert (i = length ths) by lia. subst i. by left.
      * destruct (ths !! t) as [c |] eqn:Ht; [| by exists started].
        destruct (finished c) eqn:Hc; [| by exists started].
        exists (filter (fun t' => t' <> t) started). split; [done |].
        intros i c' Hi. cbn in Hi. destruct (decide (i = t)) as [-> | Hne].
        -- right. by simplify_eq.
        -- destruct (Hths i c' Hi) as [Hin | ?]; [| by right].
           left. by apply list_elem_of_filter.
  - exists started. rewrite step_thread_main. split; [done |].
    intros j c Hj. unfold step_thread in Hj.
    destruct (mthreads m !! i) as [[| | B o k] |] eqn:Hi; try by apply (Hths j c).
    destruct (exec o (mworld m)) as [b w1]. cbn in Hj.
    destruct (decide (i = j)) as [<- | Hne].
    + left. by destruct (Hths i _ Hi).
    + rewrite list_lookup_insert_ne in Hj by done. by apply (Hths j c).
Qed.

(** Soundness of [joins_all]: when the main program has returned a value in
    [R], every thread is over. *)
Lemma joins_sound sched m a :
  joins_inv R m -> mmain (run_schedule sched m) = Ret a -> R a ->
  Forall (fun c => finished c = true) (mthreads (run_schedule sched m)).
Proof.
  intros Hinv Hret Ha.
  assert (Hfin : joins_inv R (run_schedule sched m)).
  { clear Hret. revert m Hinv. induction sched as [| who sched IH]; intros m Hinv; [done |].
    rewrite run_schedule_cons. by apply IH, joins_inv_step. }
  destruct Hfin as (started & Hjoins & Hths). rewrite Hret in Hjoins. cbn in Hjoins.
  rewrite (Hjoins Ha) in Hths. apply Forall_lookup_2. intros i c Hi.
  destruct (Hths i c Hi) as [Hin | ?]; [by apply elem_of_nil in Hin | done].
Qed.

End Joins.

End MachineFacts.

(** ** Paths of the workers *)

Section WorkerPaths.

Import Wallpaper.
Variable E : environ.

(** A file name holds no separator, so it is never an absolute path. *)
Lemma name_not_absolute s : PyPath.is_absolute (PyPath.name s) = false.
Proof.
  unfold PyPath.name.
  assert (Hlast : "/"%char ∉ List.last (PyPath.parts s) []).
  { destruct (PyPath.parts s) as [| c0 l] eqn:Hparts; [apply not_elem_of_nil |].
    assert (Hin : List.last (c0 :: l) [] ∈ PyPath.parts s).
    { rewrite Hparts. apply list_elem_of_In.
      destruct (exists_last (l := c0 :: l)) as (l' & x & Hx); [done |].
      rewrite Hx, last_last. apply in_or_app. right. by left. }
    unfold PyPath.parts in Hin. apply list_elem_of_filter in Hin as [_ Hin].
    by eapply split_slash_no_slash; [apply not_elem_of_nil | done]. }
  destruct (List.last (PyPath.parts s) []) as [| ch r]; [done |].
  cbn [PyStr.of_chars string_of_list_ascii]. rewrite is_absolute_cons.
  destruct (ascii_dec "/" ch) as [<- | ?]; [| done]. exfalso. apply Hlast. by left.
Qed.

Lemma dir_prefix_app d : exists s, PyPath.dir_prefix d = d +:+ s.
Proof.
  unfold PyPath.dir_prefix. destruct (PyPath.ends_with_slash d); [| by eexists].
  exists "". by rewrite str_app_nil_r.
Qed.

(** Joining a file name to a path extends the text of the path. *)
Lemma join_name_app d s : exists t, d </> PyPath.name s = d +:+ t.
Proof.
  rewrite join_relative by apply name_not_absolute.
  destruct (dir_prefix_app d) as [t ->]. exists (t +:+ PyPath.name s).
  by rewrite str_app_assoc.
Qed.

Lemma current_file_eq : CURRENT_FILE E = PyPath.dir_prefix (CACHE_DIR E) +:+ "current_wallpaper".
Proof. reflexivity. Qed.

Lemma pid_file_eq : PID_FILE E = PyPath.dir_prefix (CACHE_DIR E) +:+ "automation_pid".
Proof. reflexivity. Qed.

(** A path in the cache directory whose name starts with neither ['c'] nor
    ['a'] is none of the two records. *)
Lemma worker_path_intro ch rest :
  ch <> "c"%char -> ch <> "a"%char ->
  worker_path E (PyPath.dir_prefix (CACHE_DIR E) +:+ String ch rest).
Proof.
  intros Hc Ha. split; intros Heq.
  - rewrite current_file_eq in Heq. apply String.app_inj in Heq. congruence.
  - rewrite pid_file_eq in Heq. apply String.app_inj in Heq. congruence.
Qed.

Lemma known_effect_relative effect : known_effect effect -> PyPath.is_absolute effect = false.
Proof. by intros [-> | ->]. Qed.

Lemma generic_file_worker effect : known_effect effect -> worker_path E (generic_file E effect).
Proof.
  intros [-> | ->]; rewrite generic_file_eq by done.
  - by apply (worker_path_intro "s").
  - by apply (worker_path_intro "b").
Qed.

Lemma cache_file_worker p effect : known_effect effect -> worker_path E (cache_file E p effect).
Proof.
  intros H. rewrite cache_file_eq by by apply known_effect_relative.
  by apply (worker_path_intro "g").
Qed.

Lemma generic_file_into_worker effect s :
  known_effect effect -> worker_path E (generic_file E effect </> PyPath.name s).
Proof.
  intros H. destruct (join_name_app (generic_file E effect) s) as [t ->].
  destruct H as [-> | ->]; rewrite generic_file_eq, !str_app_assoc by done.
  - by apply (worker_path_intro "s").
  - by apply (worker_path_intro "b").
Qed.

Lemma cache_file_into_worker p effect s :
  known_effect effect -> worker_path E (cache_file E p effect </> PyPath.name s).
Proof.
  intros H. destruct (join_name_app (cache_file E p effect) s) as [t ->].
  rewrite cache_file_eq, !str_app_assoc by by apply known_effect_relative.
  by apply (worker_path_intro "g").
Qed.

End WorkerPaths.

(** ** Rules for guarantees and invariants *)

Section Rules.

Variable G : world -> world -> Prop.

Lemma io_guar_bind {A B} (m : io A) (f : A -> io B) :
  io_guar G m -> (forall a, io_guar G (f a)) -> io_guar G (bind m f).
Proof.
  intros Hm Hf. induction m as [a | e | C o k IH]; cbn; [apply Hf | done |].
  intros w. destruct (Hm w) as [Hg Hk]. split; [done |]. by apply IH.
Qed.

Lemma io_guar_catch {A} (m : io A) (h : exn -> option (io A)) :
  io_guar G m -> (forall e m', h e = Some m' -> io_guar G m') -> io_guar G (catch m h).
Proof.
  intros Hm Hh. induction m as [a | e | C o k IH]; cbn; [done | |].
  - destruct (h e) as [m' |] eqn:He; [by eapply Hh | done].
  - intros w. destruct (Hm w) as [Hg Hk]. split; [done |]. by apply IH.
Qed.

Lemma io_guar_perform {B} (o : op B) : (forall w, G w (exec o w).2) -> io_guar G (perform o).
Proof. intros Ho w. by split. Qed.

Lemma io_guar_attempt {B} (o : op (B + exn)) :
  (forall w, G w (exec o w).2) -> io_guar G (attempt o).
Proof. intros Ho w. split; [done |]. by destruct (exec o w).1. Qed.

Variable I : world -> Prop.

Lemma io_keeps_bind {A B} (m : io A) (f : A -> io B) :
  io_keeps I m -> (forall a, io_keeps I (f a)) -> io_keeps I (bind m f).
Proof.
  intros Hm Hf. induction m as [a | e | C o k IH]; cbn; [apply Hf | done |].
  destruct Hm as [Ho Hk]. split; [done |]. intros b. by apply IH.
Qed.

Lemma io_keeps_catch {A} (m : io A) (h : exn -> option (io A)) :
  io_keeps I m -> (forall e m', h e = Some m' -> io_keeps I m') -> io_keeps I (catch m h).
Proof.
  intros Hm Hh. induction m as [a | e | C o k IH]; cbn; [done | |].
  - destruct (h e) as [m' |] eqn:He; [by eapply Hh | done].
  - destruct Hm as [Ho Hk]. split; [done |]. intros b. by apply IH.
Qed.

Lemma io_keeps_perform {B} (o : op B) :
  (forall w, I w -> I (exec o w).2) -> io_keeps I (perform o).
Proof. intros Ho. by split. Qed.

Lemma io_keeps_attempt {B} (o : op (B + exn)) :
  (forall w, I w -> I (exec o w).2) -> io_keeps I (attempt o).
Proof. intros Ho. split; [done |]. by intros [b | e]. Qed.

Lemma prog_keeps_bind {A B} (m : prog A) (f : A -> prog B) :
  prog_keeps G I m -> (forall a, prog_keeps G I (f a)) -> prog_keeps G I (bind m f).
Proof.
  intros Hm Hf. induction m as [a | e | C [o | o] k IH]; cbn; [apply Hf | done | |].
  - destruct Hm as [Ho Hk]. split; [done |]. intros b. by apply IH.
  - destruct o as [body | t]; cbn in *.
    + destruct Hm as [Hbody Hk]. split; [done |]. intros t. by apply IH.
    + by apply IH.
Qed.

Lemma prog_keeps_lift {A} (c : io A) : io_keeps I c -> prog_keeps G I (lift c).
Proof.
  intros Hc. induction c as [a | e | C o k IH]; cbn; [done | done |].
  destruct Hc as [Ho Hk]. split; [done |]. intros b. by apply IH.
Qed.

Lemma prog_keeps_start (body : io unit) :
  io_guar G body -> prog_keeps G I (start_thread body).
Proof. intros Hbody. by split. Qed.

Lemma prog_keeps_join_all ths : prog_keeps G I (join_all ths).
Proof.
  induction ths as [| t ths IH]; [done |].
  change (prog_keeps G I (bind (join_thread t) (fun _ => join_all ths))).
  by apply prog_keeps_bind.
Qed.

End Rules.

(** ** The worker threads keep to [worker_step] *)

Section WorkerGuarantee.

Import Wallpaper.
Variable E : environ.

Local Abbreviation G := (worker_step E).

Lemma worker_step_refl w : G w w.
Proof.
  repeat split; try done. exists []. by rewrite app_nil_r.
Qed.

Lemma worker_step_trans w1 w2 w3 : G w1 w2 -> G w2 w3 -> G w1 w3.
Proof.
  intros (Ht & Hp & Ha & Hd & Hf & Hc & Hpid & l & Hl & Hev)
         (Ht' & Hp' & Ha' & Hd' & Hf' & Hc' & Hpid' & l' & Hl' & Hev').
  repeat split; try congruence.
  - intros q Hq. by apply Hf', Hf.
  - exists (l ++ l'). split; [by rewrite Hl', Hl, app_assoc | by apply Forall_app].
Qed.

(** A world that differs by at most one written worker path and some
    worker events is a worker step away. *)
Lemma worker_step_build w w' l :
  tools w' = tools w -> procs w' = procs w -> pid_alloc w' = pid_alloc w ->
  draws w' = draws w ->
  (fs w' = fs w \/ exists q n, worker_path E q /\ fs w' = <[q := n]> (fs w)) ->
  trace w' = trace w ++ l -> Forall worker_event l ->
  G w w'.
Proof.
  intros Ht Hp Ha Hd Hfs Hl Hev.
  split; [done |]. split; [done |]. split; [done |]. split; [done |].
  destruct Hfs as [-> | (q & n & [Hc Hpid] & ->)].
  - split; [done |]. split; [done |]. split; [done |]. by exists l.
  - split.
    { intros q' Hq'. destruct (decide (q = q')) as [-> | Hne].
      - by rewrite lookup_insert_eq.
      - by rewrite lookup_insert_ne. }
    split; [by rewrite lookup_insert_ne |]. split; [by rewrite lookup_insert_ne |].
    by exists l.
Qed.

Lemma print_worker err line w : G w (print_line err line w).
Proof. apply (worker_step_build _ _ []); try done. - by left. - by rewrite app_nil_r. Qed.

Lemma exec_run_worker cmd w : worker_cmd E cmd -> G w (exec_run cmd w).2.
Proof.
  intros Hcmd. unfold exec_run.
  destruct Hcmd as [(exe & args & -> & Hexe) | (p & args & g & -> & Hg)].
  - destruct (bool_decide (exe ∈ tools w)); [| apply worker_step_refl]. cbn [snd].
    assert (Heff : forall ok w0, tool_effect (exe :: args) ok w0 = w0).
    { intros ok w0. repeat (apply elem_of_cons in Hexe as [-> | Hexe]; [done |]).
      by apply elem_of_nil in Hexe. }
    rewrite Heff. eapply (worker_step_build _ _ [_]); try done; [by left |].
    constructor; [| done]. cbn.
    repeat (apply elem_of_cons in Hexe as [-> | Hexe]; [by repeat constructor |]).
    by apply elem_of_nil in Hexe.
  - destruct (bool_decide ("magick" ∈ tools w)); [| apply worker_step_refl]. cbn [snd].
    rewrite magick_output.
    destruct (exit_ok w (length (trace w)) ("magick" :: p :: args ++ [g])).
    + eapply (worker_step_build _ _ [_]); try done; [right; by eexists _, _ |].
      constructor; [| done]. cbn. by repeat constructor.
    + eapply (worker_step_build _ _ [_]); try done; [by left |].
      constructor; [| done]. cbn. by repeat constructor.
Qed.

Lemma exec_copy_worker src dst w :
  worker_path E dst -> worker_path E (dst </> PyPath.name src) -> G w (exec_copy src dst w).2.
Proof.
  intros Hdst Hinto. unfold exec_copy. cbv zeta.
  destruct (fs w !! src) as [[txt |] |]; try apply worker_step_refl.
  case_bool_decide; [apply worker_step_refl |].
  match goal with |- context [fs w !! ?t] =>
    assert (Ht : worker_path E t) by (by case_bool_decide);
    destruct (fs w !! t) as [[|] |] end;
    try apply worker_step_refl;
    repeat case_match; try apply worker_step_refl; cbn [snd];
    (eapply (worker_step_build _ _ [_]); try done; [right; by eexists _, _ | by constructor]).
Qed.

Lemma log_info_guar msg : io_guar G (log_info E msg).
Proof. apply io_guar_perform. intros w. apply print_worker. Qed.

Lemma log_error_guar msg : io_guar G (log_error E msg).
Proof. apply io_guar_perform. intros w. apply print_worker. Qed.

Lemma subprocess_run_guar cmd check : worker_cmd E cmd -> io_guar G (subprocess_run cmd check).
Proof.
  intros Hcmd. apply io_guar_bind.
  - apply io_guar_perform. intros w. by apply exec_run_worker.
  - intros [ok |]; [| done]. by destruct (check && negb ok)%bool.
Qed.

Lemma run_cmd_guar cmd quiet : worker_cmd E cmd -> io_guar G (run_cmd E cmd false quiet).
Proof.
  intros Hcmd. unfold run_cmd. apply io_guar_bind.
  - destruct quiet; [done | apply log_info_guar].
  - intros _. apply io_guar_catch.
    + apply io_guar_bind; [by apply subprocess_run_guar | done].
    + intros e m' He. destruct e; try discriminate He;
        apply (inj Some) in He; rewrite <- He;
        (apply io_guar_bind; [apply log_error_guar | done]).
Qed.

Lemma update_themes_guar p : io_guar G (update_themes E p).
Proof.
  assert (Htool : forall exe args,
             exe ∈ ["wallust"; "systemctl"; "makoctl"] -> worker_cmd E (exe :: args))
    by (intros exe args Hexe; left; by eexists _, _).
  unfold update_themes. apply io_guar_bind; [by apply io_guar_perform; intros w; apply worker_step_refl |].
  intros found. destruct (negb found); [apply log_error_guar |].
  apply io_guar_bind; [apply log_info_guar |]. intros _.
  apply io_guar_bind; [apply run_cmd_guar, Htool; by repeat constructor |]. intros r.
  destruct (negb (truthy r)); [apply log_error_guar |].
  apply io_guar_bind; [apply log_info_guar |]. intros _.
  apply io_guar_bind; [apply run_cmd_guar, Htool; by repeat constructor |]. intros _.
  apply io_guar_bind; [apply log_info_guar |]. intros _.
  apply io_guar_bind; [apply run_cmd_guar, Htool; by repeat constructor | done].
Qed.

Lemma transform_guar p effect args :
  known_effect effect -> io_guar G (transform_wallpaper E p effect args).
Proof.
  intros Heff. unfold transform_wallpaper. cbv zeta.
  apply io_guar_bind; [by apply io_guar_perform; intros w; apply worker_step_refl |].
  intros cached. destruct cached.
  - apply io_guar_bind; [apply log_info_guar |]. intros _.
    apply io_guar_attempt. intros w. apply exec_copy_worker.
    + by apply generic_file_worker.
    + by apply generic_file_into_worker.
  - apply io_guar_bind; [apply log_info_guar |]. intros _.
    apply io_guar_bind; [by apply io_guar_perform; intros w; apply worker_step_refl |].
    intros found. destruct (negb found); [apply log_error_guar |].
    apply io_guar_bind.
    + apply run_cmd_guar. right. eexists _, _, _. split; [reflexivity |].
      by apply generic_file_worker.
    + intros r. destruct (truthy r); [| done].
      apply io_guar_attempt. intros w. apply exec_copy_worker.
      * by apply cache_file_worker.
      * by apply cache_file_into_worker.
Qed.

End WorkerGuarantee.

(** ** Setting a wallpaper *)

Ltac msimpl :=
  cbn [step step_main step_thread exec_thread_op mmain mworld mthreads bind lift perform
       attempt exec fst snd negb start start_thread join_thread join_all].

Section MissingFile.

Import Wallpaper.
Variable E : environ.

Lemma missing_file_run p w :
  fs w !! p = None ->
  forall sched k,
    run_schedule sched (missing_file_state E p w k)
    = missing_file_state E p w (k + main_steps sched).
Proof.
  intros Hnone. induction sched as [| who sched IH]; intros k.
  - by rewrite Nat.add_0_r.
  - rewrite run_schedule_cons. destruct who as [| i].
    + rewrite main_steps_main.
      replace (k + S (main_steps sched))%nat with (S k + main_steps sched)%nat by lia.
      rewrite <- IH. f_equal.
      destruct k as [| [| k]]; [| done | done].
      unfold missing_file_state, start, set_wallpaper. msimpl.
      rewrite Hnone, bool_decide_eq_false_2 by (by intros [? ?]). done.
    + rewrite main_steps_thread, <- IH. f_equal.
      by destruct k as [| [| k]].
Qed.

(** C3, for a path that names no entry of the file system (a path in plain
    form for which the file system holds neither a file nor a directory):
    under every schedule [set_wallpaper] starts no thread and leaves the
    files, the trace (so no external program is run or started) and the
    processes as they were; once the main program has taken its two steps
    it has returned [False]. *)
Theorem set_wallpaper_missing_file p w sched :
  PyPath.plain p = true ->
  fs w !! p = None ->
  let m := run_schedule sched (start (set_wallpaper E p) w) in
  fs (mworld m) = fs w /\ trace (mworld m) = trace w /\ procs (mworld m) = procs w
  /\ mthreads m = []
  /\ ((2 <= main_steps sched)%nat -> mmain m = Ret false).
Proof.
  intros _ Hnone m. subst m.
  change (start (set_wallpaper E p) w) with (missing_file_state E p w 0).
  rewrite (missing_file_run p w Hnone). cbn [Nat.add].
  destruct (main_steps sched) as [| [| k]]; repeat split; try done; lia.
Qed.

End MissingFile.

Lemma set_wallpaper_missing_file_witness :
  PyPath.plain "/does/not/exist.png" = true
  /\ fs Sample.fresh !! "/does/not/exist.png" = None
  /\ let m := run_schedule [0; 0]%nat
                (start (Wallpaper.set_wallpaper Sample.E0 "/does/not/exist.png") Sample.fresh) in
     fs (mworld m) = fs Sample.fresh /\ trace (mworld m) = trace Sample.fresh
     /\ procs (mworld m) = procs Sample.fresh
     /\ mthreads m = []
     /\ ((2 <= main_steps [0; 0]%nat)%nat -> mmain m = Ret false).
Proof.
  split; [reflexivity |]. split; [reflexivity |].
  apply (set_wallpaper_missing_file Sample.E0 "/does/not/exist.png" Sample.fresh [0; 0]%nat);
    reflexivity.
Defined.

(** C3 as stated fails for a path that refers to no file but to a
    directory: [exists()] holds for a directory, so the three workers and the
    display are started on it, [set_wallpaper] returns [True], and the
    current-wallpaper record is overwritten with the directory. *)
Lemma set_wallpaper_accepts_directory :
  let m := run_schedule SampleRuns.workers_then_main
             (start (Wallpaper.set_wallpaper Sample.E0 Scenes.folder) Scenes.tools_failing) in
  fs Scenes.tools_failing !! Scenes.folder = Some Dir
  /\ fs Scenes.tools_failing !! Wallpaper.CURRENT_FILE Sample.E0 = None
  /\ mmain m = Ret true
  /\ fs (mworld m) !! Wallpaper.CURRENT_FILE Sample.E0 = Some (File Scenes.folder)
  /\ procs (mworld m) !! 1 = Some (Process (swaybg_args Scenes.folder) true)
  /\ length (trace (mworld m)) = 6%nat.
Proof. cbv zeta. repeat split; by vm_compute. Qed.

(** A finished main program takes no further step. *)
Lemma finished_main_stays {A} sched (m : machine A) r :
  outcome (mmain m) = Some r -> mmain (run_schedule sched m) = mmain m.
Proof.
  revert m. induction sched as [| who sched IH]; intros m Hout; [done |].
  rewrite run_schedule_cons.
  assert (Hstep : mmain (step who m) = mmain m).
  { destruct who as [| i]; [| apply step_thread_main].
    destruct m as [w p ths]. cbn in *. by destruct p. }
  rewrite IH by (by rewrite Hstep). exact Hstep.
Qed.

Section WpRules.

Context {A : Type}.
Variables (G : world -> world -> Prop) (J : world -> Prop) (Q : A + exn -> world -> Prop).

Lemma wp_ret n (a : A) w :
  (forall w', G w w' -> J w' /\ Q (inl a) w') -> prog_wp G J n (Ret a) Q w.
Proof. intros H. by destruct n. Qed.

Lemma wp_throw n e w :
  (forall w', G w w' -> J w' /\ Q (inr e) w') -> prog_wp G J n (Throw e) Q w.
Proof. intros H. by destruct n. Qed.

Lemma wp_seq {B} n (o : op B) (k : B -> prog A) w :
  (forall w', G w w' -> J w' /\ prog_wp G J n (k (exec o w').1) Q (exec o w').2) ->
  prog_wp G J (S n) (Do (Seq o) k) Q w.
Proof. intros H. exact H. Qed.

Lemma wp_start n body (k : nat -> prog A) w :
  io_guar G body ->
  (forall w', G w w' -> J w' /\ forall t, prog_wp G J n (k t) Q w') ->
  prog_wp G J (S n) (Do (Thr (Start body)) k) Q w.
Proof.
  intros Hbody H w' Hg. destruct (H w' Hg) as [Hj Hk]. split; [done |]. by split.
Qed.

(** A main program at its call, with no thread yet, satisfies the
    invariant of [prog_wp]. *)
Lemma wp_inv_start n (p : prog A) w :
  (forall w0, G w0 w0) -> prog_wp G J n p Q w -> wp_inv G J Q n (start p w).
Proof. intros Hrefl Hwp. exists w. split; [apply Hrefl |]. by split. Qed.

End WpRules.

Section DisplayMissing.

Import Wallpaper.
Variable E : environ.

Local Abbreviation G := (worker_step E).

Lemma worker_step_tools w w' : G w w' -> tools w' = tools w.
Proof. by intros (? & _). Qed.

Lemma worker_step_current w w' : G w w' -> fs w' !! CURRENT_FILE E = fs w !! CURRENT_FILE E.
Proof. by intros (_ & _ & _ & _ & _ & ? & _). Qed.

Lemma worker_step_pid w w' : G w w' -> fs w' !! PID_FILE E = fs w !! PID_FILE E.
Proof. by intros (_ & _ & _ & _ & _ & _ & ? & _). Qed.

Lemma worker_step_exists w w' q : G w w' -> is_Some (fs w !! q) -> is_Some (fs w' !! q).
Proof. intros (_ & _ & _ & _ & H & _). apply H. Qed.

Lemma set_wallpaper_workers p :
  io_guar G (update_themes E p)
  /\ io_guar G (transform_wallpaper E p "square"
                 ["-gravity"; "Center"; "-extent"; "1:1"; "-resize"; "25%"])
  /\ io_guar G (transform_wallpaper E p "blurred" ["-blur"; "50x30"; "-resize"; "75%"]).
Proof.
  split; [apply update_themes_guar |].
  split; apply transform_guar; [by left | by right].
Qed.

(** Without swaybg, [set_wallpaper] returns [False] within seven steps and
    never touches the current-wallpaper record. *)
Lemma display_missing_wp p cur tls w :
  "swaybg" ∉ tls -> tools w = tls -> fs w !! CURRENT_FILE E = cur ->
  prog_wp G (fun w' => fs w' !! CURRENT_FILE E = cur) 7 (set_wallpaper E p)
    (fun r w' => r = inl false) w.
Proof.
  intros Hno Htools Hcur.
  destruct (set_wallpaper_workers p) as (Hthemes & Hsquare & Hblur).
  assert (Hstable : forall w1 w2,
             (tools w1 = tls /\ fs w1 !! CURRENT_FILE E = cur) -> G w1 w2 ->
             tools w2 = tls /\ fs w2 !! CURRENT_FILE E = cur).
  { intros w1 w2 [Ht Hc] Hg.
    by rewrite (worker_step_tools _ _ Hg), (worker_step_current _ _ Hg). }
  assert (HP : tools w = tls /\ fs w !! CURRENT_FILE E = cur) by done.
  clear Htools Hcur. unfold set_wallpaper. msimpl.
  apply wp_seq. intros w1 Hg1. pose proof (Hstable _ _ HP Hg1) as HP1.
  split; [apply HP1 |]. msimpl.
  destruct (bool_decide (is_Some (fs w1 !! p))); msimpl.
  2: { (* the file is missing *)
    unfold log_error. msimpl. apply wp_seq. intros w2 Hg2.
    pose proof (Hstable _ _ HP1 Hg2) as HP2. split; [apply HP2 |]. msimpl.
    apply wp_ret. intros w3 Hg3.
    assert (HP2' : tools (print_line true
                            (error_line E ("File not found: " +:+ Fmt.PROP +:+ p +:+ Fmt.RESET))
                            w2) = tls
                   /\ fs (print_line true
                            (error_line E ("File not found: " +:+ Fmt.PROP +:+ p +:+ Fmt.RESET))
                            w2) !! CURRENT_FILE E = cur) by exact HP2.
    by destruct (Hstable _ _ HP2' Hg3). }
  unfold log_info at 1. msimpl. apply wp_seq. intros w2 Hg2.
  pose proof (Hstable _ _ HP1 Hg2) as HP2. split; [apply HP2 |]. msimpl.
  apply wp_start; [done |]. intros w3 Hg3.
  pose proof (Hstable (print_line _ _ w2) _ HP2 Hg3) as HP3. split; [apply HP3 |]. intros t1.
  apply wp_start; [done |]. intros w4 Hg4.
  pose proof (Hstable _ _ HP3 Hg4) as HP4. split; [apply HP4 |]. intros t2.
  apply wp_start; [done |]. intros w5 Hg5.
  pose proof (Hstable _ _ HP4 Hg5) as HP5. split; [apply HP5 |]. intros t3.
  unfold launch_swaybg. msimpl. apply wp_seq. intros w6 Hg6.
  pose proof (Hstable _ _ HP5 Hg6) as HP6. split; [apply HP6 |]. msimpl.
  destruct HP6 as [Ht6 Hc6]. rewrite Ht6, bool_decide_eq_false_2 by done. msimpl.
  unfold log_error. msimpl. apply wp_seq. intros w7 Hg7.
  pose proof (Hstable _ _ (conj Ht6 Hc6) Hg7) as HP7. split; [apply HP7 |]. msimpl.
  apply wp_ret. intros w8 Hg8.
  pose proof (Hstable (print_line _ _ w7) _ HP7 Hg8) as HP8. by destruct HP8.
Qed.

(** C1: when the display tool is missing, under every schedule the
    current-wallpaper record keeps the value it had before the call, and
    [set_wallpaper], whenever it has finished, has returned [False]; it has
    finished once the main program has taken seven steps. *)
Theorem set_wallpaper_display_missing p w sched :
  "swaybg" ∉ tools w ->
  let m := run_schedule sched (start (set_wallpaper E p) w) in
  fs (mworld m) !! CURRENT_FILE E = fs w !! CURRENT_FILE E
  /\ (forall r, outcome (mmain m) = Some r -> r = inl false)
  /\ ((7 <= main_steps sched)%nat -> mmain m = Ret false).
Proof.
  intros Hno. cbv zeta.
  pose proof (display_missing_wp p _ _ w Hno eq_refl eq_refl) as Hwp.
  apply (wp_inv_start _ _ _ _ _ _ (worker_step_refl E)) in Hwp.
  assert (Hlate : forall sched',
             (7 <= main_steps sched')%nat ->
             mmain (run_schedule sched' (start (set_wallpaper E p) w)) = Ret false).
  { intros sched' Hn.
    destruct (wp_sound _ (worker_step_refl E) (worker_step_trans E) _ _ sched' _ _ Hwp)
      as [_ Hfin].
    destruct (Hfin Hn) as (r & Hout & ->).
    by destruct (mmain (run_schedule sched' (start (set_wallpaper E p) w)));
      inversion Hout. }
  destruct (wp_sound _ (worker_step_refl E) (worker_step_trans E) _ _ sched _ _ Hwp)
    as [Hcur _].
  split; [exact Hcur |]. split; [| apply Hlate].
  intros r Hout.
  specialize (Hlate (sched ++ repeat O 7)).
  rewrite main_steps_app, main_steps_repeat, run_schedule_app in Hlate.
  rewrite (finished_main_stays (repeat O 7) _ r Hout) in Hlate.
  rewrite Hlate in Hout by lia. cbn in Hout. congruence.
Qed.

End DisplayMissing.

Lemma set_wallpaper_display_missing_witness :
  ("swaybg" ∉ tools SampleRuns.no_display)
  /\ let m := run_schedule (repeat O 7)
                (start (Wallpaper.set_wallpaper Sample.E0 SampleRuns.picture)
                   SampleRuns.no_display) in
     fs (mworld m) !! Wallpaper.CURRENT_FILE Sample.E0
     = fs SampleRuns.no_display !! Wallpaper.CURRENT_FILE Sample.E0
     /\ (forall r, outcome (mmain m) = Some r -> r = inl false)
     /\ ((7 <= main_steps (repeat O 7))%nat -> mmain m = Ret false).
Proof.
  assert (Hno : "swaybg" ∉ tools SampleRuns.no_display)
    by (apply (bool_decide_unpack _); by vm_compute).
  split; [exact Hno |].
  exact (set_wallpaper_display_missing Sample.E0 SampleRuns.picture SampleRuns.no_display
           (repeat O 7) Hno).
Defined.

(** ** Joining the workers *)

Section JoinRules.

Context {A : Type}.
Variable R : A -> Prop.

Lemma joins_all_lift_bind {B} (c : io B) (k : B -> prog A) started :
  (forall b, joins_all R started (k b)) -> joins_all R started (bind (lift c) k).
Proof.
  intros Hk. induction c as [b | e | C o kc IH]; cbn; [apply Hk | done |].
  intros b. apply IH.
Qed.

Lemma joins_all_start body (k : nat -> prog A) started :
  (forall t, joins_all R (t :: started) (k t)) ->
  joins_all R started (bind (start_thread body) k).
Proof. intros Hk t. apply Hk. Qed.

(** Joining every thread of [ths] leaves none of them to join. *)
Lemma joins_all_join_all ths (k : prog A) started :
  joins_all R (filter (fun t => t ∉ ths) started) k ->
  joins_all R started (bind (join_all ths) (fun _ => k)).
Proof.
  revert started. induction ths as [| t ths IH]; intros started Hk.
  - cbn. replace (filter (fun t : nat => t ∉ []) started) with started in Hk; [done |].
    clear Hk. induction started as [| x started IHs]; [done |].
    rewrite filter_cons_True by apply not_elem_of_nil. by f_equal.
  - cbn. apply IH. rewrite list_filter_filter.
    erewrite list_filter_iff; [exact Hk |].
    intros x. cbn. rewrite not_elem_of_cons. tauto.
Qed.

End JoinRules.

Section WlpRules.

Context {A : Type}.
Variables (G : world -> world -> Prop) (Q : A + exn -> world -> Prop).

Lemma wlp_ret (a : A) w : (forall w', G w w' -> Q (inl a) w') -> prog_wlp G (Ret a) Q w.
Proof. done. Qed.

Lemma wlp_throw e w : (forall w', G w w' -> Q (inr e) w') -> prog_wlp G (Throw e) Q w.
Proof. done. Qed.

Lemma wlp_seq {B} (o : op B) (k : B -> prog A) w :
  (forall w', G w w' -> prog_wlp G (k (exec o w').1) Q (exec o w').2) ->
  prog_wlp G (Do (Seq o) k) Q w.
Proof. done. Qed.

Lemma wlp_start body (k : nat -> prog A) w :
  io_guar G body ->
  (forall w', G w w' -> forall t, prog_wlp G (k t) Q w') ->
  prog_wlp G (Do (Thr (Start body)) k) Q w.
Proof. intros Hbody H w' Hg. split; [done |]. by apply H. Qed.

Lemma wlp_join t (k : unit -> prog A) w :
  (forall w', G w w' -> prog_wlp G (k tt) Q w') ->
  prog_wlp G (Do (Thr (JoinThread t)) k) Q w.
Proof. done. Qed.

Lemma wlp_inv_start (p : prog A) w :
  (forall w0, G w0 w0) -> prog_wlp G p Q w -> wlp_inv G Q (start p w).
Proof. intros Hrefl Hwlp. exists w. split; [apply Hrefl |]. by split. Qed.

End WlpRules.

Section Orchestration.

Import Wallpaper.
Variable E : environ.

Local Abbreviation G := (worker_step E).

(** On the path of [set_wallpaper] that returns [True], the three started
    threads have been joined. *)
Lemma set_wallpaper_joins p : joins_all (fun b => b = true) [] (set_wallpaper E p).
Proof.
  unfold set_wallpaper. apply joins_all_lift_bind. intros found.
  destruct (negb found).
  { apply joins_all_lift_bind. intros _. by cbn. }
  apply joins_all_lift_bind. intros _.
  apply joins_all_start. intros t1. apply joins_all_start. intros t2.
  apply joins_all_start. intros t3. cbv zeta.
  apply joins_all_lift_bind. intros shown. destruct (negb shown); [by cbn |].
  apply joins_all_lift_bind. intros _. apply joins_all_lift_bind. intros _.
  apply joins_all_join_all. cbn [joins_all]. intros _.
  rewrite !filter_cons_False, filter_nil; [done | | |]; intros Hn; apply Hn;
    rewrite !elem_of_cons; tauto.
Qed.

Lemma exec_popen_tools cmd w : tools (exec_popen cmd w).2 = tools w.
Proof. unfold exec_popen. by repeat case_match. Qed.

Lemma exec_write_tools q content w : tools (exec_write q content w).2 = tools w.
Proof. unfold exec_write. by repeat case_match. Qed.

(** When [set_wallpaper] returns for an existing file, it returns whether
    the display tool is installed: nothing the workers do enters into it. *)
Lemma set_wallpaper_result_wlp p tls w :
  is_Some (fs w !! p) -> tools w = tls ->
  prog_wlp G (set_wallpaper E p)
    (fun r _ => forall b, r = inl b -> b = bool_decide ("swaybg" ∈ tls)) w.
Proof.
  intros Hp Htools.
  destruct (set_wallpaper_workers E p) as (Hthemes & Hsquare & Hblur).
  assert (Hstable : forall w1 w2,
             (tools w1 = tls /\ is_Some (fs w1 !! p)) -> G w1 w2 ->
             tools w2 = tls /\ is_Some (fs w2 !! p)).
  { intros w1 w2 [Ht Hc] Hg. split; [by rewrite (worker_step_tools _ _ _ Hg) |].
    by eapply worker_step_exists. }
  assert (HP : tools w = tls /\ is_Some (fs w !! p)) by done.
  clear Htools Hp. unfold set_wallpaper. msimpl.
  apply wlp_seq. intros w1 Hg1. destruct (Hstable _ _ HP Hg1) as [Ht1 Hp1]. msimpl.
  rewrite bool_decide_eq_true_2 by done. msimpl.
  unfold log_info at 1. msimpl. apply wlp_seq. intros w2 Hg2.
  destruct (Hstable _ _ (conj Ht1 Hp1) Hg2) as [Ht2 _]. msimpl.
  apply wlp_start; [done |]. intros w3 Hg3 t1.
  pose proof (worker_step_tools _ _ _ Hg3) as Ht3. cbn in Ht3. rewrite Ht2 in Ht3.
  apply wlp_start; [done |]. intros w4 Hg4 t2.
  pose proof (worker_step_tools _ _ _ Hg4) as Ht4. rewrite Ht3 in Ht4.
  apply wlp_start; [done |]. intros w5 Hg5 t3.
  pose proof (worker_step_tools _ _ _ Hg5) as Ht5. rewrite Ht4 in Ht5.
  unfold launch_swaybg. msimpl. apply wlp_seq. intros w6 Hg6.
  pose proof (worker_step_tools _ _ _ Hg6) as Ht6. rewrite Ht5 in Ht6. msimpl.
  rewrite Ht6. destruct (bool_decide ("swaybg" ∈ tls)) eqn:Hsway; msimpl.
  2: { (* no display tool: [False] *)
    unfold log_error. msimpl. apply wlp_seq. intros w7 Hg7. msimpl.
    apply wlp_ret. intros w8 Hg8 b Hb. congruence. }
  unfold log_info at 1. msimpl. apply wlp_seq. intros w7 Hg7. msimpl.
  unfold subprocess_run. msimpl. apply wlp_seq. intros w8 Hg8. msimpl.
  destruct (exec_run ["pkill"; "swaybg"] w8) as [[ok |] w9]; msimpl;
    [| apply wlp_throw; intros w' Hg' b Hb; congruence].
  unfold log_info at 1. msimpl. apply wlp_seq. intros w10 Hg10. msimpl.
  apply wlp_seq. intros w11 Hg11. msimpl.
  destruct (exec_popen ["swaybg"; "-m"; "fill"; "-i"; p] w11) as [[pid | e] w12]; msimpl;
    [| apply wlp_throw; intros w' Hg' b Hb; congruence].
  unfold log_info at 1. msimpl. apply wlp_seq. intros w13 Hg13. msimpl.
  unfold log_info at 1. msimpl. apply wlp_seq. intros w14 Hg14. msimpl.
  apply wlp_seq. intros w15 Hg15. msimpl.
  destruct (exec_write (CACHE_DIR E </> "current_wallpaper") p w15) as [[[] | e] w16]; msimpl;
    [| apply wlp_throw; intros w' Hg' b Hb; congruence].
  apply wlp_join. intros w17 Hg17. apply wlp_join. intros w18 Hg18.
  apply wlp_join. intros w19 Hg19. apply wlp_ret. intros w20 Hg20 b Hb. congruence.
Qed.

(** C5, as the code has it: for an existing file, under every schedule,
    - when [set_wallpaper] has returned [True], every started task is over:
      the success path joins them all before it returns;
    - the value returned is whether the display tool is installed, whatever
      the tasks did.
    The path that returns [False] is not covered: it does not join. *)
Theorem set_wallpaper_joins_on_success p w sched :
  is_Some (fs w !! p) ->
  let m := run_schedule sched (start (set_wallpaper E p) w) in
  (mmain m = Ret true -> Forall (fun c => finished c = true) (mthreads m))
  /\ (forall b, mmain m = Ret b -> b = bool_decide ("swaybg" ∈ tools w)).
Proof.
  intros Hp. cbv zeta. split.
  - intros Hret. eapply (joins_sound (fun b => b = true)); [| exact Hret | done].
    exists []. split; [apply set_wallpaper_joins |]. intros i c Hi. by cbn in Hi.
  - intros b Hret.
    pose proof (set_wallpaper_result_wlp p _ w Hp eq_refl) as Hwlp.
    apply (wlp_inv_start _ _ _ _ (worker_step_refl E)) in Hwlp.
    apply (wlp_sound _ (worker_step_refl E) (worker_step_trans E) _ sched _ (inl b) Hwlp);
      [by rewrite Hret | done].
Qed.

End Orchestration.

Lemma set_wallpaper_joins_on_success_witness :
  is_Some (fs Sample.fresh !! SampleRuns.picture)
  /\ let m := run_schedule SampleRuns.workers_then_main
                (start (Wallpaper.set_wallpaper Sample.E0 SampleRuns.picture) Sample.fresh) in
     mmain m = Ret true
     /\ (mmain m = Ret true -> Forall (fun c => finished c = true) (mthreads m))
     /\ (forall b, mmain m = Ret b -> b = bool_decide ("swaybg" ∈ tools Sample.fresh)).
Proof.
  assert (Hp : is_Some (fs Sample.fresh !! SampleRuns.picture)) by (by eexists).
  split; [exact Hp |]. split; [by vm_compute |].
  exact (set_wallpaper_joins_on_success Sample.E0 SampleRuns.picture Sample.fresh
           SampleRuns.workers_then_main Hp).
Defined.

(** C5 as stated fails on the path where the display tool is missing: after
    seven steps of the main program [set_wallpaper] has returned [False]
    while none of the three started tasks has finished. *)
Lemma set_wallpaper_returns_unjoined :
  let m := run_schedule (repeat O 7)
             (start (Wallpaper.set_wallpaper Sample.E0 SampleRuns.picture)
                SampleRuns.no_display) in
  mmain m = Ret false /\ map finished (mthreads m) = [false; false; false].
Proof. by vm_compute. Qed.

(** ** Selection *)

Section MainOnly.

Context {A : Type}.

Lemma repeat_main_app n1 n2 (m : machine A) :
  run_schedule (repeat O (n1 + n2)) m
  = run_schedule (repeat O n2) (run_schedule (repeat O n1) m).
Proof. by rewrite repeat_app, run_schedule_app. Qed.

(** The main program, running alone, goes through a sequential part as
    [run] does. *)
Lemma lift_steps {B} (c : io B) (k : B -> prog A) w ths :
  exists n,
    run_schedule (repeat O n) (Machine w (bind (lift c) k) ths)
    = match run c w with
      | (inl b, w') => Machine w' (k b) ths
      | (inr e, w') => Machine w' (Throw e) ths
      end.
Proof.
  revert w. induction c as [b | e | C o kc IH]; intros w.
  - by exists O.
  - by exists O.
  - cbn [run]. destruct (exec o w) as [b w1] eqn:Hexec.
    destruct (IH b w1) as [n Hn]. exists (S n).
    cbn [repeat]. rewrite run_schedule_cons. cbn [step step_main mmain lift bind mworld mthreads].
    by rewrite Hexec.
Qed.

Lemma lift_steps_then {B} (c : io B) (k : B -> prog A) w ths b w' (M : machine A) :
  run c w = (inl b, w') ->
  (exists n, run_schedule (repeat O n) (Machine w' (k b) ths) = M) ->
  exists n, run_schedule (repeat O n) (Machine w (bind (lift c) k) ths) = M.
Proof.
  intros Hrun [n2 Hn2]. destruct (lift_steps c k w ths) as [n1 Hn1].
  rewrite Hrun in Hn1. exists (n1 + n2)%nat. by rewrite repeat_main_app, Hn1.
Qed.

End MainOnly.

Section Selector.

Import Wallpaper.
Variable E : environ.

Lemma run_image_files entries w :
  run (image_files entries) w
  = (inl (filter (fun f => (is_file_node (fs w !! f) && has_image_suffix f)%bool = true)
            entries), w).
Proof.
  induction entries as [| f rest IH]; [done |].
  cbn [image_files]. rewrite run_bind, run_perform. cbn [exec fst snd].
  rewrite run_bind, IH. cbn [run].
  destruct (is_file_node (fs w !! f) && has_image_suffix f)%bool eqn:Hf.
  - by rewrite filter_cons_True.
  - by rewrite filter_cons_False by (by rewrite Hf).
Qed.

(** The entries [rglob] yields: every path of the file system strictly
    below the directory, once. *)
Lemma exec_rglob_spec root w :
  fs w !! root = Some Dir ->
  NoDup (exec_rglob root w)
  /\ forall f, f ∈ exec_rglob root w <-> PyPath.below root f = true /\ is_Some (fs w !! f).
Proof.
  intros Hdir. unfold exec_rglob. rewrite Hdir. split.
  - apply NoDup_filter, NoDup_fst_map_to_list.
  - intros f. rewrite list_elem_of_filter, list_elem_of_fmap.
    split.
    + intros [Hb ([g n] & -> & Hin)]. split; [done |].
      apply elem_of_map_to_list in Hin. by eexists.
    + intros [Hb [n Hn]]. split; [done |]. exists (f, n). split; [done |].
      by apply elem_of_map_to_list.
Qed.

(** The images [shuffle_wallpaper] collects are exactly the eligible files. *)
Lemma images_spec root w :
  fs w !! root = Some Dir ->
  let images :=
    filter (fun f => (is_file_node (fs w !! f) && has_image_suffix f)%bool = true)
      (exec_rglob root w) in
  NoDup images /\ forall f, f ∈ images <-> eligible w root f.
Proof.
  intros Hdir. destruct (exec_rglob_spec root w Hdir) as [Hnd Hin]. cbv zeta. split.
  - by apply NoDup_filter.
  - intros f. rewrite list_elem_of_filter, Hin. unfold eligible, has_image_suffix.
    rewrite andb_true_iff, bool_decide_eq_true. split.
    + intros [[Hfile Hsuf] [Hb _]]. split; [done |]. split; [| done].
      destruct (fs w !! f) as [[content |] |]; try done. by eexists.
    + intros (Hb & [content Hc] & Hsuf). rewrite Hc. by repeat split.
Qed.

End Selector.

Section FileNames.

Lemma split_slash_app l1 l2 acc :
  PyPath.split_slash (l1 ++ "/"%char :: l2) acc
  = PyPath.split_slash l1 acc ++ PyPath.split_slash l2 [].
Proof.
  revert acc. induction l1 as [| c l1 IH]; intros acc; [done |].
  cbn [app PyPath.split_slash]. destruct (Ascii.eqb c "/"); [| apply IH].
  by rewrite IH.
Qed.

Lemma split_slash_plain l acc :
  forallb (fun c => negb (Ascii.eqb c "/")) l = true ->
  PyPath.split_slash l acc = [rev acc ++ l].
Proof.
  revert acc. induction l as [| c l IH]; intros acc Hl.
  - by rewrite app_nil_r.
  - cbn in Hl. apply andb_true_iff in Hl as [Hc Hl].
    cbn [PyPath.split_slash]. apply negb_true_iff in Hc. rewrite Hc, IH by done.
    cbn [rev]. by rewrite <- app_assoc.
Qed.

Lemma dir_prefix_slash d : exists r, PyStr.chars (PyPath.dir_prefix d) = r ++ ["/"%char].
Proof.
  unfold PyPath.dir_prefix, PyPath.ends_with_slash.
  destruct (rev (PyStr.chars d)) as [| c l] eqn:Hrev.
  - exists (PyStr.chars d). by rewrite chars_app.
  - destruct (Ascii.eqb_spec c "/") as [-> | _].
    + exists (rev l). by rewrite <- (rev_involutive (PyStr.chars d)), Hrev.
    + exists (PyStr.chars d). by rewrite chars_app.
Qed.

(** The name of a path made of a directory and a plain file name is that
    file name. *)
Lemma name_in_dir d f :
  forallb (fun c => negb (Ascii.eqb c "/")) (PyStr.chars f) = true ->
  PyPath.is_part (PyStr.chars f) = true ->
  PyPath.name (PyPath.dir_prefix d +:+ f) = f.
Proof.
  intros Hplain Hpart. destruct (dir_prefix_slash d) as [r Hr].
  unfold PyPath.name, PyPath.parts.
  rewrite chars_app, Hr, <- app_assoc. cbn [app].
  rewrite split_slash_app, (split_slash_plain (PyStr.chars f)) by done.
  cbn [rev app]. rewrite filter_app, filter_cons_True, filter_nil by done.
  rewrite last_last. apply string_of_list_ascii_of_string.
Qed.

Lemma suffix_in_dir d f :
  forallb (fun c => negb (Ascii.eqb c "/")) (PyStr.chars f) = true ->
  PyPath.is_part (PyStr.chars f) = true ->
  PyPath.suffix (PyPath.dir_prefix d +:+ f) = PyPath.suffix f.
Proof.
  intros Hplain Hpart. unfold PyPath.suffix. rewrite name_in_dir by done.
  assert (Hname : PyPath.name f = f); [| by rewrite Hname].
  unfold PyPath.name, PyPath.parts.
  rewrite (split_slash_plain (PyStr.chars f)) by done.
  cbn [rev app]. rewrite filter_cons_True, filter_nil by done.
  apply string_of_list_ascii_of_string.
Qed.

End FileNames.

Section Shuffle.

Import Wallpaper.
Variable E : environ.

Lemma run_random_choice images w :
  images <> [] ->
  run (random_choice images) w
  = (inl (nth (rand w (draws w) mod length images) images ""), set_draws (S (draws w)) w).
Proof. by destruct images. Qed.

Lemma nth_elem_of (l : list string) i : l <> [] -> nth (i mod length l) l "" ∈ l.
Proof.
  intros Hl. apply list_elem_of_In, nth_In, Nat.mod_upper_bound.
  by destruct l.
Qed.

Lemma only_element (l : list string) a :
  NoDup l -> (forall f, f ∈ l <-> f = a) -> l = [a].
Proof.
  intros Hnd Hl. destruct l as [| x l].
  - exfalso. by apply (not_elem_of_nil a), Hl.
  - assert (x = a) as -> by (apply Hl; by left).
    destruct l as [| y l]; [done |].
    assert (y = a) as -> by (apply Hl; right; by left).
    apply NoDup_cons in Hnd as [Hnotin _]. exfalso. apply Hnotin. by left.
Qed.

(** In a directory that holds nothing but [a.png] and [b.txt], the first is
    the only eligible file. *)
Lemma eligible_only_png root w content :
  fs w !! (root </> "a.png") = Some (File content) ->
  (forall f, PyPath.below root f = true -> is_Some (fs w !! f) ->
             f = root </> "a.png" \/ f = root </> "b.txt") ->
  forall f, eligible w root f <-> f = root </> "a.png".
Proof.
  intros Ha Honly f. unfold eligible. split.
  - intros (Hb & [c Hc] & Hsuf).
    destruct (Honly f Hb) as [-> | ->]; [by eexists | done |].
    exfalso. rewrite join_relative, suffix_in_dir in Hsuf by done.
    apply (bool_decide_eq_true_2 _) in Hsuf. by vm_compute in Hsuf.
  - intros ->. split; [by apply below_join |]. split; [by eexists |].
    rewrite join_relative, suffix_in_dir by done.
    apply (bool_decide_eq_true_1 _). by vm_compute.
Qed.

(** C9.  Run on an existing root directory, [shuffle_wallpaper] collects a
    duplicate-free list of images that holds exactly the regular files lying
    below the root, at any depth, whose extension, letter case apart, is one
    of [.jpg], [.jpeg], [.png].  When the list is empty it returns [False];
    otherwise it draws one of its elements (the one at the index the random
    source yields, so every image can be drawn) and goes on to
    [set_wallpaper] with it.  Up to that point it starts no task, changes no
    file and runs no program.  In a directory that holds nothing but [a.png]
    and [b.txt] the image passed on is [a.png], whatever the random source. *)
Theorem shuffle_selects_images category w :
  let root := target_dir E category in
  fs w !! root = Some Dir ->
  exists images n,
    let m := run_schedule (repeat O n) (start (shuffle_wallpaper E category) w) in
    NoDup images
    /\ (forall f, f ∈ images <-> eligible w root f)
    /\ mthreads m = [] /\ fs (mworld m) = fs w /\ trace (mworld m) = trace w
    /\ (images = [] -> mmain m = Ret false)
    /\ (images <> [] ->
        nth (rand w (draws w) mod length images) images "" ∈ images
        /\ mmain m
           = set_wallpaper E (nth (rand w (draws w) mod length images) images ""))
    /\ (forall content,
          fs w !! (root </> "a.png") = Some (File content) ->
          (forall f, PyPath.below root f = true -> is_Some (fs w !! f) ->
                     f = root </> "a.png" \/ f = root </> "b.txt") ->
          mmain m = set_wallpaper E (root </> "a.png")).
Proof.
  cbv zeta. intros Hdir.
  destruct (images_spec (target_dir E category) w Hdir) as [Hnd Hin].
  set (images := filter _ _) in Hnd, Hin.
  assert (Hsteps : exists n, run_schedule (repeat O n) (start (shuffle_wallpaper E category) w)
    = match images with
      | [] => Machine (print_line true
                (error_line E ("No images found in " +:+ Fmt.PROP +:+ target_dir E category
                               +:+ Fmt.RESET))
                (print_line false
                   (info_line E
                      match category with
                      | None => "Picking a " +:+ rainbow_random +:+ " wallpaper..."
                      | Some c => "Picking " +:+ rainbow_random +:+ " wallpaper from "
                                  +:+ Fmt.PROP +:+ c +:+ Fmt.RESET +:+ "..."
                      end) w))
              (Ret false) []
      | _ => Machine (set_draws (S (draws w))
                (print_line false
                   (info_line E
                      match category with
                      | None => "Picking a " +:+ rainbow_random +:+ " wallpaper..."
                      | Some c => "Picking " +:+ rainbow_random +:+ " wallpaper from "
                                  +:+ Fmt.PROP +:+ c +:+ Fmt.RESET +:+ "..."
                      end) w))
              (set_wallpaper E (nth (rand w (draws w) mod length images) images "")) []
      end).
  { unfold start, shuffle_wallpaper. fold (target_dir E category).
    eapply lift_steps_then.
    { rewrite run_perform. cbn [exec fst snd]. by rewrite Hdir. }
    cbn [negb is_Some_dec bool_decide].
    set (msg := match category return string with None => _ | Some c => _ end).
    eapply (lift_steps_then _ _ _ _ tt (print_line false (info_line E msg) w)).
    { subst msg. destruct category; apply run_log_info. }
    eapply lift_steps_then.
    { rewrite run_perform. cbn [exec fst snd]. reflexivity. }
    eapply lift_steps_then.
    { rewrite run_image_files. reflexivity. }
    change (exec_rglob (target_dir E category) (print_line false (info_line E msg) w))
      with (exec_rglob (target_dir E category) w).
    change (fs (print_line false (info_line E msg) w)) with (fs w).
    fold images.
    destruct images as [| f0 rest] eqn:Himg.
    - eapply lift_steps_then; [apply run_log_error |]. by exists O.
    - eapply lift_steps_then; [by apply run_random_choice |].
      exists O. destruct category; reflexivity. }
  destruct Hsteps as [n Hn]. exists images, n. rewrite Hn.
  split; [done |]. split; [done |].
  split; [by destruct images |]. split; [by destruct images |]. split; [by destruct images |].
  split; [by intros -> |]. split.
  - intros Hne. split; [by apply nth_elem_of |]. by destruct images.
  - intros content Ha Honly.
    assert (Himg : images = [target_dir E category </> "a.png"]).
    { apply only_element; [done |]. intros f. rewrite Hin.
      by eapply eligible_only_png. }
    by rewrite Himg.
Qed.

End Shuffle.

Lemma shuffle_selects_images_witness :
  let root := target_dir Sample.E0 (Some "space") in
  let w := Sample.fresh in
  fs w !! root = Some Dir
  /\ exists images n,
      let m := run_schedule (repeat O n)
                 (start (Wallpaper.shuffle_wallpaper Sample.E0 (Some "space")) w) in
      NoDup images
      /\ (forall f, f ∈ images <-> eligible w root f)
      /\ mthreads m = [] /\ fs (mworld m) = fs w /\ trace (mworld m) = trace w
      /\ (images = [] -> mmain m = Ret false)
      /\ (images <> [] ->
          nth (rand w (draws w) mod length images) images "" ∈ images
          /\ mmain m
             = Wallpaper.set_wallpaper Sample.E0
                 (nth (rand w (draws w) mod length images) images ""))
      /\ (forall content,
            fs w !! (root </> "a.png") = Some (File content) ->
            (forall f, PyPath.below root f = true -> is_Some (fs w !! f) ->
                       f = root </> "a.png" \/ f = root </> "b.txt") ->
            mmain m = Wallpaper.set_wallpaper Sample.E0 (root </> "a.png")).
Proof.
  split; [reflexivity |].
  apply (shuffle_selects_images Sample.E0 (Some "space") Sample.fresh).
  reflexivity.
Defined.

(** ** The automation loop *)

Section Lockstep.

Context {A B : Type}.
Variable k : A -> prog B.

(** Until the first program returns, the machine that goes on with [k]
    moves as the machine of the first program does. *)
Lemma step_mbind who (m : machine A) :
  outcome (mmain m) = None -> step who (mbind m k) = mbind (step who m) k.
Proof.
  intros Hout. destruct m as [w p ths]. destruct who as [| i].
  - destruct p as [a | e | C [o | o] kk]; try done; cbn.
    + by destruct (exec o w).
    + destruct o; cbn; [done |].
      destruct (ths !! t) as [c |]; [destruct (finished c) |]; done.
  - unfold step, step_thread, mbind. cbn.
    destruct (ths !! i) as [[| | C o kk] |]; try done. by destruct (exec o w).
Qed.

Lemma outcome_none_before sched who (m : machine A) :
  outcome (mmain (run_schedule (sched ++ [who]) m)) = None ->
  outcome (mmain (run_schedule sched m)) = None.
Proof.
  intros Hnone. destruct (outcome (mmain (run_schedule sched m))) as [r |] eqn:Hout; [| done].
  rewrite run_schedule_app, (finished_main_stays [who] _ r Hout) in Hnone. congruence.
Qed.

Lemma run_mbind sched (m : machine A) :
  outcome (mmain (run_schedule sched m)) = None ->
  run_schedule sched (mbind m k) = mbind (run_schedule sched m) k.
Proof.
  induction sched as [| who sched IH] using rev_ind; intros Hnone; [done |].
  pose proof (outcome_none_before _ _ _ Hnone) as Hbefore.
  rewrite !run_schedule_app, IH by done. cbn [run_schedule fold_left].
  by apply step_mbind.
Qed.

(** At the step at which the first program returns [a], the other machine
    is in the same world, with the same threads, about to run [k a]. *)
Lemma run_mbind_return sched (m : machine A) a :
  outcome (mmain (run_schedule sched m)) = None ->
  mmain (run_schedule (sched ++ [O]) m) = Ret a ->
  run_schedule (sched ++ [O]) (mbind m k)
  = Machine (mworld (run_schedule (sched ++ [O]) m)) (k a)
            (mthreads (run_schedule (sched ++ [O]) m)).
Proof.
  intros Hnone Hret. rewrite run_schedule_app in Hret.
  rewrite !run_schedule_app, run_mbind by done. cbn [run_schedule fold_left] in *.
  rewrite step_mbind by done. unfold mbind. by rewrite Hret.
Qed.

(** At the step at which the first program raises [e], the other machine
    has raised it too, in the same world and with the same threads. *)
Lemma run_mbind_throw sched (m : machine A) e :
  outcome (mmain (run_schedule sched m)) = None ->
  mmain (run_schedule (sched ++ [O]) m) = Throw e ->
  run_schedule (sched ++ [O]) (mbind m k)
  = Machine (mworld (run_schedule (sched ++ [O]) m)) (Throw e)
            (mthreads (run_schedule (sched ++ [O]) m)).
Proof.
  intros Hnone Hret. rewrite run_schedule_app in Hret.
  rewrite !run_schedule_app, run_mbind by done. cbn [run_schedule fold_left] in *.
  rewrite step_mbind by done. unfold mbind. by rewrite Hret.
Qed.

End Lockstep.

Section RecordKept.

Import Wallpaper.
Variable E : environ.
Variable rec : option node.
Variable T : gset string.

Local Abbreviation G := (worker_step E).
Local Abbreviation I := (record_is E rec T).

Lemma record_is_stable w w' : I w -> G w w' -> I w'.
Proof.
  intros [Hrec Htools] Hg. split.
  - by rewrite (worker_step_pid _ _ _ Hg).
  - by rewrite (worker_step_tools _ _ _ Hg).
Qed.

Lemma current_ne_pid : CURRENT_FILE E <> PID_FILE E.
Proof.
  rewrite current_file_eq, pid_file_eq. intros Heq.
  apply String.app_inj in Heq. discriminate.
Qed.

Lemma log_info_keeps msg : io_keeps I (log_info E msg).
Proof. by apply io_keeps_perform. Qed.

Lemma log_error_keeps msg : io_keeps I (log_error E msg).
Proof. by apply io_keeps_perform. Qed.

Lemma launch_swaybg_keeps p : io_keeps I (launch_swaybg E p).
Proof.
  unfold launch_swaybg.
  apply io_keeps_bind; [by apply io_keeps_perform |]. intros found.
  destruct (negb found).
  { apply io_keeps_bind; [apply log_error_keeps | done]. }
  apply io_keeps_bind; [apply log_info_keeps |]. intros _.
  apply io_keeps_bind.
  { unfold subprocess_run. apply io_keeps_bind.
    - apply io_keeps_perform. intros w Hw. cbn [exec]. unfold exec_run.
      by destruct (bool_decide ("pkill" ∈ tools w)).
    - intros [ok |]; [by destruct (false && negb ok)%bool | done]. }
  intros _. apply io_keeps_bind; [apply log_info_keeps |]. intros _.
  apply io_keeps_bind.
  { apply io_keeps_attempt. intros w Hw. cbn [exec]. unfold exec_popen.
    destruct (bool_decide ("swaybg" ∈ tools w)); [| done].
    by destruct (bool_decide (can_fork w)). }
  intros _. apply io_keeps_bind; [apply log_info_keeps | done].
Qed.

Lemma image_files_keeps entries : io_keeps I (image_files entries).
Proof.
  induction entries as [| f rest IH]; [done |]. cbn [image_files].
  apply io_keeps_bind; [by apply io_keeps_perform |]. intros isf.
  by apply io_keeps_bind.
Qed.

Lemma random_choice_keeps images : io_keeps I (random_choice images).
Proof.
  destruct images as [| f rest]; [done |]. unfold random_choice.
  apply io_keeps_bind; [by apply io_keeps_perform | done].
Qed.

(** [set_wallpaper] and the tasks it starts leave the automation record
    and the installed tools as they are. *)
Lemma set_wallpaper_keeps p : prog_keeps G I (set_wallpaper E p).
Proof.
  destruct (set_wallpaper_workers E p) as (Hthemes & Hsquare & Hblur).
  unfold set_wallpaper.
  apply prog_keeps_bind; [by apply prog_keeps_lift, io_keeps_perform |]. intros found.
  destruct (negb found).
  { apply prog_keeps_bind; [apply prog_keeps_lift, log_error_keeps | done]. }
  apply prog_keeps_bind; [apply prog_keeps_lift, log_info_keeps |]. intros _.
  apply prog_keeps_bind; [by apply prog_keeps_start |]. intros t1.
  apply prog_keeps_bind; [by apply prog_keeps_start |]. intros t2.
  apply prog_keeps_bind; [by apply prog_keeps_start |]. intros t3.
  apply prog_keeps_bind; [apply prog_keeps_lift, launch_swaybg_keeps |]. intros shown.
  destruct (negb shown); [done |].
  apply prog_keeps_bind; [apply prog_keeps_lift, log_info_keeps |]. intros _.
  apply prog_keeps_bind.
  { apply prog_keeps_lift, io_keeps_attempt. intros w [Hrec Htools]. cbn [exec].
    unfold exec_write. fold (CURRENT_FILE E).
    destruct (fs w !! CURRENT_FILE E) as [[c |] |]; try done;
      (split; [| done]); wsimpl; by rewrite lookup_insert_ne by apply current_ne_pid. }
  intros _. apply prog_keeps_bind; [apply prog_keeps_join_all | done].
Qed.

Lemma shuffle_wallpaper_keeps category : prog_keeps G I (shuffle_wallpaper E category).
Proof.
  unfold shuffle_wallpaper.
  apply prog_keeps_bind; [by apply prog_keeps_lift, io_keeps_perform |]. intros found.
  destruct (negb found).
  { apply prog_keeps_bind; [apply prog_keeps_lift, log_error_keeps | done]. }
  apply prog_keeps_bind.
  { apply prog_keeps_lift. destruct category; apply log_info_keeps. }
  intros _.
  apply prog_keeps_bind; [by apply prog_keeps_lift, io_keeps_perform |]. intros entries.
  apply prog_keeps_bind; [apply prog_keeps_lift, image_files_keeps |]. intros images.
  destruct images as [| f rest].
  { apply prog_keeps_bind; [apply prog_keeps_lift, log_error_keeps | done]. }
  apply prog_keeps_bind; [apply prog_keeps_lift, random_choice_keeps |]. intros chosen.
  apply set_wallpaper_keeps.
Qed.

End RecordKept.

Section LoopExit.

Import Wallpaper.
Variable E : environ.
Variable T : gset string.
Variable tr : list event.

Local Abbreviation G := (worker_step E).
Local Abbreviation J := (fun w' => exists rec', exiting E rec' T tr False w').

Lemma exiting_stable rec sent w w' : exiting E rec T tr sent w -> G w w' -> exiting E rec T tr sent w'.
Proof.
  intros [Hrec (l & Hl & Hev & Hsent)] Hg. split; [by eapply record_is_stable |].
  destruct Hg as (_ & _ & _ & _ & _ & _ & _ & l' & Hl' & Hev').
  exists (l ++ l'). split; [by rewrite Hl', Hl, app_assoc |]. split.
  - apply Forall_app. split; [done |].
    eapply Forall_impl; [exact Hev' |]. intros e He. by left.
  - intros Hs. destruct (Hsent Hs) as [ok Hin]. exists ok. apply elem_of_app. by left.
Qed.

Lemma exiting_weaken rec sent w : exiting E rec T tr sent w -> J w.
Proof.
  intros [Hrec (l & Hl & Hev & _)]. exists rec. split; [done |]. by exists l.
Qed.

(** The end of the exit path: the record is removed, then the process
    exits with status 1. *)
Lemma unlink_exit_wp rec sent n w :
  rec <> Some Dir -> exiting E rec T tr sent w ->
  prog_wp G J (S n)
    (lift (attempt (Unlink (PID_FILE E) true));; (Throw (SystemExit 1) : prog unit))%py
    (fun r w' => r = inr (SystemExit 1) /\ exiting E None T tr sent w') w.
Proof.
  intros Hrec Hex. msimpl. apply wp_seq. intros w1 Hg1.
  pose proof (exiting_stable _ _ _ _ Hex Hg1) as Hex1.
  split; [by eapply exiting_weaken |]. msimpl. unfold exec_unlink.
  destruct Hex1 as [[Hr1 Ht1] (l & Hl & Hev & Hsent)]. rewrite Hr1.
  assert (Hgone : exiting E None T tr sent
                    (emit (EvUnlink (PID_FILE E)) (set_fs (delete (PID_FILE E) (fs w1)) w1))).
  { split; [split; [apply lookup_delete_eq | done] |].
    exists (l ++ [EvUnlink (PID_FILE E)]). wsimpl. split; [by rewrite Hl, app_assoc |]. split.
    - apply Forall_app. split; [done |]. constructor; [| done]. right. by right.
    - intros Hs. destruct (Hsent Hs) as [ok Hin]. exists ok. apply elem_of_app. by left. }
  destruct rec as [[content |] |]; [| done |]; msimpl; apply wp_throw; intros w2 Hg2.
  - pose proof (exiting_stable _ _ _ _ Hgone Hg2) as Hex2.
    split; [by eapply exiting_weaken | done].
  - assert (Hex1 : exiting E None T tr sent w1) by (split; [done | by exists l]).
    pose proof (exiting_stable _ _ _ _ Hex1 Hg2) as Hex2.
    split; [by eapply exiting_weaken | done].
Qed.

(** The exit path of the loop: within three steps the notification is sent
    if notify-send is installed, the record is removed and the process
    exits with status 1. *)
Lemma exit_path_wp rec w :
  rec <> Some Dir -> exiting E rec T tr False w ->
  prog_wp G J 3
    (lift (notify "Automation stopped." "Error setting wallpaper");;
     lift (attempt (Unlink (PID_FILE E) true));;
     (Throw (SystemExit 1) : prog unit))%py
    (fun r w' => r = inr (SystemExit 1) /\ exiting E None T tr ("notify-send" ∈ T) w') w.
Proof.
  intros Hrec Hex. unfold notify. msimpl. apply wp_seq. intros w1 Hg1.
  pose proof (exiting_stable _ _ _ _ Hex Hg1) as Hex1.
  split; [by eapply exiting_weaken |]. msimpl.
  destruct Hex1 as [[Hr1 Ht1] (l & Hl & Hev & _)]. rewrite Ht1.
  case_bool_decide as Hnf; msimpl.
  - unfold subprocess_run. msimpl. apply wp_seq. intros w2 Hg2.
    assert (Hex1 : exiting E rec T tr False w1) by (split; [done | by exists l]).
    pose proof (exiting_stable _ _ _ _ Hex1 Hg2) as Hex2.
    split; [by eapply exiting_weaken |].
    destruct Hex2 as [[Hr2 Ht2] (l2 & Hl2 & Hev2 & _)].
    msimpl. unfold exec_run. rewrite Ht2, bool_decide_eq_true_2 by done.
    cbn [fst snd tool_effect andb]. msimpl.
    apply (unlink_exit_wp rec); [done |]. split; [done |].
    exists (l2 ++ [stop_notice (exit_ok w2 (length (trace w2))
                     ["notify-send"; "Automation stopped."; "Error setting wallpaper"])]).
    wsimpl. split; [by rewrite Hl2, app_assoc |]. split.
    + apply Forall_app. split; [done |]. constructor; [| done]. right. left. by eexists.
    + intros _. eexists. apply elem_of_app. right. by left.
  - apply (unlink_exit_wp rec); [done |]. split; [done |]. by exists l.
Qed.

End LoopExit.

Section LoopFailure.

Import Wallpaper.
Variable E : environ.

Local Abbreviation G := (worker_step E).

(** What [automation_loop] does with the result of one iteration. *)
Lemma automation_loop_unfold rounds interval category :
  automation_loop E (S rounds) interval category
  = bind (shuffle_wallpaper E category)
      (fun ok : bool =>
         if negb ok then
           (lift (notify "Automation stopped." "Error setting wallpaper");;
            lift (attempt (Unlink (PID_FILE E) true));;
            Throw (SystemExit 1))%py
         else
           (lift (py_sleep interval);; automation_loop E rounds interval category)%py).
Proof. reflexivity. Qed.

(** Once the main program has raised, the world changes by the steps of
    the threads only. *)
Lemma raised_main_guar {A} e w ths sched :
  Forall (io_guar G) ths ->
  let m := run_schedule sched (Machine w (Throw e : prog A) ths) in
  mmain m = Throw e /\ G w (mworld m).
Proof.
  intros Hths. cbv zeta. split.
  - by rewrite (finished_main_stays sched (Machine w (Throw e : prog A) ths) (inr e)).
  - assert (Hwp : wp_inv G (fun w' => G w w') (fun (_ : A + exn) _ => True) 0
                    (Machine w (Throw e : prog A) ths)).
    { exists w. split; [apply worker_step_refl |]. split; [| done].
      apply wp_throw. by intros w' Hg. }
    by destruct (wp_sound _ (worker_step_refl E) (worker_step_trans E) _ _ sched _ _ Hwp).
Qed.

(** C7, as the code has it: take the loop at the start of an iteration, in
    any world in which the automation record is not a directory, with any
    worker threads still running, and let [shuffle_wallpaper], run from
    there under the schedule [s0 ++ [0]], end at its last step.  The loop,
    run under the same schedule, is at that step in the same world, and
    under every continuation [s2] of the schedule:
    - if [shuffle_wallpaper] returned [False], the events added to the
      trace are only those of the workers, the notification and the removal
      of the record (nothing is slept, written or started, no further
      iteration takes place); the loop never ends otherwise than by
      [SystemExit 1]; and once the main program has taken three more steps,
      it has raised [SystemExit 1], the record is gone, and the notification
      has been sent if notify-send is installed;
    - if [shuffle_wallpaper] raised an exception, the loop has raised the
      same exception: the record stays as it was, and the events added to
      the trace are only those of the workers, so no notification is sent
      and the record is not removed. *)
Theorem automation_loop_stops_on_failure rounds interval category w ths s0 s2 :
  Forall (io_guar (worker_step E)) ths ->
  fs w !! PID_FILE E <> Some Dir ->
  outcome (mmain (run_schedule s0 (Machine w (shuffle_wallpaper E category) ths))) = None ->
  let shuffled := run_schedule (s0 ++ [O]) (Machine w (shuffle_wallpaper E category) ths) in
  let failed :=
    run_schedule (s0 ++ [O])
      (Machine w (automation_loop E (S rounds) interval category) ths) in
  let m := run_schedule s2 failed in
  (mmain shuffled = Ret false ->
   mworld failed = mworld shuffled
   /\ (exists l,
          trace (mworld m) = trace (mworld failed) ++ l
          /\ Forall (exit_event E) l
          /\ ((3 <= main_steps s2)%nat -> "notify-send" ∈ tools w ->
              exists ok, stop_notice ok ∈ l))
   /\ (forall r, outcome (mmain m) = Some r -> r = inr (SystemExit 1))
   /\ ((3 <= main_steps s2)%nat ->
       mmain m = Throw (SystemExit 1) /\ fs (mworld m) !! PID_FILE E = None))
  /\ (forall e, mmain shuffled = Throw e ->
      mworld failed = mworld shuffled
      /\ mmain m = Throw e
      /\ fs (mworld m) !! PID_FILE E = fs w !! PID_FILE E
      /\ exists l, trace (mworld m) = trace (mworld failed) ++ l /\ Forall worker_event l).
Proof.
  intros Hths Hrec Hnone. cbv zeta.
  set (m0 := Machine w (shuffle_wallpaper E category) ths) in *.
  rewrite automation_loop_unfold.
  match goal with |- context [bind _ ?k] => set (k0 := k) end.
  change (Machine w (bind (shuffle_wallpaper E category) k0) ths) with (mbind m0 k0).
  set (m1 := run_schedule (s0 ++ [O]) m0) in *.
  assert (Hkeeps : keeps_inv G (record_is E (fs w !! PID_FILE E) (tools w)) m1).
  { apply keeps_inv_run; [apply worker_step_refl | apply record_is_stable |].
    split; [done |]. split; [apply shuffle_wallpaper_keeps | done]. }
  destruct Hkeeps as (Hw1 & _ & Hths1).
  split.
  - (* False was returned *)
    intros Hret. rewrite (run_mbind_return k0 s0 m0 false Hnone Hret). fold m1.
    assert (Hwp : wp_inv G
              (fun w' => exists rec', exiting E rec' (tools w) (trace (mworld m1)) False w')
              (fun r w' => r = inr (SystemExit 1)
                           /\ exiting E None (tools w) (trace (mworld m1))
                                ("notify-send" ∈ tools w) w')
              3 (Machine (mworld m1) (k0 false) (mthreads m1))).
    { exists (mworld m1). split; [apply worker_step_refl |]. split; [| done].
      apply (exit_path_wp E (tools w) (trace (mworld m1)) (fs w !! PID_FILE E)); [done |].
      split; [done |]. exists []. by rewrite app_nil_r. }
    cbn [mworld].
    assert (Hlate : forall sched,
              (3 <= main_steps sched)%nat ->
              let m := run_schedule sched (Machine (mworld m1) (k0 false) (mthreads m1)) in
              mmain m = Throw (SystemExit 1)
              /\ exiting E None (tools w) (trace (mworld m1)) ("notify-send" ∈ tools w)
                   (mworld m)).
    { intros sched Hn. cbv zeta.
      destruct (wp_sound _ (worker_step_refl E) (worker_step_trans E) _ _ sched _ _ Hwp)
        as [_ Hfin].
      destruct (Hfin Hn) as (r & Hout & -> & Hex). split; [| done].
      by destruct (mmain (run_schedule sched _)); inversion Hout. }
    split; [done |]. split; [| split].
    + destruct (decide (3 <= main_steps s2)%nat) as [Hn | Hn].
      * destruct (Hlate s2 Hn) as [_ [_ (l & Hl & Hev & Hsent)]].
        exists l. by repeat split.
      * destruct (wp_sound _ (worker_step_refl E) (worker_step_trans E) _ _ s2 _ _ Hwp)
          as [(rec' & _ & l & Hl & Hev & _) _].
        exists l. by repeat split.
    + intros r Hout.
      destruct (Hlate (s2 ++ repeat O 3)) as [Hmain _].
      { rewrite main_steps_app, main_steps_repeat. lia. }
      rewrite run_schedule_app, (finished_main_stays (repeat O 3) _ r Hout) in Hmain.
      rewrite Hmain in Hout. cbn in Hout. congruence.
    + intros Hn. destruct (Hlate s2 Hn) as [Hmain [[Hgone _] _]]. by split.
  - (* an exception was raised *)
    intros e Hthrow. rewrite (run_mbind_throw k0 s0 m0 e Hnone Hthrow). fold m1.
    cbn [mworld].
    destruct (raised_main_guar (A := unit) e (mworld m1) (mthreads m1) s2 Hths1)
      as [Hmain Hg].
    split; [done |]. split; [exact Hmain |]. split.
    + rewrite (worker_step_pid _ _ _ Hg). by destruct Hw1.
    + by destruct Hg as (_ & _ & _ & _ & _ & _ & _ & Hl).
Qed.

End LoopFailure.

Lemma automation_loop_stops_on_failure_witness :
  let E := Sample.E0 in
  let w := SampleRuns.stuck_loop in
  let s0 := SampleRuns.failing_round in
  let s2 := SampleRuns.after_failure in
  let shuffle := Machine w (Wallpaper.shuffle_wallpaper E (Some "space")) [] in
  let failed :=
    run_schedule (s0 ++ [O])
      (Machine w (Wallpaper.automation_loop E 3 300 (Some "space")) []) in
  let m := run_schedule s2 failed in
  (Forall (io_guar (worker_step E)) (mthreads shuffle)
   /\ fs w !! Wallpaper.PID_FILE E <> Some Dir
   /\ outcome (mmain (run_schedule s0 shuffle)) = None
   /\ mmain (run_schedule (s0 ++ [O]) shuffle) = Ret false)
  /\ mworld failed = mworld (run_schedule (s0 ++ [O]) shuffle)
  /\ (exists l,
         trace (mworld m) = trace (mworld failed) ++ l
         /\ Forall (exit_event E) l
         /\ ((3 <= main_steps s2)%nat -> "notify-send" ∈ tools w ->
             exists ok, stop_notice ok ∈ l))
  /\ (forall r, outcome (mmain m) = Some r -> r = inr (SystemExit 1))
  /\ ((3 <= main_steps s2)%nat ->
      mmain m = Throw (SystemExit 1) /\ fs (mworld m) !! Wallpaper.PID_FILE E = None).
Proof.
  cbv zeta.
  assert (Hrec : fs SampleRuns.stuck_loop !! Wallpaper.PID_FILE Sample.E0 <> Some Dir)
    by (by vm_compute).
  assert (Hnone : outcome (mmain (run_schedule SampleRuns.failing_round
                    (Machine SampleRuns.stuck_loop
                       (Wallpaper.shuffle_wallpaper Sample.E0 (Some "space")) []))) = None)
    by (by vm_compute).
  assert (Hret : mmain (run_schedule (SampleRuns.failing_round ++ [O])
                   (Machine SampleRuns.stuck_loop
                      (Wallpaper.shuffle_wallpaper Sample.E0 (Some "space")) [])) = Ret false)
    by (by vm_compute).
  split; [split; [exact (List.Forall_nil _) | split; [exact Hrec | split; [exact Hnone | exact Hret]]] |].
  exact (proj1 (automation_loop_stops_on_failure Sample.E0 2 300 (Some "space")
                  SampleRuns.stuck_loop [] SampleRuns.failing_round SampleRuns.after_failure
                  (List.Forall_nil _) Hrec Hnone) Hret).
Defined.

(** C7 as stated fails when the iteration fails by raising.  With swaybg
    installed and pkill missing, [launch_swaybg] raises [FileNotFoundError]
    out of [shuffle_wallpaper]; it ends the loop at once: the record is
    left in place, and although notify-send is installed the trace holds
    the events of the workers only, no notification. *)
Lemma automation_loop_dies_on_exception :
  let m := run_schedule SampleRuns.workers_then_main
             (start (Wallpaper.automation_loop Sample.E0 3 60 (Some "space"))
                Scenes.loop_no_pkill) in
  ("notify-send" ∈ tools Scenes.loop_no_pkill)
  /\ fs Scenes.loop_no_pkill !! Wallpaper.PID_FILE Sample.E0 = Some (File "4242")
  /\ mmain m = Throw FileNotFoundError
  /\ fs (mworld m) !! Wallpaper.PID_FILE Sample.E0 = Some (File "4242")
  /\ trace (mworld m)
     = [EvRun ["wallust"; "run"; SampleRuns.picture] true;
        EvRun (transform_cmd Sample.E0 SampleRuns.picture "square" SampleRuns.square_args)
          true;
        EvRun (transform_cmd Sample.E0 SampleRuns.picture "blurred"
                 ["-blur"; "50x30"; "-resize"; "75%"]) true].
Proof. cbv zeta. repeat split; by vm_compute. Qed.

(** * Further properties of the script *)

(** ** Running commands *)

Section RunCmd.

Import Wallpaper.
Variable E : environ.

Lemma tool_effect_console cmd ok w : console (tool_effect cmd ok w) = console w.
Proof. unfold tool_effect. repeat case_match; done. Qed.

Lemma announced_frame cmd quiet w :
  trace (announced E cmd quiet w) = trace w
  /\ tools (announced E cmd quiet w) = tools w
  /\ exit_ok (announced E cmd quiet w) = exit_ok w
  /\ fs (announced E cmd quiet w) = fs w
  /\ procs (announced E cmd quiet w) = procs w
  /\ pid_alloc (announced E cmd quiet w) = pid_alloc w.
Proof. by destruct quiet. Qed.

(** Whenever a foreground [run_cmd] returns, it returns a boolean, [True]
    exactly when the program is installed and exits with status 0.  The
    program has been run at most once.  The two failures [run_cmd] catches
    are each reported on stderr: a program that is not found
    ([FileNotFoundError]) as not found, a non-zero exit status
    ([CalledProcessError]) as a failed command.  A quiet successful run
    prints nothing. *)
Theorem run_cmd_foreground exe args quiet w r w' :
  run (run_cmd E (exe :: args) false quiet) w = (inl r, w') ->
  let cmd := exe :: args in
  let ok := exit_ok w (length (trace w)) cmd in
  let b := (bool_decide (exe ∈ tools w) && ok)%bool in
  r = Finished b
  /\ tools w' = tools w
  /\ trace w' = trace w ++ (if bool_decide (exe ∈ tools w) then [EvRun cmd ok] else [])
  /\ (exe ∉ tools w ->
      last (console w') = Some (true, error_line E ("Application not found: " +:+ exe)))
  /\ (exe ∈ tools w -> ok = false ->
      last (console w')
      = Some (true, error_line E ("Command failed: " +:+ PyStr.join_space cmd)))
  /\ (quiet = true -> b = true -> console w' = console w).
Proof.
  cbv zeta. rewrite run_run_cmd.
  destruct (announced_frame (exe :: args) quiet w) as (Htr & Htl & Hex & _).
  unfold exec_run. rewrite Htl, Htr, Hex.
  case_bool_decide as Hexe; cbn [andb].
  - destruct (exit_ok w (length (trace w)) (exe :: args)) eqn:Hok;
      intros Hrun; pose proof (f_equal snd Hrun) as Hw; pose proof (f_equal fst Hrun) as Hr;
      cbn [fst snd] in Hw, Hr; subst w'; injection Hr as <-; clear Hrun.
    + rewrite tool_effect_tools, tool_effect_trace, tool_effect_console. wsimpl.
      rewrite Htl, Htr. repeat split; try done. by intros ->.
    + wsimpl. rewrite tool_effect_tools, tool_effect_trace. wsimpl.
      rewrite Htl, Htr. repeat split; try done.
      intros _ _. apply last_snoc.
  - intros Hrun. pose proof (f_equal snd Hrun) as Hw. pose proof (f_equal fst Hrun) as Hr.
    cbn [fst snd] in Hw, Hr. subst w'. injection Hr as <-. clear Hrun.
    wsimpl. rewrite Htl, Htr, app_nil_r.
    repeat split; try done. intros _. apply last_snoc.
Qed.

(** A background [run_cmd] does not catch what [Popen] raises: a program
    that is not installed gives [FileNotFoundError], and nothing is started. *)
Theorem run_cmd_background_missing exe args quiet w :
  exe ∉ tools w ->
  exists w',
    run (run_cmd E (exe :: args) true quiet) w = (inr FileNotFoundError, w')
    /\ fs w' = fs w /\ procs w' = procs w /\ trace w' = trace w.
Proof.
  intros Hno. unfold run_cmd. rewrite run_bind.
  assert (Hann : run (if quiet then Ret tt
                      else log_info E ("Running: " +:+ Fmt.PROP
                                       +:+ PyStr.join_space (exe :: args) +:+ Fmt.RESET)) w
                 = (inl tt, announced E (exe :: args) quiet w)) by (by destruct quiet).
  rewrite Hann. cbn [fst snd]. rewrite run_bind, run_attempt. cbn [exec]. unfold exec_popen.
  destruct (announced_frame (exe :: args) quiet w) as (Htr & Htl & _ & Hfs & Hpr & _).
  rewrite Htl, bool_decide_eq_false_2 by done. wsimpl. eexists. by split.
Qed.

End RunCmd.

Lemma run_cmd_foreground_witness :
  let r := run (Wallpaper.run_cmd Sample.E0 ["fastfetch"; "--logo-recache"] false false)
             Sample.fresh in
  r = (inl (Finished false), r.2)
  /\ tools r.2 = tools Sample.fresh
  /\ trace r.2 = trace Sample.fresh
  /\ last (console r.2)
     = Some (true, Wallpaper.error_line Sample.E0 "Application not found: fastfetch").
Proof.
  cbv zeta.
  assert (Hrun : run (Wallpaper.run_cmd Sample.E0 ["fastfetch"; "--logo-recache"] false false)
                   Sample.fresh
                 = (inl (Finished false),
                    (run (Wallpaper.run_cmd Sample.E0 ["fastfetch"; "--logo-recache"] false
                            false) Sample.fresh).2))
    by (by vm_compute).
  assert (Hno : "fastfetch" ∉ tools Sample.fresh) by (by vm_compute).
  destruct (run_cmd_foreground Sample.E0 "fastfetch" ["--logo-recache"] false Sample.fresh
              _ _ Hrun) as (_ & Htools & Htrace & Hmissing & _).
  split; [exact Hrun |]. split; [exact Htools |].
  split; [| exact (Hmissing Hno)].
  rewrite Htrace, bool_decide_eq_false_2 by exact Hno. apply app_nil_r.
Defined.

Lemma run_cmd_background_missing_witness :
  ("fastfetch" ∉ tools Sample.fresh)
  /\ exists w',
      run (Wallpaper.run_cmd Sample.E0 ["fastfetch"; "--logo-recache"] true false) Sample.fresh
      = (inr FileNotFoundError, w')
      /\ fs w' = fs Sample.fresh /\ procs w' = procs Sample.fresh
      /\ trace w' = trace Sample.fresh.
Proof.
  assert (Hno : "fastfetch" ∉ tools Sample.fresh) by (by vm_compute).
  split; [exact Hno |].
  apply (run_cmd_background_missing Sample.E0 "fastfetch" ["--logo-recache"] false Sample.fresh).
  exact Hno.
Defined.

(** ** The display *)

Section Display.

Import Wallpaper.
Variable E : environ.

Lemma exec_run_pkill w :
  "pkill" ∈ tools w ->
  exists ok,
    exec_run ["pkill"; "swaybg"] w
    = (Exited ok,
       set_procs (filter (fun kp => ¬ is_display kp.2) (procs w))
         (emit (EvRun ["pkill"; "swaybg"] ok) w)).
Proof.
  intros Hin. unfold exec_run. rewrite bool_decide_eq_true_2 by done.
  by eexists.
Qed.

(** With swaybg and pkill installed, and unless the fork fails,
    [launch_swaybg] returns [True] and leaves exactly one swaybg process of
    the user alive: the one it started on the given path.  The other
    processes and the files are as before. *)
Theorem launch_swaybg_replaces p w :
  "swaybg" ∈ tools w -> "pkill" ∈ tools w ->
  (run (launch_swaybg E p) w).1 <> inr OSError ->
  exists w',
    run (launch_swaybg E p) w = (inl true, w')
    /\ displays w' p
    /\ (forall q pr, procs w !! q = Some pr -> ~ is_display pr -> procs w' !! q = Some pr)
    /\ fs w' = fs w.
Proof.
  intros Hsway Hpkill. unfold launch_swaybg.
  rewrite run_bind, run_perform. cbn [exec fst snd].
  rewrite bool_decide_eq_true_2 by done. cbn [negb].
  rewrite run_bind, run_log_info. cbn [fst snd].
  rewrite run_bind, run_subprocess_run.
  destruct (exec_run_pkill (print_line false
              (info_line E ("Killing any running instances of " +:+ Fmt.PROP +:+ "swaybg"
                            +:+ Fmt.RESET)) w)) as [ok Hrun]; [done |].
  rewrite Hrun. cbn [andb fst snd]. clear Hrun.
  rewrite run_bind, run_log_info. cbn [fst snd].
  rewrite run_bind, run_attempt. cbn [exec]. unfold exec_popen. wsimpl.
  rewrite bool_decide_eq_true_2 by done.
  case_bool_decide as Hfork; wsimpl; [| by intros Hne].
  intros _. rewrite run_bind, run_log_info. cbn [fst snd run].
  eexists. split; [reflexivity |]. unfold displays. wsimpl.
  destruct Hfork as [_ Hfresh]. cbn [procs pid_alloc set_procs emit print_line] in Hfresh.
  set (kept := filter (fun kp : Z * process => ¬ is_display kp.2) (procs w)) in *.
  set (pid := pid_alloc w (dom kept)) in *.
  apply not_elem_of_dom in Hfresh.
  split; [| split; [| done]].
  - exists pid. split; [apply lookup_insert_eq |]. intros q pr Hq Hdisp.
    destruct (decide (q = pid)) as [| Hne]; [done |].
    rewrite lookup_insert_ne in Hq by done.
    apply map_lookup_filter_Some in Hq as [_ Hkeep]. by destruct Hkeep.
  - intros q pr Hq Hnd.
    assert (Hkept : kept !! q = Some pr) by (by apply map_lookup_filter_Some).
    rewrite lookup_insert_ne; [done |]. intros Heq. rewrite <- Heq in Hkept. congruence.
Qed.

(** With swaybg installed but pkill missing, [launch_swaybg] raises
    [FileNotFoundError] before it starts the display: no process is started
    or ended, no program is run. *)
Theorem launch_swaybg_without_pkill p w :
  "swaybg" ∈ tools w -> "pkill" ∉ tools w ->
  exists w',
    run (launch_swaybg E p) w = (inr FileNotFoundError, w')
    /\ procs w' = procs w /\ trace w' = trace w /\ fs w' = fs w.
Proof.
  intros Hsway Hpkill. unfold launch_swaybg.
  rewrite run_bind, run_perform. cbn [exec fst snd].
  rewrite bool_decide_eq_true_2 by done. cbn [negb].
  rewrite run_bind, run_log_info. cbn [fst snd].
  rewrite run_bind, run_subprocess_run. unfold exec_run. wsimpl.
  rewrite bool_decide_eq_false_2 by done. cbn [fst snd].
  eexists. by split.
Qed.

End Display.

Lemma launch_swaybg_replaces_witness :
  ("swaybg" ∈ tools Scenes.showing) /\ ("pkill" ∈ tools Scenes.showing)
  /\ (run (Wallpaper.launch_swaybg Sample.E0 SampleRuns.picture) Scenes.showing).1
     <> inr OSError
  /\ exists w',
      run (Wallpaper.launch_swaybg Sample.E0 SampleRuns.picture) Scenes.showing = (inl true, w')
      /\ displays w' SampleRuns.picture
      /\ (forall q pr, procs Scenes.showing !! q = Some pr -> ~ is_display pr ->
                       procs w' !! q = Some pr)
      /\ fs w' = fs Scenes.showing.
Proof.
  assert (Hs : "swaybg" ∈ tools Scenes.showing) by (by vm_compute).
  assert (Hp : "pkill" ∈ tools Scenes.showing) by (by vm_compute).
  assert (Hr : (run (Wallpaper.launch_swaybg Sample.E0 SampleRuns.picture) Scenes.showing).1
               <> inr OSError) by (by vm_compute).
  split; [exact Hs |]. split; [exact Hp |]. split; [exact Hr |].
  exact (launch_swaybg_replaces Sample.E0 SampleRuns.picture Scenes.showing Hs Hp Hr).
Defined.

Lemma launch_swaybg_without_pkill_witness :
  ("swaybg" ∈ tools Scenes.no_pkill) /\ ("pkill" ∉ tools Scenes.no_pkill)
  /\ exists w',
      run (Wallpaper.launch_swaybg Sample.E0 SampleRuns.picture) Scenes.no_pkill
      = (inr FileNotFoundError, w')
      /\ procs w' = procs Scenes.no_pkill /\ trace w' = trace Scenes.no_pkill
      /\ fs w' = fs Scenes.no_pkill.
Proof.
  assert (Hs : "swaybg" ∈ tools Scenes.no_pkill) by (by vm_compute).
  assert (Hp : "pkill" ∉ tools Scenes.no_pkill) by (by vm_compute).
  split; [exact Hs |]. split; [exact Hp |].
  exact (launch_swaybg_without_pkill Sample.E0 SampleRuns.picture Scenes.no_pkill Hs Hp).
Defined.

(** ** Theme propagation: the reloads *)

Section Reloads.

Import Wallpaper.
Variable E : environ.

(** A foreground [run_cmd] of a program that acts outside the modelled
    state. *)
Lemma run_cmd_plain exe args quiet w :
  (forall ok w0, tool_effect (exe :: args) ok w0 = w0) ->
  exists b w',
    run (run_cmd E (exe :: args) false quiet) w = (inl (Finished b), w')
    /\ b = (bool_decide (exe ∈ tools w) && exit_ok w (length (trace w)) (exe :: args))%bool
    /\ fs w' = fs w /\ procs w' = procs w /\ tools w' = tools w /\ exit_ok w' = exit_ok w
    /\ trace w' = trace w ++ (if bool_decide (exe ∈ tools w)
                              then [EvRun (exe :: args) (exit_ok w (length (trace w)) (exe :: args))]
                              else []).
Proof.
  intros Heff. rewrite run_run_cmd.
  destruct (announced_frame E (exe :: args) quiet w) as (Htr & Htl & Hex & Hfs & Hpr & _).
  unfold exec_run. rewrite Htl, Htr, Hex, Heff.
  destruct (bool_decide (exe ∈ tools w)); cbn [andb].
  - destruct (exit_ok w (length (trace w)) (exe :: args)) eqn:Hok;
      eexists _, _; (split; [reflexivity |]); wsimpl; by rewrite Htr.
  - eexists _, _. split; [reflexivity |]. wsimpl. by rewrite app_nil_r.
Qed.

(** When the palette is generated and [update_themes] returns, it has
    tried both reloads, waybar first and mako second, each run if its
    program is installed; the mako reload does not depend on what the waybar
    restart gave.  Nothing else has been run, and no file and no process
    has changed. *)
Theorem update_themes_reloads p w w' :
  palette_ok w p = true ->
  run (update_themes E p) w = (inl tt, w') ->
  exists st1 st2,
    trace w'
    = trace w ++ [EvRun ["wallust"; "run"; p] true]
      ++ (if bool_decide ("systemctl" ∈ tools w)
          then [EvRun ["systemctl"; "--user"; "restart"; "waybar.service"] st1] else [])
      ++ (if bool_decide ("makoctl" ∈ tools w)
          then [EvRun ["makoctl"; "reload"] st2] else [])
    /\ fs w' = fs w /\ procs w' = procs w.
Proof.
  unfold palette_ok. intros Hok Hrun. apply andb_true_iff in Hok as [Hw Hexit].
  unfold update_themes in Hrun. rewrite run_bind, run_perform in Hrun.
  cbn [exec] in Hrun. revert Hrun. wsimpl. rewrite Hw. cbn [negb].
  rewrite run_bind, run_log_info. cbn [fst snd]. rewrite run_bind.
  match goal with |- context [run (run_cmd E (?e :: ?a) false false) ?w0] =>
    destruct (run_cmd_plain e a false w0) as (b0 & w1 & Hr0 & Hb0 & Hfs0 & Hpr0 & Htl0 & Hex0 & Ht0);
    [done |]; rewrite Hr0; cbn [fst snd] end.
  revert Hb0 Ht0. wsimpl. rewrite Hw, Hexit. intros -> Ht0. cbn [andb truthy negb].
  rewrite run_bind, run_log_info. cbn [fst snd]. rewrite run_bind.
  match goal with |- context [run (run_cmd E (?e :: ?a) false true) ?w0] =>
    destruct (run_cmd_plain e a true w0) as (b1 & w2 & Hr1 & _ & Hfs1 & Hpr1 & Htl1 & Hex1 & Ht1);
    [done |]; rewrite Hr1; cbn [fst snd] end.
  rewrite run_bind, run_log_info. cbn [fst snd]. rewrite run_bind.
  match goal with |- context [run (run_cmd E (?e :: ?a) false true) ?w0] =>
    destruct (run_cmd_plain e a true w0) as (b2 & w3 & Hr2 & _ & Hfs2 & Hpr2 & Htl2 & Hex2 & Ht2);
    [done |]; rewrite Hr2; cbn [fst snd] end.
  cbn [run]. revert Hfs0 Hpr0 Htl0 Hfs1 Hpr1 Htl1 Ht1 Hfs2 Hpr2 Htl2 Ht2. wsimpl.
  intros Hfs0 Hpr0 Htl0 Hfs1 Hpr1 Htl1 Ht1 Hfs2 Hpr2 Htl2 Ht2 Hrun.
  injection Hrun as <-. eexists _, _.
  split; [| split; congruence].
  rewrite Ht2, Htl1, Ht1, Htl0, Ht0, <- !app_assoc. reflexivity.
Qed.

End Reloads.

Lemma update_themes_reloads_witness :
  let r := run (Wallpaper.update_themes Sample.E0 SampleRuns.picture) Sample.fresh in
  palette_ok Sample.fresh SampleRuns.picture = true
  /\ r = (inl tt, r.2)
  /\ exists st1 st2,
      trace r.2
      = trace Sample.fresh ++ [EvRun ["wallust"; "run"; SampleRuns.picture] true]
        ++ (if bool_decide ("systemctl" ∈ tools Sample.fresh)
            then [EvRun ["systemctl"; "--user"; "restart"; "waybar.service"] st1] else [])
        ++ (if bool_decide ("makoctl" ∈ tools Sample.fresh)
            then [EvRun ["makoctl"; "reload"] st2] else [])
      /\ fs r.2 = fs Sample.fresh /\ procs r.2 = procs Sample.fresh.
Proof.
  cbv zeta.
  assert (Hrun : run (Wallpaper.update_themes Sample.E0 SampleRuns.picture) Sample.fresh
                 = (inl tt,
                    (run (Wallpaper.update_themes Sample.E0 SampleRuns.picture)
                       Sample.fresh).2))
    by (by vm_compute).
  split; [reflexivity |]. split; [exact Hrun |].
  exact (update_themes_reloads Sample.E0 SampleRuns.picture Sample.fresh _ eq_refl Hrun).
Defined.

(** ** Derived artifacts: the cache key *)

Section CacheKey.

Import Wallpaper.
Variable E : environ.

(** Without a cache entry and without ImageMagick, [transform_wallpaper]
    returns normally after reporting on stderr: it runs nothing and changes
    no file, so neither the cache entry nor the generic-latest file is
    produced. *)
Theorem transform_without_magick p effect args w :
  fs w !! cache_file E p effect = None -> "magick" ∉ tools w ->
  exists w',
    run (transform_wallpaper E p effect args) w = (inl tt, w')
    /\ fs w' = fs w /\ procs w' = procs w /\ trace w' = trace w
    /\ last (console w')
       = Some (true, error_line E ("application not found: " +:+ Fmt.PROP +:+ "imagemagick"
                                   +:+ Fmt.RESET)).
Proof.
  intros Hmiss Hno. unfold transform_wallpaper.
  rewrite run_bind, run_perform. cbn [exec fst snd].
  rewrite Hmiss, bool_decide_eq_false_2 by (by intros [? ?]).
  rewrite run_bind, run_log_info. cbn [fst snd].
  rewrite run_bind, run_perform. cbn [exec fst snd]. wsimpl.
  rewrite bool_decide_eq_false_2 by done. cbn [negb].
  rewrite run_log_error. eexists. split; [reflexivity |]. wsimpl.
  repeat split. apply last_snoc.
Qed.

(** The cache entry of a derivation is keyed by the effect and the file
    name of the image only.  With both cache directories in place and an
    effect name without a separator, after a successful derivation for [p]
    a call for any image [q] with the same file name, in whatever directory
    and with whatever ImageMagick arguments, is a cache hit: ImageMagick is
    not run, and the generic-latest file receives the artifact derived from
    [p]. *)
Theorem transform_cache_keyed_by_name p q effect args args' w :
  PyPath.no_sep effect = true ->
  fs w !! CACHE_DIR E = Some Dir ->
  fs w !! GENERATED_DIR E = Some Dir ->
  PyPath.name p = PyPath.name q ->
  transform_exits E p effect args true w ->
  exists w1 w2,
    run (transform_wallpaper E p effect args) w = (inl tt, w1)
    /\ run (transform_wallpaper E q effect args') w1 = (inl tt, w2)
    /\ fs w2 !! generic_file E effect
       = Some (File (PyStr.join_space (transform_cmd E p effect args)))
    /\ trace w2 = trace w1 ++ [EvCopy (cache_file E q effect) (generic_file E effect)]
    /\ transform_runs (trace w2) = (transform_runs (trace w) + 1)%nat.
Proof.
  intros Heff Hroot Hgen Hname Hexit.
  pose proof (cache_file_ne_generic E p effect (no_sep_relative _ Heff)) as Hne.
  destruct (cache_dirs_apart E p effect (generic_file E effect) Heff (or_introl eq_refl))
    as [Hgc _].
  destruct (cache_dirs_apart E p effect (cache_file E p effect) Heff (or_intror eq_refl))
    as [Hcc _].
  destruct (transform_succeeded E p effect args Heff w Hgen Hexit)
    as (w1 & Hrun1 & Hf1 & _ & Ht1).
  assert (Hkey : cache_file E q effect = cache_file E p effect)
    by (unfold cache_file; by rewrite Hname).
  destruct (transform_hit_file E q effect args' Heff w1
              (PyStr.join_space (transform_cmd E p effect args)))
    as (w2 & Hrun2 & Hfs2 & Ht2).
  { by rewrite Hf1, !lookup_insert_ne. }
  { rewrite Hkey, Hf1. apply lookup_insert_eq. }
  { by rewrite Hf1, lookup_insert_ne, lookup_insert_eq. }
  exists w1, w2. split; [done |]. split; [done |].
  split; [by rewrite Hfs2, lookup_insert_eq |]. split; [done |].
  rewrite Ht2, Ht1, !transform_runs_app.
  assert (Hone : transform_runs [EvRun (transform_cmd E p effect args) true;
                                 EvCopy (generic_file E effect) (cache_file E p effect)]
                 = 1%nat) by reflexivity.
  assert (Hzero : transform_runs [EvCopy (cache_file E q effect) (generic_file E effect)]
                  = 0%nat) by reflexivity.
  rewrite Hone, Hzero. lia.
Qed.

End CacheKey.

Lemma transform_without_magick_witness :
  fs Scenes.no_magick !! Wallpaper.cache_file Sample.E0 SampleRuns.picture "square" = None
  /\ ("magick" ∉ tools Scenes.no_magick)
  /\ exists w',
      run SampleRuns.square Scenes.no_magick = (inl tt, w')
      /\ fs w' = fs Scenes.no_magick /\ procs w' = procs Scenes.no_magick
      /\ trace w' = trace Scenes.no_magick
      /\ last (console w')
         = Some (true, Wallpaper.error_line Sample.E0
                         ("application not found: " +:+ Fmt.PROP +:+ "imagemagick"
                          +:+ Fmt.RESET)).
Proof.
  assert (Hc : fs Scenes.no_magick !! Wallpaper.cache_file Sample.E0 SampleRuns.picture "square"
               = None) by (by vm_compute).
  assert (Hm : "magick" ∉ tools Scenes.no_magick) by (by vm_compute).
  split; [exact Hc |]. split; [exact Hm |].
  exact (transform_without_magick Sample.E0 SampleRuns.picture "square" SampleRuns.square_args
           Scenes.no_magick Hc Hm).
Defined.

Lemma transform_cache_keyed_by_name_witness :
  PyPath.no_sep "square" = true
  /\ fs Scenes.prepared !! Wallpaper.CACHE_DIR Sample.E0 = Some Dir
  /\ fs Scenes.prepared !! Wallpaper.GENERATED_DIR Sample.E0 = Some Dir
  /\ PyPath.name SampleRuns.picture = PyPath.name Scenes.namesake
  /\ transform_exits Sample.E0 SampleRuns.picture "square" SampleRuns.square_args true
       Scenes.prepared
  /\ exists w1 w2,
      run (Wallpaper.transform_wallpaper Sample.E0 SampleRuns.picture "square"
             SampleRuns.square_args) Scenes.prepared = (inl tt, w1)
      /\ run (Wallpaper.transform_wallpaper Sample.E0 Scenes.namesake "square"
                ["-resize"; "10%"]) w1 = (inl tt, w2)
      /\ fs w2 !! Wallpaper.generic_file Sample.E0 "square"
         = Some (File (PyStr.join_space
                         (transform_cmd Sample.E0 SampleRuns.picture "square"
                            SampleRuns.square_args)))
      /\ trace w2
         = trace w1 ++ [EvCopy (Wallpaper.cache_file Sample.E0 Scenes.namesake "square")
                          (Wallpaper.generic_file Sample.E0 "square")]
      /\ transform_runs (trace w2) = (transform_runs (trace Scenes.prepared) + 1)%nat.
Proof.
  assert (Hex : transform_exits Sample.E0 SampleRuns.picture "square" SampleRuns.square_args
                  true Scenes.prepared) by (repeat split; by vm_compute).
  assert (Hroot : fs Scenes.prepared !! Wallpaper.CACHE_DIR Sample.E0 = Some Dir)
    by (by vm_compute).
  assert (Hgen : fs Scenes.prepared !! Wallpaper.GENERATED_DIR Sample.E0 = Some Dir)
    by (by vm_compute).
  split; [reflexivity |]. split; [exact Hroot |]. split; [exact Hgen |].
  split; [reflexivity |]. split; [exact Hex |].
  exact (transform_cache_keyed_by_name Sample.E0 SampleRuns.picture Scenes.namesake "square"
           SampleRuns.square_args ["-resize"; "10%"] Scenes.prepared eq_refl Hroot Hgen
           eq_refl Hex).
Defined.

(** ** The automation controller: stopping, and starts that fail *)

Section Stops.

Import Wallpaper.
Variable E : environ.

Local Abbreviation PID := (PID_FILE E).

(** A stop ([interval <= 0], zero or negative alike) with a record that
    names a live process of the user: the process is sent SIGTERM, whatever
    program it runs, the record is removed, nothing is started, and the
    call returns normally. *)
Theorem stop_ends_recorded_process interval category w text pid pr :
  fs w !! PID = Some (File text) ->
  PyStr.int (PyStr.strip text) = Some pid ->
  valid_pid pid -> procs w !! pid = Some pr -> owned pr = true ->
  interval <= 0 ->
  exists w' l,
    run (manage_automation E interval category) w = (inl tt, w')
    /\ fs w' = delete PID (fs w)
    /\ procs w' = delete pid (procs w)
    /\ trace w' = trace w ++ [EvSignal pid; EvUnlink PID] ++ l
    /\ forall e, e ∈ l -> is_notification e.
Proof.
  intros Hfile Hint Hpid Hlive Hown Hstop.
  rewrite (manage_live E interval category w text pid pr) by done.
  destruct (manage_idle E interval category (superseded E pid w))
    as (w' & l & Hrun & _ & _ & Hl & Hres); [apply lookup_delete_eq | lia |].
  replace (0 <? interval) with false in Hres by (symmetry; apply Z.ltb_ge; lia).
  destruct Hres as (Hfs & Hprocs & Htrace).
  exists w', l. split; [done |]. split; [done |]. split; [done |].
  split; [| done]. rewrite Htrace. unfold superseded. wsimpl. by rewrite <- !app_assoc.
Qed.

(** A record that names a live process of another user: [os.kill] raises
    [PermissionError], which the controller does not catch.  The call
    raises it, whether it was a start or a stop, and nothing has changed:
    the record is still there, nothing was signalled, started or printed. *)
Theorem foreign_process_blocks_controller interval category w text pid pr :
  fs w !! PID = Some (File text) ->
  PyStr.int (PyStr.strip text) = Some pid ->
  valid_pid pid -> procs w !! pid = Some pr -> owned pr = false ->
  run (manage_automation E interval category) w = (inr PermissionError, w).
Proof.
  intros Hfile Hint Hpid Hlive Hown. unfold manage_automation.
  rewrite run_bind, run_perform. cbn [exec]. wsimpl.
  rewrite Hfile, bool_decide_eq_true_2 by done.
  rewrite run_bind, run_bind, run_catch, run_bind, run_attempt. cbn [exec].
  unfold exec_read. rewrite Hfile. wsimpl. rewrite run_bind. unfold py_int.
  rewrite Hint. cbn [run]. rewrite run_bind, run_attempt. cbn [exec]. unfold exec_kill.
  assert (Hr : in_pid_range pid = true).
  { unfold in_pid_range, valid_pid in *. apply andb_true_intro.
    split; [apply Z.leb_le | apply Z.ltb_lt]; lia. }
  rewrite Hr. cbn [negb]. destruct (Z.leb_spec pid 0); [unfold valid_pid in *; lia |].
  by rewrite Hlive, Hown.
Qed.

(** A start that cannot spawn the new loop has already stopped the old
    one: when a start with a live recorded loop raises, the exception is
    that of [Popen] (interpreter not found, or fork failure), the recorded
    process has been terminated and the record removed, and no loop has
    been started. *)
Theorem failed_start_stops_previous interval category w text pid pr e w' :
  fs w !! PID = Some (File text) ->
  PyStr.int (PyStr.strip text) = Some pid ->
  valid_pid pid -> procs w !! pid = Some pr -> owned pr = true ->
  0 < interval ->
  run (manage_automation E interval category) w = (inr e, w') ->
  (e = FileNotFoundError \/ e = OSError)
  /\ fs w' = delete PID (fs w)
  /\ procs w' = delete pid (procs w)
  /\ trace w' = trace w ++ [EvSignal pid; EvUnlink PID].
Proof.
  intros Hfile Hint Hpid Hlive Hown Hstart.
  rewrite (manage_live E interval category w text pid pr) by done.
  assert (Hgone : fs (superseded E pid w) !! PID = None) by apply lookup_delete_eq.
  destruct (decide (sys_executable E ∈ tools w /\ can_fork (superseded E pid w)))
    as [[Hexe Hfork] | Hno].
  { destruct (manage_idle E interval category (superseded E pid w))
      as (w2 & l & Hrun & _); [done | done |]. rewrite Hrun. discriminate. }
  unfold manage_automation. rewrite run_bind, run_perform. cbn [exec]. wsimpl.
  rewrite Hgone, bool_decide_eq_false_2 by (by intros [? ?]). cbn [bind].
  replace (0 <? interval) with true by (symmetry; by apply Z.ltb_lt).
  rewrite run_bind, run_log_info, run_bind, run_attempt. cbn [exec].
  unfold exec_popen. cbn [app]. wsimpl.
  case_bool_decide as Hexe.
  - case_bool_decide as Hfork.
    + exfalso. apply Hno. split; [done |]. exact Hfork.
    + wsimpl. intros [= <- <-]. split; [by right |]. unfold superseded. wsimpl.
      by rewrite <- !app_assoc.
  - wsimpl. intros [= <- <-]. split; [by left |]. unfold superseded. wsimpl.
    by rewrite <- !app_assoc.
Qed.


End Stops.

Lemma stop_ends_recorded_process_witness :
  let E := Sample.E0 in
  let w := Scenes.running in
  fs w !! Wallpaper.PID_FILE E = Some (File "4242")
  /\ PyStr.int (PyStr.strip "4242") = Some 4242
  /\ valid_pid 4242
  /\ procs w !! 4242 = Some (Process (loop_args E 60 None) true)
  /\ owned (Process (loop_args E 60 None) true) = true
  /\ 0 <= 0
  /\ exists w' l,
      run (Wallpaper.manage_automation E 0 None) w = (inl tt, w')
      /\ fs w' = delete (Wallpaper.PID_FILE E) (fs w)
      /\ procs w' = delete 4242 (procs w)
      /\ trace w' = trace w ++ [EvSignal 4242; EvUnlink (Wallpaper.PID_FILE E)] ++ l
      /\ forall e, e ∈ l -> is_notification e.
Proof.
  cbv zeta.
  assert (Hf : fs Scenes.running !! Wallpaper.PID_FILE Sample.E0 = Some (File "4242"))
    by (by vm_compute).
  assert (Hi : PyStr.int (PyStr.strip "4242") = Some 4242) by (by vm_compute).
  assert (Hv : valid_pid 4242) by (unfold valid_pid; lia).
  assert (Hp : procs Scenes.running !! 4242
               = Some (Process (loop_args Sample.E0 60 None) true)) by (by vm_compute).
  assert (Hz : 0 <= 0) by lia.
  split; [exact Hf |]. split; [exact Hi |]. split; [exact Hv |]. split; [exact Hp |].
  split; [reflexivity |]. split; [exact Hz |].
  exact (stop_ends_recorded_process Sample.E0 0 None Scenes.running "4242" 4242
           (Process (loop_args Sample.E0 60 None) true) Hf Hi Hv Hp eq_refl Hz).
Defined.

Lemma foreign_process_blocks_controller_witness :
  let E := Sample.E0 in
  let w := Scenes.foreign in
  fs w !! Wallpaper.PID_FILE E = Some (File "4242")
  /\ PyStr.int (PyStr.strip "4242") = Some 4242
  /\ valid_pid 4242
  /\ procs w !! 4242 = Some (Process ["/usr/sbin/sshd"] false)
  /\ owned (Process ["/usr/sbin/sshd"] false) = false
  /\ run (Wallpaper.manage_automation E 60 None) w = (inr PermissionError, w).
Proof.
  cbv zeta.
  assert (Hf : fs Scenes.foreign !! Wallpaper.PID_FILE Sample.E0 = Some (File "4242"))
    by (by vm_compute).
  assert (Hi : PyStr.int (PyStr.strip "4242") = Some 4242) by (by vm_compute).
  assert (Hv : valid_pid 4242) by (unfold valid_pid; lia).
  assert (Hp : procs Scenes.foreign !! 4242 = Some (Process ["/usr/sbin/sshd"] false))
    by (by vm_compute).
  split; [exact Hf |]. split; [exact Hi |]. split; [exact Hv |]. split; [exact Hp |].
  split; [reflexivity |].
  exact (foreign_process_blocks_controller Sample.E0 60 None Scenes.foreign "4242" 4242
           (Process ["/usr/sbin/sshd"] false) Hf Hi Hv Hp eq_refl).
Defined.

Lemma failed_start_stops_previous_witness :
  let E := Sample.E0 in
  let w := Scenes.no_interpreter in
  let r := run (Wallpaper.manage_automation E 60 None) w in
  fs w !! Wallpaper.PID_FILE E = Some (File "4242")
  /\ PyStr.int (PyStr.strip "4242") = Some 4242
  /\ valid_pid 4242
  /\ procs w !! 4242 = Some (Process (loop_args E 60 None) true)
  /\ owned (Process (loop_args E 60 None) true) = true
  /\ 0 < 60
  /\ r = (inr FileNotFoundError, r.2)
  /\ (FileNotFoundError = FileNotFoundError \/ FileNotFoundError = OSError)
  /\ fs r.2 = delete (Wallpaper.PID_FILE E) (fs w)
  /\ procs r.2 = delete 4242 (procs w)
  /\ trace r.2 = trace w ++ [EvSignal 4242; EvUnlink (Wallpaper.PID_FILE E)].
Proof.
  cbv zeta.
  assert (Hf : fs Scenes.no_interpreter !! Wallpaper.PID_FILE Sample.E0 = Some (File "4242"))
    by (by vm_compute).
  assert (Hi : PyStr.int (PyStr.strip "4242") = Some 4242) by (by vm_compute).
  assert (Hv : valid_pid 4242) by (unfold valid_pid; lia).
  assert (Hp : procs Scenes.no_interpreter !! 4242
               = Some (Process (loop_args Sample.E0 60 None) true)) by (by vm_compute).
  assert (Hs : 0 < 60) by lia.
  assert (Hr : run (Wallpaper.manage_automation Sample.E0 60 None) Scenes.no_interpreter
               = (inr FileNotFoundError,
                  (run (Wallpaper.manage_automation Sample.E0 60 None)
                     Scenes.no_interpreter).2)) by (by vm_compute).
  split; [exact Hf |]. split; [exact Hi |]. split; [exact Hv |]. split; [exact Hp |].
  split; [reflexivity |]. split; [exact Hs |]. split; [exact Hr |].
  exact (failed_start_stops_previous Sample.E0 60 None Scenes.no_interpreter "4242" 4242
           (Process (loop_args Sample.E0 60 None) true) FileNotFoundError _
           Hf Hi Hv Hp eq_refl Hs Hr).
Defined.


(** ** What a successful [set_wallpaper] leaves *)

Section Applied.

Import Wallpaper.
Variable E : environ.

Local Abbreviation G := (worker_step E).

Lemma worker_step_procs w w' : G w w' -> procs w' = procs w.
Proof. by intros (_ & ? & _). Qed.


Lemma display_free_stable w w' : display_free w -> G w w' -> display_free w'.
Proof. intros Hfree Hg q pr. rewrite (worker_step_procs _ _ Hg). apply Hfree. Qed.

Lemma displays_stable p w w' : displays w p -> G w w' -> displays w' p.
Proof. intros Hd Hg. unfold displays. by rewrite (worker_step_procs _ _ Hg). Qed.

Lemma pkill_display_free w : display_free (exec_run ["pkill"; "swaybg"] w).2 \/
                             (exec_run ["pkill"; "swaybg"] w).1 = NotFound.
Proof.
  unfold exec_run. case_bool_decide; [left | by right].
  intros q pr Hq. cbn in Hq. by apply map_lookup_filter_Some in Hq as [_ Hkeep].
Qed.

Lemma popen_displays p w pid w' :
  display_free w ->
  exec_popen (swaybg_args p) w = (inl pid, w') ->
  displays w' p /\ fs w' = fs w.
Proof.
  intros Hfree. unfold exec_popen, swaybg_args.
  case_bool_decide; [| done]. case_bool_decide as Hfork; [| done].
  intros [= <- <-]. split; [| done]. destruct Hfork as [_ Hfresh].
  exists (pid_alloc w (dom (procs w))). wsimpl.
  split; [apply lookup_insert_eq |]. intros q pr Hq Hdisp.
  destruct (decide (q = pid_alloc w (dom (procs w)))) as [| Hne]; [done |].
  rewrite lookup_insert_ne in Hq by done. by destruct (Hfree q pr Hq).
Qed.

(** When [set_wallpaper] returns [True], the record holds the path and the
    display shows it. *)
Lemma set_wallpaper_applied_wlp p w :
  prog_wlp G (set_wallpaper E p)
    (fun r w' => r = inl true ->
                 fs w' !! CURRENT_FILE E = Some (File p) /\ displays w' p) w.
Proof.
  destruct (set_wallpaper_workers E p) as (Hthemes & Hsquare & Hblur).
  unfold set_wallpaper. msimpl.
  apply wlp_seq. intros w1 Hg1. msimpl.
  destruct (bool_decide (is_Some (fs w1 !! p))); msimpl.
  2: { unfold log_error. msimpl. apply wlp_seq. intros w2 Hg2. msimpl.
       apply wlp_ret. intros w3 Hg3 Hb. congruence. }
  unfold log_info at 1. msimpl. apply wlp_seq. intros w2 Hg2. msimpl.
  apply wlp_start; [done |]. intros w3 Hg3 t1.
  apply wlp_start; [done |]. intros w4 Hg4 t2.
  apply wlp_start; [done |]. intros w5 Hg5 t3.
  unfold launch_swaybg. msimpl. apply wlp_seq. intros w6 Hg6. msimpl.
  destruct (bool_decide ("swaybg" ∈ tools w6)); msimpl.
  2: { unfold log_error. msimpl. apply wlp_seq. intros w7 Hg7. msimpl.
       apply wlp_ret. intros w8 Hg8 Hb. congruence. }
  unfold log_info at 1. msimpl. apply wlp_seq. intros w7 Hg7. msimpl.
  unfold subprocess_run. msimpl. apply wlp_seq. intros w8 Hg8. msimpl.
  destruct (pkill_display_free w8) as [Hfree | Hnf].
  2: { destruct (exec_run ["pkill"; "swaybg"] w8) as [[ok |] w9]; [done |]. msimpl.
       apply wlp_throw. intros w' Hg' Hb. congruence. }
  destruct (exec_run ["pkill"; "swaybg"] w8) as [[ok |] w9]; msimpl;
    [| apply wlp_throw; intros w' Hg' Hb; congruence].
  cbn [snd] in Hfree.
  unfold log_info at 1. msimpl. apply wlp_seq. intros w10 Hg10. msimpl.
  pose proof (display_free_stable _ _ Hfree Hg10) as Hfree10.
  apply wlp_seq. intros w11 Hg11. msimpl.
  assert (Hfree11 : display_free w11).
  { eapply display_free_stable; [| exact Hg11]. exact Hfree10. }
  fold (swaybg_args p).
  destruct (exec_popen (swaybg_args p) w11) as [[pid | e] w12] eqn:Hpopen; msimpl;
    [| apply wlp_throw; intros w' Hg' Hb; congruence].
  destruct (popen_displays p w11 pid w12 Hfree11 Hpopen) as [Hshow12 _].
  unfold log_info at 1. msimpl. apply wlp_seq. intros w13 Hg13. msimpl.
  pose proof (displays_stable p _ _ Hshow12 Hg13) as Hshow13.
  unfold log_info at 1. msimpl. apply wlp_seq. intros w14 Hg14. msimpl.
  assert (Hshow14 : displays w14 p).
  { eapply displays_stable; [| exact Hg14]. exact Hshow13. }
  apply wlp_seq. intros w15 Hg15. msimpl.
  pose proof (displays_stable p _ _ Hshow14 Hg15) as Hshow15.
  fold (CURRENT_FILE E). unfold exec_write.
  assert (Hpost : forall w0,
             fs w0 !! CURRENT_FILE E = Some (File p) /\ displays w0 p ->
             prog_wlp G (join_all [t1; t2; t3];; Ret true)%py
               (fun r w' => r = inl true ->
                            fs w' !! CURRENT_FILE E = Some (File p) /\ displays w' p) w0).
  { assert (Hstable : forall wa wb,
               fs wa !! CURRENT_FILE E = Some (File p) /\ displays wa p -> G wa wb ->
               fs wb !! CURRENT_FILE E = Some (File p) /\ displays wb p).
    { intros wa wb [Hc Hs] Hg. split; [by rewrite (worker_step_current _ _ _ Hg) |].
      by eapply displays_stable. }
    intros w0 H0. msimpl.
    apply wlp_join. intros wa Hga. pose proof (Hstable _ _ H0 Hga) as Ha.
    apply wlp_join. intros wb Hgb. pose proof (Hstable _ _ Ha Hgb) as Hb.
    apply wlp_join. intros wc Hgc. pose proof (Hstable _ _ Hb Hgc) as Hc.
    apply wlp_ret. intros wd Hgd _. by apply (Hstable _ _ Hc Hgd). }
  destruct (fs w15 !! CURRENT_FILE E) as [[c |] |]; msimpl;
    try (apply wlp_throw; intros w' Hg' Hb; congruence);
    apply Hpost; (split; [apply lookup_insert_eq | exact Hshow15]).
Qed.


End Applied.


(** ** Selection and the loop: the other paths *)

Section OtherPaths.

Import Wallpaper.
Variable E : environ.

(** When the directory to search, a path in plain form, names no entry of
    the file system, [shuffle_wallpaper] reports it and returns [False]
    within two steps; it draws no random number, starts no task and changes
    no file, no process and no trace. *)
Theorem shuffle_missing_directory category w sched :
  PyPath.plain (target_dir E category) = true ->
  fs w !! target_dir E category = None ->
  let m := run_schedule sched (start (shuffle_wallpaper E category) w) in
  (fs (mworld m) = fs w /\ trace (mworld m) = trace w /\ procs (mworld m) = procs w
   /\ draws (mworld m) = draws w)
  /\ ((2 <= main_steps sched)%nat -> mmain m = Ret false).
Proof.
  intros _ Hnone. cbv zeta.
  assert (Hwp : prog_wp eq
            (fun w' => fs w' = fs w /\ trace w' = trace w /\ procs w' = procs w
                       /\ draws w' = draws w)
            2 (shuffle_wallpaper E category) (fun r _ => r = inl false) w).
  { unfold shuffle_wallpaper. fold (target_dir E category). msimpl.
    apply wp_seq. intros w1 <-. split; [done |]. msimpl.
    rewrite Hnone, bool_decide_eq_false_2 by (by intros [? ?]). msimpl.
    unfold log_error. msimpl. apply wp_seq. intros w2 <-. split; [done |]. msimpl.
    apply wp_ret. by intros w3 <-. }
  apply (wp_inv_start _ _ _ _ _ _ (fun w0 => eq_refl w0)) in Hwp.
  destruct (wp_sound eq (fun w0 => eq_refl w0) (fun w1 w2 w3 => @eq_trans _ w1 w2 w3)
              _ _ sched _ _ Hwp) as [Hj Hfin].
  split; [exact Hj |]. intros Hn. destruct (Hfin Hn) as (r & Hout & ->).
  by destruct (mmain (run_schedule sched _)); inversion Hout.
Qed.

End OtherPaths.

Lemma shuffle_missing_directory_witness :
  let m := run_schedule [O; O]
             (start (Wallpaper.shuffle_wallpaper Sample.E0 (Some "nowhere")) Sample.fresh) in
  PyPath.plain (target_dir Sample.E0 (Some "nowhere")) = true
  /\ fs Sample.fresh !! target_dir Sample.E0 (Some "nowhere") = None
  /\ (fs (mworld m) = fs Sample.fresh /\ trace (mworld m) = trace Sample.fresh
      /\ procs (mworld m) = procs Sample.fresh /\ draws (mworld m) = draws Sample.fresh)
  /\ ((2 <= main_steps [O; O])%nat -> mmain m = Ret false).
Proof.
  cbv zeta.
  assert (Hplain : PyPath.plain (target_dir Sample.E0 (Some "nowhere")) = true)
    by (by vm_compute).
  assert (Hnone : fs Sample.fresh !! target_dir Sample.E0 (Some "nowhere") = None)
    by (by vm_compute).
  split; [exact Hplain |]. split; [exact Hnone |].
  exact (shuffle_missing_directory Sample.E0 (Some "nowhere") Sample.fresh [O; O] Hplain
           Hnone).
Defined.

(** ** [set_wallpaper] without pkill *)

Section NoPkill.

Import Wallpaper.
Variable E : environ.

Local Abbreviation G := (worker_step E).

(** With swaybg installed and pkill missing, [set_wallpaper] raises
    [FileNotFoundError] within eight steps. *)
Lemma without_pkill_wp p cur ps tls w :
  "swaybg" ∈ tls -> "pkill" ∉ tls ->
  tools w = tls -> fs w !! CURRENT_FILE E = cur -> procs w = ps -> is_Some (fs w !! p) ->
  prog_wp G (fun w' => fs w' !! CURRENT_FILE E = cur /\ procs w' = ps) 8 (set_wallpaper E p)
    (fun r w' => r = inr FileNotFoundError) w.
Proof.
  intros Hsway Hno Htools Hcur Hprocs Hp.
  destruct (set_wallpaper_workers E p) as (Hthemes & Hsquare & Hblur).
  pose (P := fun w0 : world =>
               tools w0 = tls /\ fs w0 !! CURRENT_FILE E = cur /\ procs w0 = ps
               /\ is_Some (fs w0 !! p)).
  assert (Hstable : forall w1 w2, P w1 -> G w1 w2 -> P w2).
  { intros w1 w2 (Ht & Hc & Hpr & Hex) Hg. unfold P.
    rewrite (worker_step_tools _ _ _ Hg), (worker_step_current _ _ _ Hg),
      (worker_step_procs _ _ _ Hg).
    repeat split; try done. by eapply worker_step_exists. }
  assert (Hj : forall w0, P w0 -> fs w0 !! CURRENT_FILE E = cur /\ procs w0 = ps)
    by (by intros w0 (_ & ? & ? & _)).
  assert (HP : P w) by done.
  clear Htools Hcur Hprocs Hp. unfold set_wallpaper. msimpl.
  apply wp_seq. intros w1 Hg1. pose proof (Hstable _ _ HP Hg1) as HP1.
  split; [by apply Hj |]. msimpl.
  destruct HP1 as (Ht1 & Hc1 & Hpr1 & Hex1).
  rewrite bool_decide_eq_true_2 by done. msimpl.
  unfold log_info at 1. msimpl. apply wp_seq. intros w2 Hg2.
  assert (HP1 : P w1) by done.
  pose proof (Hstable _ _ HP1 Hg2) as HP2. split; [by apply Hj |]. msimpl.
  assert (HP2' : forall err line, P (print_line err line w2)) by (intros; exact HP2).
  apply wp_start; [done |]. intros w3 Hg3.
  pose proof (Hstable _ _ (HP2' _ _) Hg3) as HP3. split; [by apply Hj |]. intros t1.
  apply wp_start; [done |]. intros w4 Hg4.
  pose proof (Hstable _ _ HP3 Hg4) as HP4. split; [by apply Hj |]. intros t2.
  apply wp_start; [done |]. intros w5 Hg5.
  pose proof (Hstable _ _ HP4 Hg5) as HP5. split; [by apply Hj |]. intros t3.
  unfold launch_swaybg. msimpl. apply wp_seq. intros w6 Hg6.
  pose proof (Hstable _ _ HP5 Hg6) as HP6. split; [by apply Hj |]. msimpl.
  destruct HP6 as (Ht6 & Hc6 & Hpr6 & Hex6).
  rewrite Ht6, bool_decide_eq_true_2 by done. msimpl.
  unfold log_info at 1. msimpl. apply wp_seq. intros w7 Hg7.
  assert (HP6 : P w6) by done.
  pose proof (Hstable _ _ HP6 Hg7) as HP7. split; [by apply Hj |]. msimpl.
  assert (HP7' : forall err line, P (print_line err line w7)) by (intros; exact HP7).
  unfold subprocess_run. msimpl. apply wp_seq. intros w8 Hg8.
  pose proof (Hstable _ _ (HP7' _ _) Hg8) as HP8. split; [by apply Hj |]. msimpl.
  unfold exec_run. destruct HP8 as (Ht8 & Hc8 & Hpr8 & Hex8).
  rewrite Ht8, bool_decide_eq_false_2 by done. msimpl.
  apply wp_throw. intros w9 Hg9.
  assert (HP8 : P w8) by done.
  pose proof (Hstable _ _ HP8 Hg9) as HP9. split; [by apply Hj | done].
Qed.

(** With swaybg installed and pkill missing, [set_wallpaper] on an
    existing path never returns a value: under every interleaving it ends,
    within eight steps of its own, by raising [FileNotFoundError].  The
    processes are left as they were (no display process is ended or
    started) and the current-wallpaper record is not written. *)
Theorem set_wallpaper_without_pkill p w sched :
  "swaybg" ∈ tools w -> "pkill" ∉ tools w -> is_Some (fs w !! p) ->
  let m := run_schedule sched (start (set_wallpaper E p) w) in
  fs (mworld m) !! CURRENT_FILE E = fs w !! CURRENT_FILE E
  /\ procs (mworld m) = procs w
  /\ (forall r, outcome (mmain m) = Some r -> r = inr FileNotFoundError)
  /\ ((8 <= main_steps sched)%nat -> mmain m = Throw FileNotFoundError).
Proof.
  intros Hsway Hno Hp. cbv zeta.
  pose proof (without_pkill_wp p _ _ _ w Hsway Hno eq_refl eq_refl eq_refl Hp) as Hwp.
  apply (wp_inv_start _ _ _ _ _ _ (worker_step_refl E)) in Hwp.
  assert (Hlate : forall sched',
             (8 <= main_steps sched')%nat ->
             mmain (run_schedule sched' (start (set_wallpaper E p) w))
             = Throw FileNotFoundError).
  { intros sched' Hn.
    destruct (wp_sound _ (worker_step_refl E) (worker_step_trans E) _ _ sched' _ _ Hwp)
      as [_ Hfin].
    destruct (Hfin Hn) as (r & Hout & ->).
    by destruct (mmain (run_schedule sched' (start (set_wallpaper E p) w)));
      inversion Hout. }
  destruct (wp_sound _ (worker_step_refl E) (worker_step_trans E) _ _ sched _ _ Hwp)
    as [[Hcur Hprocs] _].
  split; [exact Hcur |]. split; [exact Hprocs |]. split.
  - intros r Hout.
    specialize (Hlate (sched ++ repeat O 8)).
    rewrite main_steps_app, main_steps_repeat, run_schedule_app in Hlate.
    rewrite (finished_main_stays (repeat O 8) _ r Hout) in Hlate.
    rewrite Hlate in Hout by lia. cbn in Hout. congruence.
  - apply Hlate.
Qed.

End NoPkill.

Lemma set_wallpaper_without_pkill_witness :
  let m := run_schedule SampleRuns.workers_then_main
             (start (Wallpaper.set_wallpaper Sample.E0 SampleRuns.picture) Scenes.no_pkill) in
  (("swaybg" ∈ tools Scenes.no_pkill) /\ ("pkill" ∉ tools Scenes.no_pkill)
   /\ is_Some (fs Scenes.no_pkill !! SampleRuns.picture))
  /\ fs (mworld m) !! Wallpaper.CURRENT_FILE Sample.E0
     = fs Scenes.no_pkill !! Wallpaper.CURRENT_FILE Sample.E0
  /\ procs (mworld m) = procs Scenes.no_pkill
  /\ (forall r, outcome (mmain m) = Some r -> r = inr FileNotFoundError)
  /\ ((8 <= main_steps SampleRuns.workers_then_main)%nat -> mmain m = Throw FileNotFoundError).
Proof.
  cbv zeta.
  assert (Hs : "swaybg" ∈ tools Scenes.no_pkill) by (by vm_compute).
  assert (Hn : "pkill" ∉ tools Scenes.no_pkill) by (by vm_compute).
  assert (Hp : is_Some (fs Scenes.no_pkill !! SampleRuns.picture)) by (by eexists).
  split; [by repeat split |].
  exact (set_wallpaper_without_pkill Sample.E0 SampleRuns.picture Scenes.no_pkill
           SampleRuns.workers_then_main Hs Hn Hp).
Defined.

(** ** Tasks of a failed [set_wallpaper] *)

Section Threads.

Context {A : Type}.

(** A thread scheduled alone runs its target to the end, as [run] does. *)
Lemma thread_steps i (c : io unit) w (main : prog A) ths :
  ths !! i = Some c ->
  exists n,
    run_schedule (repeat (S i) n) (Machine w main ths)
    = Machine (run c w).2 main
        (<[i := match (run c w).1 with inl a => Ret a | inr e => Throw e end]> ths).
Proof.
  revert w ths. induction c as [a | e | B o k IH]; intros w ths Hi.
  - exists O. cbn. by rewrite list_insert_id.
  - exists O. cbn. by rewrite list_insert_id.
  - cbn [run]. destruct (exec o w) as [b w1] eqn:Hexec.
    destruct (IH b w1 (<[i := k b]> ths)) as [n Hn].
    { apply list_lookup_insert_eq. by eapply lookup_lt_Some. }
    exists (S n). cbn [repeat]. rewrite run_schedule_cons.
    cbn [step]. unfold step_thread. cbn [mthreads mworld mmain].
    match goal with |- context [match ?x with _ => _ end] =>
      assert (Hx : x = Some (Do o k)) by exact Hi; rewrite Hx end.
    rewrite Hexec. rewrite list_insert_insert_eq in Hn. exact Hn.
Qed.

End Threads.

Section Despite.

Import Wallpaper.
Variable E : environ.

Lemma update_themes_palette_event p w :
  palette_ok w p = true ->
  exists w' l,
    run (update_themes E p) w = (inl tt, w')
    /\ trace w' = trace w ++ EvRun ["wallust"; "run"; p] true :: l.
Proof.
  unfold palette_ok. intros Hok. apply andb_true_iff in Hok as [Hw Hexit].
  unfold update_themes. rewrite run_bind, run_perform. cbn [exec]. wsimpl.
  rewrite Hw. cbn [negb].
  rewrite run_bind, run_log_info. cbn [fst snd]. rewrite run_bind.
  match goal with |- context [run (run_cmd E (?e :: ?a) false false) ?w0] =>
    destruct (run_cmd_plain E e a false w0) as (b0 & w1 & Hr0 & Hb0 & _ & _ & _ & _ & Ht0);
    [done |]; rewrite Hr0; cbn [fst snd] end.
  revert Hb0 Ht0. wsimpl. rewrite Hw, Hexit. intros -> Ht0. cbn [andb truthy negb].
  rewrite run_bind, run_log_info. cbn [fst snd]. rewrite run_bind.
  match goal with |- context [run (run_cmd E ?c false true) ?w0] =>
    destruct (run_cmd_trace E c true w0) as (ok1 & l1 & Hr1 & Ht1 & _);
    rewrite Hr1; cbn [fst snd] end.
  rewrite run_bind, run_log_info. cbn [fst snd]. rewrite run_bind.
  match goal with |- context [run (run_cmd E ?c false true) ?w0] =>
    destruct (run_cmd_trace E c true w0) as (ok2 & l2 & Hr2 & Ht2 & _);
    rewrite Hr2; cbn [fst snd] end.
  cbn [run]. eexists _, (l1 ++ l2). split; [reflexivity |].
  revert Ht1 Ht2. wsimpl. intros Ht1 Ht2.
  rewrite Ht2, Ht1, Ht0, <- !app_assoc. reflexivity.
Qed.

(** The tasks are started before the display is tried, and a failure of
    the display does not call them off.  With swaybg missing and the
    palette tool working, let the main program run to its end and then the
    theme task: [set_wallpaper] has returned [False], and the palette has
    been generated from a wallpaper that is neither displayed nor
    recorded. *)
Theorem failed_display_still_propagates p w :
  "swaybg" ∉ tools w -> is_Some (fs w !! p) -> palette_ok w p = true ->
  exists n,
    let m := run_schedule (repeat O 7 ++ repeat 1%nat n) (start (set_wallpaper E p) w) in
    mmain m = Ret false
    /\ fs (mworld m) !! CURRENT_FILE E = fs w !! CURRENT_FILE E
    /\ exists l, trace (mworld m) = trace w ++ EvRun ["wallust"; "run"; p] true :: l.
Proof.
  intros Hno Hp Hok.
  set (w7 := print_line true
               (error_line E ("application not found: " +:+ Fmt.PROP +:+ "swaybg" +:+ Fmt.RESET))
               (print_line false
                  (info_line E ("Setting wallpaper: " +:+ Fmt.PROP +:+ p +:+ Fmt.RESET)) w)).
  assert (Hmain : run_schedule (repeat O 7) (start (set_wallpaper E p) w)
                  = Machine w7 (Ret false)
                      [update_themes E p;
                       transform_wallpaper E p "square"
                         ["-gravity"; "Center"; "-extent"; "1:1"; "-resize"; "25%"];
                       transform_wallpaper E p "blurred" ["-blur"; "50x30"; "-resize"; "75%"]]).
  { unfold start, set_wallpaper. cbn [repeat].
    rewrite run_schedule_cons. msimpl. rewrite bool_decide_eq_true_2 by done. msimpl.
    unfold log_info at 1. msimpl.
    rewrite run_schedule_cons. msimpl.
    rewrite run_schedule_cons. msimpl. cbn [length app].
    rewrite run_schedule_cons. msimpl. cbn [length app].
    rewrite run_schedule_cons. msimpl. cbn [length app].
    unfold launch_swaybg. msimpl.
    rewrite run_schedule_cons. msimpl. wsimpl.
    rewrite bool_decide_eq_false_2 by done. msimpl.
    unfold log_error. msimpl.
    rewrite run_schedule_cons. msimpl. reflexivity. }
  assert (Hok7 : palette_ok w7 p = true) by exact Hok.
  destruct (update_themes_palette_event p w7 Hok7) as (w' & l & Hrun & Htrace).
  destruct (thread_steps 0 (update_themes E p) w7 (Ret false : prog bool)
              [update_themes E p;
               transform_wallpaper E p "square"
                 ["-gravity"; "Center"; "-extent"; "1:1"; "-resize"; "25%"];
               transform_wallpaper E p "blurred" ["-blur"; "50x30"; "-resize"; "75%"]]
              eq_refl) as [n Hn].
  exists n. cbv zeta. split; [| split].
  - by rewrite run_schedule_app, Hmain, Hn.
  - pose proof (display_missing_wp E p _ _ w Hno eq_refl eq_refl) as Hwp.
    apply (wp_inv_start _ _ _ _ _ _ (worker_step_refl E)) in Hwp.
    by destruct (wp_sound _ (worker_step_refl E) (worker_step_trans E) _ _
                   (repeat O 7 ++ repeat 1%nat n) _ _ Hwp) as [Hcur _].
  - rewrite run_schedule_app, Hmain, Hn, Hrun. cbn [fst snd mworld].
    exists l. by rewrite Htrace.
Qed.

End Despite.

Lemma failed_display_still_propagates_witness :
  let E := Sample.E0 in
  let w := SampleRuns.no_display in
  let p := SampleRuns.picture in
  (("swaybg" ∉ tools w) /\ is_Some (fs w !! p) /\ palette_ok w p = true)
  /\ exists n,
      let m := run_schedule (repeat O 7 ++ repeat 1%nat n)
                 (start (Wallpaper.set_wallpaper E p) w) in
      mmain m = Ret false
      /\ fs (mworld m) !! Wallpaper.CURRENT_FILE E = fs w !! Wallpaper.CURRENT_FILE E
      /\ exists l, trace (mworld m) = trace w ++ EvRun ["wallust"; "run"; p] true :: l.
Proof.
  cbv zeta.
  assert (Hno : "swaybg" ∉ tools SampleRuns.no_display) by (by vm_compute).
  assert (Hp : is_Some (fs SampleRuns.no_display !! SampleRuns.picture)) by (by eexists).
  assert (Hok : palette_ok SampleRuns.no_display SampleRuns.picture = true) by reflexivity.
  split; [by repeat split |].
  exact (failed_display_still_propagates Sample.E0 SampleRuns.picture SampleRuns.no_display
           Hno Hp Hok).
Defined.

(** ** The automation controller: records it cannot handle, and idle stops *)

Section Records.

Import Wallpaper.
Variable E : environ.

Local Abbreviation PID := (PID_FILE E).

(** A record that holds an integer outside the range of a C [int]:
    [os.kill] raises [OverflowError], which is not among the exceptions the
    controller treats as a stale record.  The call raises it, start or
    stop alike, and the record stays: nothing is removed, signalled,
    started or printed. *)
Theorem overflow_record_blocks_controller interval category w text pid :
  fs w !! PID = Some (File text) ->
  PyStr.int (PyStr.strip text) = Some pid ->
  in_pid_range pid = false ->
  run (manage_automation E interval category) w = (inr OverflowError, w).
Proof.
  intros Hfile Hint Hrange. unfold manage_automation.
  rewrite run_bind, run_perform. cbn [exec]. wsimpl.
  rewrite Hfile, bool_decide_eq_true_2 by done.
  rewrite run_bind, run_bind, run_catch, run_bind, run_attempt. cbn [exec].
  unfold exec_read. rewrite Hfile. wsimpl. rewrite run_bind. unfold py_int.
  rewrite Hint. cbn [run]. rewrite run_bind, run_attempt. cbn [exec]. unfold exec_kill.
  by rewrite Hrange.
Qed.

(** A stop with no record: nothing is signalled, removed or started; the
    files and processes are as before, and the only program run is the
    notification. *)
Theorem stop_when_idle interval category w :
  fs w !! PID = None -> interval <= 0 ->
  exists w' l,
    run (manage_automation E interval category) w = (inl tt, w')
    /\ fs w' = fs w /\ procs w' = procs w
    /\ trace w' = trace w ++ l
    /\ forall e, e ∈ l -> is_notification e.
Proof.
  intros Hnone Hstop.
  destruct (manage_idle E interval category w)
    as (w' & l & Hrun & _ & _ & Hl & Hres); [done | lia |].
  replace (0 <? interval) with false in Hres by (symmetry; apply Z.ltb_ge; lia).
  destruct Hres as (Hfs & Hprocs & Htrace).
  exists w', l. by repeat split.
Qed.

End Records.

Lemma overflow_record_blocks_controller_witness :
  let E := Sample.E0 in
  let w := Scenes.corrupted in
  fs w !! Wallpaper.PID_FILE E = Some (File "99999999999")
  /\ PyStr.int (PyStr.strip "99999999999") = Some 99999999999
  /\ in_pid_range 99999999999 = false
  /\ run (Wallpaper.manage_automation E 0 None) w = (inr OverflowError, w).
Proof.
  cbv zeta.
  assert (Hf : fs Scenes.corrupted !! Wallpaper.PID_FILE Sample.E0
               = Some (File "99999999999")) by (by vm_compute).
  assert (Hi : PyStr.int (PyStr.strip "99999999999") = Some 99999999999) by (by vm_compute).
  split; [exact Hf |]. split; [exact Hi |]. split; [reflexivity |].
  exact (overflow_record_blocks_controller Sample.E0 0 None Scenes.corrupted "99999999999"
           99999999999 Hf Hi eq_refl).
Defined.

Lemma stop_when_idle_witness :
  let E := Sample.E0 in
  let w := Sample.fresh in
  fs w !! Wallpaper.PID_FILE E = None /\ -5 <= 0
  /\ exists w' l,
      run (Wallpaper.manage_automation E (-5) None) w = (inl tt, w')
      /\ fs w' = fs w /\ procs w' = procs w
      /\ trace w' = trace w ++ l
      /\ forall e, e ∈ l -> is_notification e.
Proof.
  cbv zeta.
  assert (Hf : fs Sample.fresh !! Wallpaper.PID_FILE Sample.E0 = None) by (by vm_compute).
  assert (Hz : -5 <= 0) by lia.
  split; [exact Hf |]. split; [exact Hz |].
  exact (stop_when_idle Sample.E0 (-5) None Sample.fresh Hf Hz).
Defined.

(** ** What a successful [shuffle_wallpaper] leaves *)

Section WlpMono.

Context {A : Type}.
Variable G : world -> world -> Prop.

Lemma wlp_mono (Q Q' : A + exn -> world -> Prop) (p : prog A) w :
  (forall r w', Q r w' -> Q' r w') -> prog_wlp G p Q w -> prog_wlp G p Q' w.
Proof.
  intros HQ. revert w. induction p as [a | e | B [o | o] k IH]; intros w Hwlp w' Hg.
  - apply HQ, Hwlp, Hg.
  - apply HQ, Hwlp, Hg.
  - apply IH, Hwlp, Hg.
  - specialize (Hwlp w' Hg). destruct o as [body | t].
    + destruct Hwlp as [Hbody Hk]. split; [done |]. intros t. apply IH, Hk.
    + apply IH, Hwlp.
Qed.

End WlpMono.

Section ShuffleApplied.

Import Wallpaper.
Variable E : environ.

Local Abbreviation G := (worker_step E).

Lemma wlp_lift_bind_bind {A B C} (c : io B) (g : B -> io C) (k : C -> prog A) Q w :
  prog_wlp G (bind (lift c) (fun x => bind (lift (g x)) k)) Q w ->
  prog_wlp G (bind (lift (bind c g)) k) Q w.
Proof.
  revert w. induction c as [a | e | D o kk IH]; intros w Hwlp; [done | done |].
  intros w' Hg. apply IH, Hwlp, Hg.
Qed.

(** Whatever the threads do while the entries are examined, the images
    kept are entries with an image extension. *)
Lemma wlp_image_files {A} entries (k : list string -> prog A) Q w :
  (forall images w',
      Forall (fun f => f ∈ entries /\ has_image_suffix f = true) images ->
      prog_wlp G (k images) Q w') ->
  prog_wlp G (bind (lift (image_files entries)) k) Q w.
Proof.
  revert k w. induction entries as [| f rest IH]; intros k w Hk.
  - cbn [image_files lift bind]. by apply Hk.
  - cbn [image_files]. msimpl. apply wlp_seq. intros w1 Hg1. msimpl.
    apply wlp_lift_bind_bind. apply IH. intros images w' Himg. cbn [lift bind]. apply Hk.
    assert (Hrest : Forall (fun f0 => f0 ∈ f :: rest /\ has_image_suffix f0 = true) images).
    { eapply Forall_impl; [exact Himg |]. intros f0 [Hin Hs]. split; [by right | done]. }
    destruct (is_file_node (fs w1 !! f) && has_image_suffix f)%bool eqn:Hf; [| done].
    apply andb_true_iff in Hf as [_ Hs]. constructor; [| done]. split; [by left | done].
Qed.

Lemma rglob_below root w f : f ∈ exec_rglob root w -> PyPath.below root f = true.
Proof.
  unfold exec_rglob. destruct (fs w !! root) as [[c |] |]; try (intros H; by apply elem_of_nil in H).
  intros Hin. by apply list_elem_of_filter in Hin as [Hb _].
Qed.

(** When [shuffle_wallpaper] returns [True], an entry of the searched
    directory with an image extension is recorded and displayed. *)
Lemma shuffle_applied_wlp category w :
  prog_wlp G (shuffle_wallpaper E category)
    (fun r w' =>
       r = inl true ->
       exists f,
         PyPath.below (target_dir E category) f = true /\ has_image_suffix f = true
         /\ fs w' !! CURRENT_FILE E = Some (File f) /\ displays w' f) w.
Proof.
  unfold shuffle_wallpaper. fold (target_dir E category). msimpl.
  apply wlp_seq. intros w1 Hg1. msimpl.
  destruct (bool_decide (is_Some (fs w1 !! target_dir E category))); msimpl.
  2: { unfold log_error. msimpl. apply wlp_seq. intros w2 Hg2. msimpl.
       apply wlp_ret. intros w3 Hg3 Hb. congruence. }
  assert (Hrest : forall w2,
    prog_wlp G
      (entries ← lift (perform (Rglob (target_dir E category)));
       images ← lift (image_files entries);
       match images with
       | [] =>
           lift (log_error E ("No images found in " +:+ Fmt.PROP +:+ target_dir E category
                              +:+ Fmt.RESET));;
           Ret false
       | _ => chosen ← lift (random_choice images); set_wallpaper E chosen
       end)%py
      (fun r w' =>
         r = inl true ->
         exists f,
           PyPath.below (target_dir E category) f = true /\ has_image_suffix f = true
           /\ fs w' !! CURRENT_FILE E = Some (File f) /\ displays w' f) w2).
  { intros w2. msimpl. apply wlp_seq. intros w3 Hg3. msimpl.
    apply wlp_image_files. intros images w4 Himg.
    destruct images as [| f0 rest].
    { unfold log_error. msimpl. apply wlp_seq. intros w5 Hg5. msimpl.
      apply wlp_ret. intros w6 Hg6 Hb. congruence. }
    unfold random_choice. msimpl. apply wlp_seq. intros w5 Hg5. msimpl.
    eapply wlp_mono; [| apply set_wallpaper_applied_wlp].
    cbv beta. intros r w' Hpost Hr. destruct (Hpost Hr) as [Hcur Hshow].
    eexists. split; [| split; [| split; [exact Hcur | exact Hshow]]].
    - assert (Hin : nth (rand w5 (draws w5) mod length (f0 :: rest)) (f0 :: rest) ""
                    ∈ f0 :: rest) by (by apply nth_elem_of).
      eapply rglob_below. exact (proj1 (proj1 (Forall_forall _ _) Himg _ Hin)).
    - assert (Hin : nth (rand w5 (draws w5) mod length (f0 :: rest)) (f0 :: rest) ""
                    ∈ f0 :: rest) by (by apply nth_elem_of).
      exact (proj2 (proj1 (Forall_forall _ _) Himg _ Hin)). }
  destruct category as [c |]; unfold log_info; msimpl; apply wlp_seq; intros w2 Hg2; msimpl;
    apply Hrest.
Qed.

(** Under every interleaving of the workers, once [shuffle_wallpaper] has
    returned [True], the wallpaper recorded and displayed is an entry below
    the searched directory whose extension, letter case apart, is an image
    extension. *)
Theorem shuffle_applies_image category w sched :
  let m := run_schedule sched (start (shuffle_wallpaper E category) w) in
  mmain m = Ret true ->
  exists f,
    PyPath.below (target_dir E category) f = true
    /\ PyStr.lower (PyPath.suffix f) ∈ extensions
    /\ fs (mworld m) !! CURRENT_FILE E = Some (File f)
    /\ displays (mworld m) f.
Proof.
  cbv zeta. intros Hret.
  pose proof (shuffle_applied_wlp category w) as Hwlp.
  apply (wlp_inv_start _ _ _ _ (worker_step_refl E)) in Hwlp.
  destruct (wlp_sound _ (worker_step_refl E) (worker_step_trans E) _ sched _ (inl true) Hwlp)
    as (f & Hbelow & Hsuf & Hcur & Hshow); [by rewrite Hret | done |].
  exists f. split; [done |]. split; [| by split].
  by apply bool_decide_eq_true in Hsuf.
Qed.

End ShuffleApplied.

Lemma shuffle_applies_image_witness :
  let m := run_schedule (Scenes.good_round ++ [O])
             (start (Wallpaper.shuffle_wallpaper Sample.E0 (Some "space")) Sample.fresh) in
  mmain m = Ret true
  /\ exists f,
      PyPath.below (target_dir Sample.E0 (Some "space")) f = true
      /\ PyStr.lower (PyPath.suffix f) ∈ Wallpaper.extensions
      /\ fs (mworld m) !! Wallpaper.CURRENT_FILE Sample.E0 = Some (File f)
      /\ displays (mworld m) f.
Proof.
  cbv zeta.
  assert (Hret : mmain (run_schedule (Scenes.good_round ++ [O])
                          (start (Wallpaper.shuffle_wallpaper Sample.E0 (Some "space"))
                             Sample.fresh)) = Ret true) by (by vm_compute).
  split; [exact Hret |].
  exact (shuffle_applies_image Sample.E0 (Some "space") Sample.fresh
           (Scenes.good_round ++ [O]) Hret).
Defined.

(** ** The setter and the automation record *)

Section Isolation.

Import Wallpaper.
Variable E : environ.

(** Setting or shuffling a wallpaper never touches the automation record:
    under every interleaving of the main program and its tasks, at every
    step, the [automation_pid] file is as it was at the call, be it absent,
    a file or a directory. *)
Theorem setter_leaves_automation_record p category w sched :
  fs (mworld (run_schedule sched (start (set_wallpaper E p) w))) !! PID_FILE E
  = fs w !! PID_FILE E
  /\ fs (mworld (run_schedule sched (start (shuffle_wallpaper E category) w))) !! PID_FILE E
     = fs w !! PID_FILE E.
Proof.
  split.
  - assert (Hinv : keeps_inv (worker_step E) (record_is E (fs w !! PID_FILE E) (tools w))
                     (start (set_wallpaper E p) w)).
    { split; [done |]. split; [apply set_wallpaper_keeps | done]. }
    apply (keeps_inv_run _ (worker_step_refl E) _ (record_is_stable E _ _) sched) in Hinv.
    by destruct Hinv as ([Hrec _] & _).
  - assert (Hinv : keeps_inv (worker_step E) (record_is E (fs w !! PID_FILE E) (tools w))
                     (start (shuffle_wallpaper E category) w)).
    { split; [done |]. split; [apply shuffle_wallpaper_keeps | done]. }
    apply (keeps_inv_run _ (worker_step_refl E) _ (record_is_stable E _ _) sched) in Hinv.
    by destruct Hinv as ([Hrec _] & _).
Qed.

End Isolation.

(** ** A loop on a missing category *)

Section LoopOnNothing.

Import Wallpaper.
Variable E : environ.


End LoopOnNothing.

